(** * ZYEON AI backend: a shallow embedding of the orchestration core

  The development follows the three service files of the backend:
  - [services/ai_service.py]   : [RateLimiter], [retry_on_failure], [ZyeonAIService]
  - [models/conversation.py]   : [ConversationModel]
  - [services/voice_service.py]: [VoiceService]

  Python objects are records, dictionaries are [gmap string _], methods that
  mutate [self] are state-passing functions, and anything that can raise
  returns an [outcome].  Wall-clock readings ([time.time()],
  [datetime.now()]) are exact rationals, in seconds. *)

From Stdlib Require Import ZArith QArith String Ascii List Lia Lqa DecimalString Sorted.
From stdpp Require Import base gmap strings list.

Close Scope Q_scope.
Local Open Scope string_scope.
Local Open Scope list_scope.
Local Open Scope Z_scope.

(** ** Exact rational comparisons (the clock is read in seconds) *)

Definition Qltb (x y : Q) : bool := (Qnum x * QDen y <? Qnum y * QDen x)%Z.

(** ** The fragment of Python's [str] the services rely on *)

Module Py.

(** [c.isspace()] on the Latin-1 range. *)
Definition is_space (c : ascii) : bool :=
  let n := nat_of_ascii c in
  ((9 <=? n)%nat && (n <=? 13)%nat) || ((28 <=? n)%nat && (n <=? 32)%nat)
  || (n =? 133)%nat || (n =? 160)%nat.

(** [c.lower()] on the Latin-1 range: A-Z and the accented capitals. *)
Definition lower_char (c : ascii) : ascii :=
  let n := nat_of_ascii c in
  if ((65 <=? n)%nat && (n <=? 90)%nat)
     || ((192 <=? n)%nat && (n <=? 222)%nat && negb (n =? 215)%nat)
  then ascii_of_nat (n + 32) else c.

(** [s.lower()] *)
Fixpoint lower (s : string) : string :=
  match s with
  | EmptyString => EmptyString
  | String c r => String (lower_char c) (lower r)
  end.

Fixpoint lstrip (s : string) : string :=
  match s with
  | EmptyString => EmptyString
  | String c r => if is_space c then lstrip r else s
  end.

(** Right strip, written as a fold from the right end: a character is
    dropped when it is white and everything after it was dropped. *)
Fixpoint rstrip (s : string) : string :=
  match s with
  | EmptyString => EmptyString
  | String c r =>
      match rstrip r with
      | EmptyString => if is_space c then EmptyString else String c EmptyString
      | r' => String c r'
      end
  end.

(** [s.strip()] *)
Definition strip (s : string) : string := rstrip (lstrip s).

(** [needle in hay] *)
Fixpoint contains (needle hay : string) : bool :=
  String.prefix needle hay ||
  match hay with
  | EmptyString => false
  | String _ r => contains needle r
  end.

(** Truthiness of a [str]. *)
Definition truthy (s : string) : bool :=
  match s with EmptyString => false | _ => true end.

(** [str(n)] for an [int]. *)
Definition str_of_int (n : Z) : string := NilZero.string_of_int (Z.to_int n).

(** [int(x)] for a non-integral number: truncation towards zero. *)
Definition int_of (x : Q) : Z := Z.quot (Qnum x) (QDen x).

(** [round(x)]: to the nearest integer, ties to the even one. *)
Definition round_half_even (x : Q) : Z :=
  let f := (Qnum x / QDen x)%Z in
  let twice_rest := (2 * (Qnum x - f * QDen x))%Z in
  if (twice_rest <? QDen x)%Z then f
  else if (QDen x <? twice_rest)%Z then (f + 1)%Z
  else if Z.even f then f else (f + 1)%Z.

(** [round(x, 2)] *)
Definition round2 (x : Q) : Q := Qmake (round_half_even (x * 100)) 100.

(** [lst[-n:]] for a list and an [int] [n]: the last [n] items when [n] is
    positive, the whole list when [n] is zero ([-0] is [0]), and the list
    without its first [-n] items when [n] is negative. *)
Definition slice_last {A} (n : Z) (l : list A) : list A :=
  if 0 <? n then skipn (length l - Z.to_nat n) l
  else skipn (Z.to_nat (- n)) l.

End Py.

(** ** Exceptions and outcomes *)

Inductive exn : Type :=
| Exception (msg : string)          (* a plain [Exception(msg)] *)
| ValueError (msg : string)
| KeyError (msg : string)
| AttributeError (msg : string)
| RuntimeError (msg : string)
| APIError (msg : string)           (* whatever the OpenAI client raises *)
| PyMongoError (msg : string).      (* whatever the MongoDB driver raises *)

(** [str(e)] *)
Definition str_of_exn (e : exn) : string :=
  match e with
  | Exception m | ValueError m | KeyError m | AttributeError m
  | RuntimeError m | APIError m | PyMongoError m => m
  end.

Inductive outcome (A : Type) : Type :=
| Return (a : A)
| Raise (e : exn).
Arguments Return {A} a.
Arguments Raise {A} e.

(** A computation over a mutable state [S] that may raise. *)
Definition M (S A : Type) : Type := S -> outcome A * S.

Definition ret {S A} (a : A) : M S A := fun s => (Return a, s).
Definition raise {S A} (e : exn) : M S A := fun s => (Raise e, s).
Definition bind {S A B} (m : M S A) (k : A -> M S B) : M S B :=
  fun s => match m s with
           | (Return a, s') => k a s'
           | (Raise e, s') => (Raise e, s')
           end.
(** [try: body  except Exception as e: handler e] *)
Definition try_except {S A} (body : M S A) (handler : exn -> M S A) : M S A :=
  fun s => match body s with
           | (Return a, s') => (Return a, s')
           | (Raise e, s') => handler e s'
           end.
Definition get {S} : M S S := fun s => (Return s, s).
Definition lift {S A} (o : outcome A) : M S A := fun s => (o, s).
Definition modify {S} (f : S -> S) : M S unit := fun s => (Return tt, f s).

Notation "'do' x <- m ; k" := (bind m (fun x => k))
  (at level 10, x name, m at level 99, k at level 200).

(** ** [class RateLimiter] *)

Module RateLimiter.

Record t : Type := mk {
  max_calls : Z;
  time_window : Z;
  calls : list Q;           (* [self.calls], oldest first *)
}.

(** [__init__(self, max_calls=60, time_window=60)] *)
Definition init (max_calls time_window : Z) : t := mk max_calls time_window [].

(** [now - call_time < self.time_window] *)
Definition fresh (w : Z) (now call_time : Q) : bool :=
  Qltb (now - call_time) (inject_Z w).

(** [can_make_call]: rebinds [self.calls] to the entries still inside the
    window, then compares the length with the ceiling.  [now] is the value
    [time.time()] returns inside the call. *)
Definition can_make_call (now : Q) (rl : t) : bool * t :=
  let kept := List.filter (fresh (time_window rl) now) (calls rl) in
  (Z.of_nat (length kept) <? max_calls rl,
   mk (max_calls rl) (time_window rl) kept).

(** [record_call]: [self.calls.append(time.time())] *)
Definition record_call (now : Q) (rl : t) : t :=
  mk (max_calls rl) (time_window rl) (calls rl ++ [now]).

(** The limiter after [record_call] ran at each of the times [ts], in order. *)
Definition recorded (ts : list Q) (rl : t) : t :=
  fold_left (fun r now => record_call now r) ts rl.

(** A call stamped [call_time] falls strictly within the trailing window of
    [w] seconds at time [now]. *)
Definition within_window (w : Z) (now call_time : Q) : Prop :=
  (now - call_time < inject_Z w)%Q.

(** How many of the stamps fall strictly within the trailing window. *)
Definition count_within (w : Z) (now : Q) (ts : list Q) : nat :=
  length (List.filter (fresh w now) ts).

(** A history of the limiter in which checks are interleaved with the
    recordings. *)
Inductive op : Type := Check (now : Q) | Record (now : Q).

Definition run_op (o : op) (rl : t) : t :=
  match o with
  | Check now => snd (can_make_call now rl)
  | Record now => record_call now rl
  end.

Definition recorded_stamps (ops : list op) : list Q :=
  flat_map (fun o => match o with Record c => [c] | Check _ => [] end) ops.

(** The check, if it is one, happened no later than [now]. *)
Definition checked_by (now : Q) (o : op) : Prop :=
  match o with Check t => (t <= now)%Q | Record _ => True end.

End RateLimiter.


(** ** Python values stored in dictionaries and documents *)

#[local] Set Warnings "-register-all".

Inductive value : Type :=
| VNone
| VBool (b : bool)
| VInt (n : Z)
| VNum (x : Q)                      (* a [float] *)
| VStr (s : string)
| VDate (t : Q)                     (* a [datetime], as Unix seconds *)
| VIso (t : Q)                      (* [datetime.isoformat()] of that instant *)
| VOid (n : nat)                    (* a [bson.ObjectId] *)
| VDict (d : gmap string value).

(** A Python [dict] with string keys. *)
Abbreviation dict := (gmap string value).

(** ** [class ZyeonAIService] and the [retry_on_failure] decorator *)

Module ZyeonAIService.

(** One role-tagged entry of the prompt: [{"role": r, "content": c}]. *)
Record message : Type := Message { role : string; content : value }.

(** The keyword arguments of [client.chat.completions.create]. *)
Record request : Type := Request {
  req_model : string;
  req_messages : list message;
  req_max_tokens : Z;
  req_temperature : Q;
  req_presence_penalty : Q;
  req_frequency_penalty : Q;
}.

(** What the call returns: [choices[0].message.content] and [usage]. *)
Record completion : Type := Completion {
  choice_content : string;
  total_tokens : Z;
  prompt_tokens : Z;
  completion_tokens : Z;
}.

(** Records handed to [logger]. *)
Inductive log_record : Type :=
| LogInitialized (model : string)
| LogRetrying (attempt : Z) (e : exn) (delay : Q)     (* warning *)
| LogGenerated (response_time : value) (tokens : value)  (* info *)
| LogServiceError (e : exn).                          (* error *)

(** The service object together with the part of the process it touches:
    the wall clock, the OpenAI client, [time.sleep] and the logger. *)
Record state : Type := State {
  api_key : string;
  model : string;
  rate_limiter : RateLimiter.t;
  system_prompts : gmap string string;
  max_context_messages : Z;
  max_tokens_per_request : Z;
  clock : nat -> Q;                 (* the n-th reading of the wall clock *)
  ticks : nat;                      (* readings taken so far *)
  client : nat -> request -> outcome completion;
                                    (* the n-th upstream invocation *)
  sent : list request;              (* upstream invocations so far *)
  slept : list Q;                   (* arguments of [time.sleep], in order *)
  logged : list log_record;
}.

Definition with_rate_limiter (rl : RateLimiter.t) (s : state) : state :=
  State (api_key s) (model s) rl (system_prompts s) (max_context_messages s)
        (max_tokens_per_request s) (clock s) (ticks s) (client s) (sent s)
        (slept s) (logged s).

Definition with_ticks (n : nat) (s : state) : state :=
  State (api_key s) (model s) (rate_limiter s) (system_prompts s)
        (max_context_messages s) (max_tokens_per_request s) (clock s) n
        (client s) (sent s) (slept s) (logged s).

Definition with_sent (l : list request) (s : state) : state :=
  State (api_key s) (model s) (rate_limiter s) (system_prompts s)
        (max_context_messages s) (max_tokens_per_request s) (clock s) (ticks s)
        (client s) l (slept s) (logged s).

Definition with_slept (l : list Q) (s : state) : state :=
  State (api_key s) (model s) (rate_limiter s) (system_prompts s)
        (max_context_messages s) (max_tokens_per_request s) (clock s) (ticks s)
        (client s) (sent s) l (logged s).

Definition with_logged (l : list log_record) (s : state) : state :=
  State (api_key s) (model s) (rate_limiter s) (system_prompts s)
        (max_context_messages s) (max_tokens_per_request s) (clock s) (ticks s)
        (client s) (sent s) (slept s) l.

(** [time.time()] / [datetime.now()] *)
Definition time_time : M state Q :=
  fun s => (Return (clock s (ticks s)), with_ticks (S (ticks s)) s).

(** [time.sleep(d)] *)
Definition time_sleep (d : Q) : M state unit :=
  modify (fun s => with_slept (slept s ++ [d]) s).

Definition log (r : log_record) : M state unit :=
  modify (fun s => with_logged (logged s ++ [r]) s).

(** [self.rate_limiter.can_make_call()] *)
Definition can_make_call : M state bool :=
  do now <- time_time;
  fun s => let '(ok, rl) := RateLimiter.can_make_call now (rate_limiter s) in
           (Return ok, with_rate_limiter rl s).

(** [self.rate_limiter.record_call()] *)
Definition record_call : M state unit :=
  do now <- time_time;
  modify (fun s => with_rate_limiter (RateLimiter.record_call now (rate_limiter s)) s).

(** [self.client.chat.completions.create(...)] *)
Definition chat_completions_create (r : request) : M state completion :=
  fun s => (client s (length (sent s)) r, with_sent (sent s ++ [r]) s).

Definition default_prompt : string :=
  "You are ZYEON, an advanced AI assistant with a futuristic personality. 
            You are helpful, intelligent, and slightly mysterious. Keep responses concise but informative.
            You have access to real-time capabilities and can process voice commands.
            Always maintain a professional yet engaging tone. You can remember context from previous messages.".

Definition voice_prompt : string :=
  "You are ZYEON, an advanced AI assistant optimized for voice interaction.
            Keep responses brief and conversational, suitable for text-to-speech.
            Avoid using special characters, markdown, or complex formatting.
            Speak naturally as if having a conversation.".

Definition technical_prompt : string :=
  "You are ZYEON, a technical AI assistant specializing in programming and technology.
            Provide detailed, accurate technical information. Use code examples when helpful.
            Explain complex concepts clearly and offer practical solutions.".

Definition initial_system_prompts : gmap string string :=
  <["default" := default_prompt]>
    (<["voice" := voice_prompt]> (<["technical" := technical_prompt]> ∅)).

(** [__init__(self, api_key, model="gpt-3.5-turbo")], in a process whose
    clock, client and logs are those of [env]. *)
Definition init (api_key model : string) (env : state) : state :=
  State api_key model (RateLimiter.init 50 60) initial_system_prompts 20 1000
        (clock env) (ticks env) (client env) (sent env) (slept env)
        (logged env ++ [LogInitialized model]).

(** [self.system_prompts.get(context_type, self.system_prompts["default"])]:
    the fallback is evaluated first, so a table without the key ["default"]
    is a [KeyError] whatever [context_type] is. *)
Definition _get_system_prompt (s : state) (context_type : string) : outcome string :=
  match system_prompts s !! "default" with
  | None => Raise (KeyError "'default'")
  | Some fallback => Return (default fallback (system_prompts s !! context_type))
  end.

(** The two prompt entries a stored turn contributes; an entry of the
    history that lacks either key contributes nothing. *)
Definition turn_messages (msg : dict) : list message :=
  match msg !! "user_message", msg !! "ai_response" with
  | Some u, Some a => [Message "user" u; Message "assistant" a]
  | _, _ => []
  end.

Definition _prepare_conversation_context
    (s : state) (conversation_history : list dict) (context_type : string)
  : outcome (list message) :=
  match _get_system_prompt s context_type with
  | Raise e => Raise e
  | Return p =>
      let recent_history :=
        Py.slice_last (max_context_messages s) conversation_history in
      Return (Message "system" (VStr p) :: flat_map turn_messages recent_history)
  end.

(** The message list handed to the model for one call: the prepared
    context followed by the stripped user input. *)
Definition prompt_for (s : state) (user_input : string)
    (conversation_history : option (list dict)) (context_type : string)
  : outcome (list message) :=
  match _prepare_conversation_context s (default [] conversation_history)
                                      context_type with
  | Raise e => Raise e
  | Return messages =>
      Return (messages ++ [Message "user" (VStr (Py.strip user_input))])
  end.

Definition rate_limit_apology : string :=
  "I'm experiencing high demand right now. Please try again in a moment.".
Definition invalid_apology : string :=
  "I'm having trouble processing your request. Please try rephrasing it.".
Definition authentication_apology : string :=
  "I'm experiencing authentication issues. Please contact support.".
Definition connection_apology : string :=
  "I'm having trouble connecting to my AI services. Please try again.".
Definition generic_apology : string :=
  "I apologize, but I'm experiencing technical difficulties. Please try again.".

(** The [except Exception as e] branch of [get_ai_response]. *)
Definition degraded_response (e : exn) : string * dict :=
  let m := Py.lower (str_of_exn e) in
  if Py.contains "rate_limit" m then (rate_limit_apology, ∅)
  else if Py.contains "invalid" m then (invalid_apology, ∅)
  else if Py.contains "authentication" m then (authentication_apology, ∅)
  else if Py.contains "connection" m then (connection_apology, ∅)
  else (generic_apology, ∅).

(** The [try] block of [get_ai_response]. *)
Definition get_ai_response_try
    (user_input : string) (conversation_history : option (list dict))
    (context_type : string) (temperature : Q) (max_tokens : option Z)
  : M state (string * dict) :=
  do ok <- can_make_call;
  if negb ok then raise (Exception "Rate limit exceeded. Please try again later.")
  else if negb (Py.truthy user_input) || negb (Py.truthy (Py.strip user_input))
  then raise (ValueError "User input cannot be empty")
  else
  do s <- get;
  if negb (Py.truthy (api_key s))
  then raise (ValueError "OpenAI API key not configured")
  else
  do messages <- lift (prompt_for s user_input conversation_history context_type);
  let max_tokens := default (max_tokens_per_request s) max_tokens in
  do _ <- record_call;
  do start_time <- time_time;
  do response <- chat_completions_create
                   (Request (model s) messages max_tokens temperature (1 # 10) (1 # 10));
  do end_time <- time_time;
  let ai_response := Py.strip (choice_content response) in
  do now <- time_time;
  let metadata : dict :=
    <["model" := VStr (model s)]> (
    <["context_type" := VStr context_type]> (
    <["temperature" := VNum temperature]> (
    <["max_tokens" := VInt max_tokens]> (
    <["response_time" := VNum (Py.round2 (end_time - start_time))]> (
    <["tokens_used" := VInt (total_tokens response)]> (
    <["prompt_tokens" := VInt (prompt_tokens response)]> (
    <["completion_tokens" := VInt (completion_tokens response)]> (
    <["timestamp" := VIso now]> ∅)))))))) in
  do _ <- log (LogGenerated (VNum (Py.round2 (end_time - start_time)))
                            (VInt (total_tokens response)));
  ret (ai_response, metadata).

(** The undecorated method: the [try] block with its handler. *)
Definition get_ai_response_undecorated
    (user_input : string) (conversation_history : option (list dict))
    (context_type : string) (temperature : Q) (max_tokens : option Z)
  : M state (string * dict) :=
  try_except
    (get_ai_response_try user_input conversation_history context_type
                         temperature max_tokens)
    (fun e => do _ <- log (LogServiceError e); ret (degraded_response e)).

(** [range(n)] *)
Definition range (n : Z) : list Z := map Z.of_nat (seq 0 (Z.to_nat n)).

(** The [for attempt in range(max_retries)] loop of [wrapper], over the
    attempts still to run.  Falling out of the loop returns [None]. *)
Fixpoint retry_loop {A} (max_retries : Z) (delay : Q) (func : M state A)
    (attempts : list Z) : M state (option A) :=
  match attempts with
  | [] => ret None
  | attempt :: rest =>
      try_except
        (do r <- func; ret (Some r))
        (fun e =>
           if attempt =? max_retries - 1 then raise e
           else
             do _ <- log (LogRetrying (attempt + 1) e delay);
             do _ <- time_sleep (delay * inject_Z (2 ^ attempt));
             retry_loop max_retries delay func rest)
  end.

(** [retry_on_failure(max_retries=3, delay=1.0)(func)] *)
Definition retry_on_failure {A} (max_retries : Z) (delay : Q) (func : M state A)
  : M state (option A) :=
  retry_loop max_retries delay func (range max_retries).

(** [get_ai_response], as decorated with
    [@retry_on_failure(max_retries=3, delay=1.0)]. *)
Definition get_ai_response
    (user_input : string) (conversation_history : option (list dict))
    (context_type : string) (temperature : Q) (max_tokens : option Z)
  : M state (option (string * dict)) :=
  retry_on_failure 3 1
    (get_ai_response_undecorated user_input conversation_history context_type
                                 temperature max_tokens).

End ZyeonAIService.

(** ** [class ConversationModel] over a MongoDB database *)

Module ConversationModel.

Inductive log_record : Type :=
| LogConversationSaved (oid : nat)
| LogSessionCreated (oid : nat)
| LogSessionEnded (session_id : string)
| LogError (context : string) (e : exn).

(** The three collections of [db_client.zyeon_ai] the model keeps handles
    to, with the process state its methods touch.  A collection is the
    list of its documents in insertion order.  [online] tells whether the
    server answers: when it does not, every driver call raises. *)
Record state : Type := State {
  conversations : list dict;
  users : list dict;
  sessions : list dict;
  next_oid : nat;                   (* the next [ObjectId] to hand out *)
  online : bool;
  clock : nat -> Q;
  ticks : nat;
  logged : list log_record;
}.

Definition with_conversations (l : list dict) (s : state) : state :=
  State l (users s) (sessions s) (next_oid s) (online s) (clock s) (ticks s) (logged s).

Definition with_sessions (l : list dict) (s : state) : state :=
  State (conversations s) (users s) l (next_oid s) (online s) (clock s) (ticks s) (logged s).

Definition with_next_oid (n : nat) (s : state) : state :=
  State (conversations s) (users s) (sessions s) n (online s) (clock s) (ticks s) (logged s).

Definition with_ticks (n : nat) (s : state) : state :=
  State (conversations s) (users s) (sessions s) (next_oid s) (online s) (clock s) n (logged s).

Definition with_logged (l : list log_record) (s : state) : state :=
  State (conversations s) (users s) (sessions s) (next_oid s) (online s) (clock s) (ticks s) l.

(** [datetime.now()] / [datetime.now(timezone.utc)], as Unix seconds. *)
Definition datetime_now : M state Q :=
  fun s => (Return (clock s (ticks s)), with_ticks (S (ticks s)) s).

Definition log (r : log_record) : M state unit :=
  modify (fun s => with_logged (logged s ++ [r]) s).

(** Every driver call starts by reaching the server. *)
Definition reach_server : M state unit :=
  fun s => if online s then (Return tt, s)
           else (Raise (PyMongoError "ServerSelectionTimeoutError"), s).

(** *** The driver operations the model uses *)

(** The document holds the string [v] under [k]. *)
Definition has_str (k v : string) (d : dict) : bool :=
  match d !! k with
  | Some (VStr v') => String.eqb v v'
  | _ => false
  end.

(** An equality query such as [{"user_id": u, "session_id": s}]. *)
Definition matches (query : gmap string string) (d : dict) : bool :=
  forallb (fun kv => has_str (fst kv) (snd kv) d) (map_to_list query).

(** The sort key of [.sort("timestamp", DESCENDING)]: dates compare by
    instant, and every other value (or no value) sorts below all dates. *)
Definition sort_key (d : dict) : option Q :=
  match d !! "timestamp" with
  | Some (VDate t) => Some t
  | _ => None
  end.

(** [a] may stand before [b] in descending order. *)
Definition key_geb (a b : option Q) : bool :=
  match a, b with
  | _, None => true
  | None, Some _ => false
  | Some x, Some y => Qle_bool y x
  end.

Fixpoint insert_desc (d : dict) (l : list dict) : list dict :=
  match l with
  | [] => [d]
  | x :: r => if key_geb (sort_key d) (sort_key x) then d :: l
              else x :: insert_desc d r
  end.

(** A stable descending sort. *)
Definition sort_desc (l : list dict) : list dict := fold_right insert_desc [] l.

(** [cursor.limit(n)]: zero means no limit, a negative limit counts as its
    absolute value. *)
Definition cursor_limit (n : Z) (l : list dict) : list dict :=
  if n =? 0 then l else firstn (Z.to_nat (Z.abs n)) l.

(** [coll.find(query, {"_id": 0}).sort("timestamp", DESCENDING)
         .skip(offset).limit(limit)], materialised by [list(...)].
    [skip] rejects a negative offset when the cursor is built. *)
Definition find_page (query : gmap string string) (offset limit : Z)
    (coll : list dict) : M state (list dict) :=
  if offset <? 0 then raise (ValueError "skip must be >= 0")
  else
    do _ <- reach_server;
    ret (cursor_limit limit
           (skipn (Z.to_nat offset)
              (sort_desc (map (delete "_id") (List.filter (matches query) coll))))).

(** [insert_one] on a collection without unique index: the document is
    stored with a fresh [_id]. *)
Definition insert_conversation (d : dict) : M state nat :=
  do _ <- reach_server;
  do s <- get;
  let oid := next_oid s in
  do _ <- modify (fun s => with_next_oid (S oid)
                    (with_conversations (conversations s ++ [<["_id" := VOid oid]> d]) s));
  ret oid.

(** Two documents collide on the unique index over [session_id]. *)
Definition same_session (d d' : dict) : bool :=
  match d !! "session_id" with
  | Some (VStr v) => has_str "session_id" v d'
  | _ => false
  end.

(** [insert_one] on [sessions], whose index on [session_id] is unique. *)
Definition insert_session (d : dict) : M state nat :=
  do _ <- reach_server;
  do s <- get;
  if existsb (same_session d) (sessions s)
  then raise (PyMongoError "DuplicateKeyError")
  else
    let oid := next_oid s in
    do _ <- modify (fun s => with_next_oid (S oid)
                      (with_sessions (sessions s ++ [<["_id" := VOid oid]> d]) s));
    ret oid.

(** [update_one(filter, {"$set": ...})] without upsert: the first matching
    document is rewritten, and nothing happens when none matches. *)
Fixpoint update_first (p : dict -> bool) (f : dict -> dict) (l : list dict)
  : list dict :=
  match l with
  | [] => []
  | d :: r => if p d then f d :: r else d :: update_first p f r
  end.

Definition update_one_session (query : gmap string string) (f : dict -> dict)
  : M state unit :=
  do _ <- reach_server;
  modify (fun s => with_sessions (update_first (matches query) f (sessions s)) s).

(** [str(result.inserted_id)]; the rendering of an [ObjectId] is the
    driver's business, a decimal stands for it here. *)
Definition str_of_oid (oid : nat) : string := Py.str_of_int (Z.of_nat oid).

(** *** The methods *)

(** [x or fallback] for an optional string. *)
Definition truthy_str (x : option string) : option string :=
  match x with
  | Some s => if Py.truthy s then Some s else None
  | None => None
  end.

(** [f"conv_{int(datetime.now().timestamp())}"] *)
Definition generated_conversation_id (now : Q) : string :=
  "conv_" +:+ Py.str_of_int (Py.int_of now).

Definition value_of_opt_str (x : option string) : value :=
  match x with Some s => VStr s | None => VNone end.

Definition create_conversation
    (user_message ai_response user_id : string)
    (conversation_id session_id : option string)
    (message_type : string) (metadata : option dict) : M state string :=
  try_except
    (do cid <- match truthy_str conversation_id with
               | Some c => ret c
               | None => do now <- datetime_now; ret (generated_conversation_id now)
               end;
     do timestamp <- datetime_now;
     do created_at <- datetime_now;
     do updated_at <- datetime_now;
     let conversation_data : dict :=
       <["conversation_id" := VStr cid]> (
       <["user_id" := VStr user_id]> (
       <["session_id" := value_of_opt_str session_id]> (
       <["timestamp" := VDate timestamp]> (
       <["user_message" := VStr user_message]> (
       <["ai_response" := VStr ai_response]> (
       <["message_type" := VStr message_type]> (
       <["metadata" := VDict (default ∅ metadata)]> (
       <["created_at" := VDate created_at]> (
       <["updated_at" := VDate updated_at]> ∅))))))))) in
     do oid <- insert_conversation conversation_data;
     do _ <- log (LogConversationSaved oid);
     ret (str_of_oid oid))
    (fun e => do _ <- log (LogError "Error creating conversation" e); raise e).

(** [datetime.isoformat()]; any other value has no such method. *)
Definition isoformat (v : value) : outcome value :=
  match v with
  | VDate t => Return (VIso t)
  | _ => Raise (AttributeError "object has no attribute 'isoformat'")
  end.

(** [if k in conv: conv[k] = conv[k].isoformat()] *)
Definition isoformat_field (k : string) (conv : dict) : outcome dict :=
  match conv !! k with
  | None => Return conv
  | Some v => match isoformat v with
              | Return v' => Return (<[k := v']> conv)
              | Raise e => Raise e
              end
  end.

Definition serialize (conv : dict) : outcome dict :=
  match isoformat_field "timestamp" conv with
  | Raise e => Raise e
  | Return c1 =>
      match isoformat_field "created_at" c1 with
      | Raise e => Raise e
      | Return c2 => isoformat_field "updated_at" c2
      end
  end.

(** The [for conv in conversations] loop. *)
Fixpoint serialize_all (l : list dict) : outcome (list dict) :=
  match l with
  | [] => Return []
  | conv :: r =>
      match serialize conv with
      | Raise e => Raise e
      | Return conv' =>
          match serialize_all r with
          | Raise e => Raise e
          | Return r' => Return (conv' :: r')
          end
      end
  end.

(** The [query] dictionary built from the filters that are truthy. *)
Definition history_query (user_id conversation_id session_id : option string)
  : gmap string string :=
  let q0 : gmap string string := ∅ in
  let q1 := match truthy_str user_id with
            | Some u => <["user_id" := u]> q0 | None => q0 end in
  let q2 := match truthy_str conversation_id with
            | Some c => <["conversation_id" := c]> q1 | None => q1 end in
  match truthy_str session_id with
  | Some x => <["session_id" := x]> q2 | None => q2 end.

Definition get_conversation_history
    (user_id conversation_id session_id : option string) (limit offset : Z)
  : M state (list dict) :=
  try_except
    (do s <- get;
     do conversations <-
        find_page (history_query user_id conversation_id session_id)
                  offset limit (conversations s);
     lift (serialize_all conversations))
    (fun e => do _ <- log (LogError "Error getting conversation history" e);
              ret []).

Definition create_session (user_id session_id : string) (metadata : option dict)
  : M state string :=
  try_except
    (do created_at <- datetime_now;
     do updated_at <- datetime_now;
     let session_data : dict :=
       <["session_id" := VStr session_id]> (
       <["user_id" := VStr user_id]> (
       <["metadata" := VDict (default ∅ metadata)]> (
       <["created_at" := VDate created_at]> (
       <["updated_at" := VDate updated_at]> (
       <["is_active" := VBool true]> ∅))))) in
     do oid <- insert_session session_data;
     do _ <- log (LogSessionCreated oid);
     ret (str_of_oid oid))
    (fun e => do _ <- log (LogError "Error creating session" e); raise e).

(** The [$set] document of [end_session]. *)
Definition set_ended (ended_at updated_at : Q) (d : dict) : dict :=
  <["is_active" := VBool false]> (
  <["ended_at" := VDate ended_at]> (
  <["updated_at" := VDate updated_at]> d)).

Definition end_session (session_id : string) : M state unit :=
  try_except
    (do ended_at <- datetime_now;
     do updated_at <- datetime_now;
     do _ <- update_one_session {["session_id" := session_id]}
                                (set_ended ended_at updated_at);
     log (LogSessionEnded session_id))
    (fun e => log (LogError "Error ending session" e)).


End ConversationModel.

(** ** [class VoiceService]: the listening switch *)

Module VoiceService.

(** A [threading.Thread] as the service sees it: whether it is alive and
    what [join(timeout=2)] does. *)
Record thread : Type := Thread {
  is_alive : bool;
  join : outcome unit;
}.

(** A callback is a callable without arguments; all the service observes
    of it is whether calling it raises. *)
Definition callback : Type := outcome unit.

Inductive log_record : Type :=
| LogUnavailable                    (* error: "Speech recognition not available" *)
| LogAlreadyListening               (* warning *)
| LogStarted                        (* info *)
| LogStopped                        (* info *)
| LogStartError (e : exn)
| LogStopError (e : exn).

Record state : Type := State {
  is_listening : bool;
  is_speaking : bool;
  voice_thread : option thread;
  recognizer : bool;                (* [false] stands for [None] *)
  microphone : bool;
  on_listening_started : option callback;
  on_listening_stopped : option callback;
  thread_start : outcome unit;      (* what [Thread.start()] does next *)
  called : list string;             (* callbacks invoked, in order *)
  logged : list log_record;
}.

Definition with_is_listening (b : bool) (s : state) : state :=
  State b (is_speaking s) (voice_thread s) (recognizer s) (microphone s)
        (on_listening_started s) (on_listening_stopped s) (thread_start s)
        (called s) (logged s).

Definition with_voice_thread (t : option thread) (s : state) : state :=
  State (is_listening s) (is_speaking s) t (recognizer s) (microphone s)
        (on_listening_started s) (on_listening_stopped s) (thread_start s)
        (called s) (logged s).

Definition with_called (l : list string) (s : state) : state :=
  State (is_listening s) (is_speaking s) (voice_thread s) (recognizer s)
        (microphone s) (on_listening_started s) (on_listening_stopped s)
        (thread_start s) l (logged s).

Definition with_logged (l : list log_record) (s : state) : state :=
  State (is_listening s) (is_speaking s) (voice_thread s) (recognizer s)
        (microphone s) (on_listening_started s) (on_listening_stopped s)
        (thread_start s) (called s) l.

Definition with_callbacks (started stopped : option callback) (s : state) : state :=
  State (is_listening s) (is_speaking s) (voice_thread s) (recognizer s)
        (microphone s) started stopped (thread_start s) (called s) (logged s).

Definition with_thread_start (o : outcome unit) (s : state) : state :=
  State (is_listening s) (is_speaking s) (voice_thread s) (recognizer s)
        (microphone s) (on_listening_started s) (on_listening_stopped s)
        o (called s) (logged s).

Definition log (r : log_record) : M state unit :=
  modify (fun s => with_logged (logged s ++ [r]) s).

(** [if cb: cb()] *)
Definition call_if_set (name : string) (cb : option callback) : M state unit :=
  match cb with
  | None => ret tt
  | Some run =>
      do _ <- modify (fun s => with_called (called s ++ [name]) s);
      lift run
  end.

(** [__init__]: nothing is listening; [_initialize_speech_recognition]
    leaves both devices set, or both [None] when anything in it raised. *)
Definition init (capture_available : bool) (thread_start : outcome unit) : state :=
  State false false None capture_available capture_available None None
        thread_start [] [].

Definition start_listening : M state bool :=
  do s <- get;
  if negb (recognizer s) || negb (microphone s)
  then do _ <- log LogUnavailable; ret false
  else if is_listening s
  then do _ <- log LogAlreadyListening; ret true
  else
    try_except
      (do _ <- modify (with_is_listening true);
       do _ <- modify (with_voice_thread (Some (Thread false (Return tt))));
       do _ <- lift (thread_start s);
       do _ <- modify (with_voice_thread (Some (Thread true (Return tt))));
       do _ <- call_if_set "on_listening_started" (on_listening_started s);
       do _ <- log LogStarted;
       ret true)
      (fun e =>
         do _ <- log (LogStartError e);
         do _ <- modify (with_is_listening false);
         ret false).

Definition stop_listening : M state bool :=
  try_except
    (do _ <- modify (with_is_listening false);
     do s <- get;
     do _ <- match voice_thread s with
             | Some t => if is_alive t then lift (join t) else ret tt
             | None => ret tt
             end;
     do _ <- call_if_set "on_listening_stopped" (on_listening_stopped s);
     do _ <- log LogStopped;
     ret true)
    (fun e => do _ <- log (LogStopError e); ret false).

(** What can happen to a service between two calls from outside. *)
Inductive step : state -> state -> Prop :=
| step_start s : step s (snd (start_listening s))
| step_stop s : step s (snd (stop_listening s))
| step_set_callbacks s started stopped :
    step s (with_callbacks started stopped s)
| step_loop_exit s :                (* the [finally] of [_listen_loop] *)
    step s (with_is_listening false s)
| step_thread s t :                 (* the listener thread lives or dies *)
    step s (with_voice_thread t s)
| step_environment s o :
    step s (with_thread_start o s).

(** The states a service built by [__init__] can be in. *)
Inductive reachable : state -> Prop :=
| reachable_init capture_available o : reachable (init capture_available o)
| reachable_step s s' : reachable s -> step s s' -> reachable s'.

End VoiceService.

(** * Scenarios and specification-side definitions *)

Module Scenario.

(** How many of the stamps fall strictly within the trailing window, in
    the words of the specification. *)
Fixpoint calls_in_window (w : Z) (now : Q) (ts : list Q) : nat :=
  match ts with
  | [] => 0
  | c :: r =>
      (if Qlt_le_dec (now - c) (inject_Z w) then 1 else 0)
      + calls_in_window w now r
  end%nat.

(** A limiter whose only recorded call is a hundred seconds old. *)
Definition stale_limiter : RateLimiter.t := RateLimiter.mk 60 60 [0%Q].

(** A limiter with two calls still inside the window. *)
Definition busy_limiter : RateLimiter.t := RateLimiter.mk 60 60 [50%Q; 70%Q].

End Scenario.

(** ** The course of one [get_ai_response] call *)

Module Trace.
Import ZyeonAIService.

(** What the admission check raises. *)
Definition rate_limit_exceeded : exn :=
  Exception "Rate limit exceeded. Please try again later.".

(** The service once [can_make_call] has read the clock and pruned. *)
Definition after_check (s : state) : state :=
  with_rate_limiter
    (snd (RateLimiter.can_make_call (clock s (ticks s)) (rate_limiter s)))
    (with_ticks (S (ticks s)) s).

(** ... once [record_call] has logged the next clock reading. *)
Definition after_record (s : state) : state :=
  let s1 := after_check s in
  with_rate_limiter
    (RateLimiter.record_call (clock s (S (ticks s))) (rate_limiter s1))
    (with_ticks (S (S (ticks s))) s1).

(** ... once [start_time] is taken and the request [r] has gone out. *)
Definition after_upstream (r : request) (s : state) : state :=
  let s2 := after_record s in
  with_sent (sent s ++ [r]) (with_ticks (S (S (S (ticks s)))) s2).

(** The input fails [if not user_input or not user_input.strip()]. *)
Definition blank (user_input : string) : bool :=
  negb (Py.truthy user_input) || negb (Py.truthy (Py.strip user_input)).

Definition request_of (s : state) (messages : list message)
    (temperature : Q) (max_tokens : option Z) : request :=
  Request (model s) messages (default (max_tokens_per_request s) max_tokens)
          temperature (1 # 10) (1 # 10).

(** The admission check lets the next call through. *)
Definition passes (s : state) : bool :=
  fst (RateLimiter.can_make_call (clock s (ticks s)) (rate_limiter s)).

(** The second state differs from the first at most in the limiter's log,
    the clock readings taken, the requests sent, the sleeps and the log. *)
Definition same_service (s s' : state) : Prop :=
  api_key s' = api_key s /\ model s' = model s
  /\ system_prompts s' = system_prompts s
  /\ max_context_messages s' = max_context_messages s
  /\ max_tokens_per_request s' = max_tokens_per_request s
  /\ clock s' = clock s /\ client s' = client s
  /\ RateLimiter.max_calls (rate_limiter s') = RateLimiter.max_calls (rate_limiter s)
  /\ RateLimiter.time_window (rate_limiter s') = RateLimiter.time_window (rate_limiter s).

(** The five canned replies. *)
Definition apologies : list string :=
  [rate_limit_apology; invalid_apology; authentication_apology;
   connection_apology; generic_apology].

(** The arguments of one call. *)
Record call : Type := Call {
  user_input : string;
  conversation_history : option (list dict);
  context_type : string;
  temperature : Q;
  max_tokens : option Z;
}.

Definition run_call (c : call) : M state (option (string * dict)) :=
  get_ai_response (user_input c) (conversation_history c) (context_type c)
                  (temperature c) (max_tokens c).

(** The service after serving the calls one after the other. *)
Definition run_calls (cs : list call) (s : state) : state :=
  fold_left (fun s c => snd (run_call c s)) cs s.

(** A process that has done nothing yet, with the given clock and
    upstream. *)
Definition fresh_process (clock : nat -> Q)
    (client : nat -> request -> outcome completion) : state :=
  State "" "" (RateLimiter.init 0 0) ∅ 0 0 clock 0 client [] [] [].

(** An upstream that fails twice and then answers. *)
Definition flaky_client (n : nat) (r : request) : outcome completion :=
  if (n <? 2)%nat then Raise (APIError "Connection error.")
  else Return (Completion "Hello! How can I help?" 42 30 12).

(** An upstream that always answers. *)
Definition steady_client (n : nat) (r : request) : outcome completion :=
  Return (Completion "Hello! How can I help?" 42 30 12).

(** A clock that advances one second per reading. *)
Definition second_clock (n : nat) : Q := inject_Z (Z.of_nat n).

(** A clock that advances a tenth of a second per reading. *)
Definition tenth_clock (n : nat) : Q := Z.of_nat n # 10.

Definition flaky_service : state :=
  init "sk-test" "gpt-3.5-turbo" (fresh_process second_clock flaky_client).

Definition steady_service : state :=
  init "sk-test" "gpt-3.5-turbo" (fresh_process tenth_clock steady_client).

Definition hello : call := Call "Hello" None "default" (7 # 10) None.

(** The steady service after fifty calls, five seconds in. *)
Definition saturated_service : state := run_calls (repeat hello 50) steady_service.


End Trace.


(** ** The context window, in the words of the specification *)

Module Window.
Import ZyeonAIService.













End Window.

(** ** Stored sessions and history pages, in the words of the specification *)

Module Store.
Import ConversationModel.



(** The stored turns the filters select. *)
Definition matching (user_id conversation_id session_id : option string)
    (s : state) : list dict :=
  List.filter (matches (history_query user_id conversation_id session_id))
              (conversations s).

(** The page [offset, offset + limit) of the selected turns, newest first. *)
Definition page (user_id conversation_id session_id : option string)
    (limit offset : Z) (s : state) : list dict :=
  firstn (Z.to_nat limit)
    (skipn (Z.to_nat offset)
       (sort_desc (map (delete "_id")
                       (matching user_id conversation_id session_id s)))).






(** What can happen to the store between two observations. *)
Inductive op : Type :=
| OpCreateSession (user_id session_id : string) (metadata : option dict)
| OpEndSession (session_id : string)
| OpCreateConversation (user_message ai_response user_id : string)
    (conversation_id session_id : option string) (message_type : string)
    (metadata : option dict)
| OpGetHistory (user_id conversation_id session_id : option string)
    (limit offset : Z)
| OpConnectivity (online : bool).   (* the server goes away or comes back *)

Definition with_online (b : bool) (s : state) : state :=
  State (conversations s) (users s) (sessions s) (next_oid s) b (clock s)
        (ticks s) (logged s).

Definition run_op (o : op) (s : state) : state :=
  match o with
  | OpCreateSession u sid md => snd (create_session u sid md s)
  | OpEndSession sid => snd (end_session sid s)
  | OpCreateConversation um ar u cid sid mt md =>
      snd (create_conversation um ar u cid sid mt md s)
  | OpGetHistory u cid sid limit offset =>
      snd (get_conversation_history u cid sid limit offset s)
  | OpConnectivity b => with_online b s
  end.

Definition run_ops (ops : list op) (s : state) : state :=
  fold_left (fun s o => run_op o s) ops s.

(** An empty database, reachable or not, whose clock ticks once a second. *)
Definition empty_store (online : bool) : state :=
  State [] [] [] 0 online (fun n => inject_Z (Z.of_nat n)) 0 [].



(** Three turns of one user, stored a few seconds apart. *)
Definition three_turns : state :=
  run_ops [OpCreateConversation "first" "one" "user_1" (Some "thread") None "text" None;
           OpCreateConversation "second" "two" "user_1" (Some "thread") None "text" None;
           OpCreateConversation "third" "three" "user_1" (Some "thread") None "text" None]
          (empty_store true).

(** A store whose clock reads 1700000000.2 and then keeps advancing by a
    tenth of a second. *)
Definition busy_second : state :=
  State [] [] [] 0 true (fun n => Qmake (17000000002 + Z.of_nat n) 10) 0 [].

End Store.

(** ** The request path of [main.py] *)

Module Orchestrator.

(** The history [chat], [handle_socket_message] and [handle_voice_input]
    fetch before calling [get_ai_response]: the ten newest turns of the
    user, and of the thread when one is named. *)
Definition fetch_history (user_id : string) (conversation_id : option string)
  : M ConversationModel.state (list dict) :=
  ConversationModel.get_conversation_history
    (Some user_id) conversation_id None 10 0.

(** The user and assistant texts of a prompt, in order. *)
Definition contents (o : outcome (list ZyeonAIService.message)) : list value :=
  match o with
  | Return l => map ZyeonAIService.content l
  | Raise _ => []
  end.

End Orchestrator.

(** ** The listening switch *)

Module Voice.
Import VoiceService.

(** No capture device: the recognizer or the microphone is [None]. *)
Definition no_capture_device (s : state) : Prop :=
  recognizer s = false \/ microphone s = false.

(** Nothing [stop_listening] calls raises: joining a live listener thread
    returns, and so does the [on_listening_stopped] callback if one is set. *)
Definition stops_cleanly (s : state) : Prop :=
  match voice_thread s with
  | Some t => is_alive t = true -> join t = Return tt
  | None => True
  end
  /\ match on_listening_stopped s with
     | Some run => run = Return tt
     | None => True
     end.

(** A service on a machine without microphone. *)
Definition deaf_service : state := init false (Return tt).

(** A service that never listened, whose [on_listening_stopped] callback
    raises (the socket it emits on is gone). *)
Definition broken_callback_service : state :=
  with_callbacks None (Some (Raise (RuntimeError "emit failed")))
                 (init true (Return tt)).

(** A service that never listened, with callbacks that return. *)
Definition idle_service : state :=
  with_callbacks (Some (Return tt)) (Some (Return tt)) (init true (Return tt)).

End Voice.

(** * Further definitions: the rest of the services *)

(** ** The pace of upstream calls *)

Module Pace.
Import ZyeonAIService Trace.

(** The wall clock never runs backwards. *)
Definition monotone (clk : nat -> Q) : Prop :=
  forall i j, (i <= j)%nat -> (clk i <= clk j)%Q.

(** The call sends a request upstream. *)
Definition reaches_upstream (c : call) (s : state) : bool :=
  (length (sent s) <? length (sent (snd (run_call c s))))%nat.

(** The stamps [record_call] logs while the calls are served, in order,
    whether or not a later check prunes them. *)
Fixpoint recorded_during (cs : list call) (s : state) : list Q :=
  match cs with
  | [] => []
  | c :: r =>
      (if reaches_upstream c s then [clock s (S (ticks s))] else [])
      ++ recorded_during r (snd (run_call c s))
  end.

(** Any [m + 1] consecutive stamps span at least [w] seconds. *)
Definition spaced (m : nat) (w : Z) (stamps : list Q) : Prop :=
  forall i x y, stamps !! i = Some x -> stamps !! (i + m)%nat = Some y ->
                (x + inject_Z w <= y)%Q.

(** The list [stamps] accounts for the limiter of [s], a service started
    as [s0]: it is in clock order, every stamp is a reading already taken,
    the log of [s] agrees with it on every stamp that can still be inside
    the window, and it is spaced by the ceiling and window of [s0]. *)
Definition paced (s0 : state) (stamps : list Q) (s : state) : Prop :=
  same_service s0 s
  /\ StronglySorted Qle stamps
  /\ Forall (fun g => exists k, (k < ticks s)%nat /\ g = clock s0 k) stamps
  /\ (forall now, (clock s0 (ticks s) <= now)%Q ->
        List.filter (RateLimiter.fresh (RateLimiter.time_window (rate_limiter s0)) now)
                    (RateLimiter.calls (rate_limiter s))
        = List.filter (RateLimiter.fresh (RateLimiter.time_window (rate_limiter s0)) now)
                      stamps)
  /\ spaced (Z.to_nat (RateLimiter.max_calls (rate_limiter s0)))
            (RateLimiter.time_window (rate_limiter s0)) stamps.

(** A service that takes one second per clock reading. *)
Definition slow_service : state :=
  init "sk-test" "gpt-3.5-turbo" (fresh_process second_clock steady_client).

End Pace.

(** ** [ZyeonAIService.health_check] *)

Module HealthCheck.
Import ZyeonAIService.

Inductive log_record : Type :=
| LogHealthCheckFailed (e : exn).   (* error *)

(** The service with the records [health_check] hands to the logger. *)
Record state : Type := State {
  service : ZyeonAIService.state;
  logged : list log_record;
}.

(** A computation of the service, run inside. *)
Definition on_service {A} (m : M ZyeonAIService.state A) : M state A :=
  fun s => let '(o, svc) := m (service s) in (o, State svc (logged s)).

Definition log (r : log_record) : M state unit :=
  modify (fun s => State (service s) (logged s ++ [r])).

(** The probe: [create(model=self.model, messages=[{"role": "user",
    "content": "Hello"}], max_tokens=10)].  The sampling arguments the
    call leaves out stand at the values the API gives them. *)
Definition probe (svc : ZyeonAIService.state) : request :=
  Request (model svc) [Message "user" (VStr "Hello")] 10 1 0 0.

(** [self.rate_limiter.max_calls - len(self.rate_limiter.calls)] *)
Definition rate_limit_remaining (svc : ZyeonAIService.state) : Z :=
  RateLimiter.max_calls (rate_limiter svc)
  - Z.of_nat (length (RateLimiter.calls (rate_limiter svc))).

Definition health_check : M state dict :=
  try_except
    (do s <- get;
     do _ <- on_service (chat_completions_create (probe (service s)));
     do s <- get;
     do now <- on_service time_time;
     ret (<["status" := VStr "healthy"]> (
          <["model" := VStr (model (service s))]> (
          <["api_accessible" := VBool true]> (
          <["rate_limit_remaining" := VInt (rate_limit_remaining (service s))]> (
          <["timestamp" := VIso now]> ∅))))))
    (fun e =>
       do _ <- log (LogHealthCheckFailed e);
       do s <- get;
       do now <- on_service time_time;
       ret (<["status" := VStr "unhealthy"]> (
            <["model" := VStr (model (service s))]> (
            <["api_accessible" := VBool false]> (
            <["error" := VStr (str_of_exn e)]> (
            <["timestamp" := VIso now]> ∅)))))).

(** The service as it is once the calls were served and a minute of
    clock readings went by unused. *)
Definition idle_after (cs : list Trace.call) (svc : ZyeonAIService.state)
  : ZyeonAIService.state :=
  let svc' := Trace.run_calls cs svc in
  with_ticks (ticks svc' + 600) svc'.

End HealthCheck.

(** ** The shape of a request *)

Module Shape.
Import ZyeonAIService.

Fixpoint last_char (s : string) : option ascii :=
  match s with
  | EmptyString => None
  | String c EmptyString => Some c
  | String _ r => last_char r
  end.

Definition first_char (s : string) : option ascii :=
  match s with
  | EmptyString => None
  | String c _ => Some c
  end.

(** Neither the first nor the last character is white. *)
Definition trimmed (s : string) : Prop :=
  (forall c, first_char s = Some c -> Py.is_space c = false)
  /\ (forall c, last_char s = Some c -> Py.is_space c = false).

End Shape.

(** ** [ConversationModel]: users and retention *)

Module Housekeeping.
Import ConversationModel.

(** What the handler of [cleanup_old_conversations] can catch: an
    [OverflowError] of the date arithmetic, or an error of the driver. *)
Inductive failure : Type :=
| Overflow (msg : string)
| Driver (e : exn).

Inductive log_record : Type :=
| LogUserCreated (oid : nat)        (* info *)
| LogCleanedUp (deleted : nat)      (* info *)
| LogCleanupFailed (f : failure).   (* error *)

(** The model with the records these methods hand to the logger. *)
Record state : Type := State {
  store : ConversationModel.state;
  notes : list log_record;
}.





(** *** Users *)










(** *** Retention *)

(** [datetime.min] and the end of [datetime.max], as Unix seconds. *)
Definition datetime_min : Q := inject_Z (-62135596800).
Definition datetime_end : Q := inject_Z 253402300800.

(** [datetime.now(timezone.utc) - timedelta(days=days)] *)
Definition cutoff_date (now : Q) (days : Z) : failure + Q :=
  if 999999999 <? Z.abs days
  then inl (Overflow "days; must have magnitude <= 999999999")
  else
    let cutoff := (now - inject_Z (days * 86400))%Q in
    if Qltb cutoff datetime_min || negb (Qltb cutoff datetime_end)
    then inl (Overflow "date value out of range")
    else inr cutoff.

(** A date as the driver sends it: whole milliseconds, rounded down. *)
Definition bson_date (t : Q) : Q :=
  Qmake (Qnum (t * 1000) / QDen (t * 1000)) 1000.

(** [{"timestamp": {"$lt": cutoff}}]: only dates compare with a date. *)
Definition older_than (cutoff : Q) (d : dict) : bool :=
  match d !! "timestamp" with
  | Some (VDate t) => Qltb t cutoff
  | _ => false
  end.

(** [cleanup_old_conversations(days=30)].  The cutoff goes to the server
    in whole milliseconds; a stored instant is before it exactly when
    the instant cut to its millisecond is, so the stored dates need no
    rounding here. *)
Definition cleanup_old_conversations (days : Z) (s : state) : nat * state :=
  let st := store s in
  let now := clock st (ticks st) in
  let st1 := with_ticks (S (ticks st)) st in
  match cutoff_date now days with
  | inl f => (0%nat, State st1 (notes s ++ [LogCleanupFailed f]))
  | inr cutoff =>
      if online st1 then
        let kept := List.filter (fun d => negb (older_than (bson_date cutoff) d))
                                (conversations st1) in
        let deleted := (length (conversations st1) - length kept)%nat in
        (deleted, State (with_conversations kept st1)
                        (notes s ++ [LogCleanedUp deleted]))
      else
        (0%nat,
         State st1
               (notes s ++ [LogCleanupFailed
                              (Driver (PyMongoError "ServerSelectionTimeoutError"))]))
  end.

(** A stored turn carries dates where [get_conversation_history] calls
    [isoformat]. *)
Definition dated (d : dict) : Prop :=
  exists t c u, d !! "timestamp" = Some (VDate t)
                /\ d !! "created_at" = Some (VDate c)
                /\ d !! "updated_at" = Some (VDate u).

(** The turn as [get_conversation_history] hands it out. *)
Definition serialized (d : dict) : dict :=
  match serialize d with
  | Return d' => d'
  | Raise _ => d
  end.

(** The result of the read, an empty list standing for a raise (which
    never happens). *)
Definition history (user_id conversation_id session_id : option string)
    (limit offset : Z) (s : ConversationModel.state) : list dict :=
  match fst (get_conversation_history user_id conversation_id session_id
                                      limit offset s) with
  | Return l => l
  | Raise _ => []
  end.

(** A store holding a turn written at second 0 and one written some
    thirty-five days later, which is now. *)
Definition aged_store : ConversationModel.state :=
  Store.run_ops
    [Store.OpCreateConversation "old" "turn" "user_1" (Some "t") None "text" None;
     Store.OpCreateConversation "new" "turn" "user_1" (Some "t") None "text" None]
    (ConversationModel.State [] [] [] 0 true
       (fun n => if (n <? 3)%nat then 0%Q else inject_Z 3000000) 0 []).

(** The instant [create_conversation] stamps the turn with: the next
    reading of the clock, or the one after it when the conversation id is
    generated (which takes a reading of its own). *)
Definition written_at (conversation_id : option string)
    (s : ConversationModel.state) : Q :=
  clock s (match truthy_str conversation_id with
           | Some _ => ticks s
           | None => S (ticks s)
           end).


End Housekeeping.

(** ** Starting to listen *)

Module Listening.
Import VoiceService.

(** Both capture devices are there. *)
Definition capture_device (s : state) : Prop :=
  recognizer s = true /\ microphone s = true.

(** Nothing [start_listening] calls raises: the listener thread starts,
    and the [on_listening_started] callback returns if one is set. *)
Definition starts_cleanly (s : state) : Prop :=
  thread_start s = Return tt
  /\ match on_listening_started s with
     | Some run => run = Return tt
     | None => True
     end.

(** A service that never listened, whose [on_listening_started] callback
    raises. *)
Definition unannounced_service : state :=
  with_callbacks (Some (Raise (RuntimeError "emit failed"))) None
                 (init true (Return tt)).

End Listening.

(** ** [VoiceService._clean_text_for_speech] *)

Module Speech.

(** What is left of [s] after the literal [p], if [s] starts with it. *)
Fixpoint drop_prefix (p s : string) : option string :=
  match p with
  | EmptyString => Some s
  | String a p' =>
      match s with
      | EmptyString => None
      | String b s' => if Ascii.eqb a b then drop_prefix p' s' else None
      end
  end.

(** The longest run of characters in the class [keep] at the head of [s],
    and what follows it: a greedy [[...]*]. *)
Fixpoint span (keep : ascii -> bool) (s : string) : string * string :=
  match s with
  | EmptyString => (EmptyString, EmptyString)
  | String c r =>
      if keep c
      then let '(run, rest) := span keep r in (String c run, rest)
      else (EmptyString, s)
  end.

(** The class [[^stop]]. *)
Definition other_than (stop c : ascii) : bool := negb (Ascii.eqb c stop).

(** A match of [opener([^stop]+)closer] at the head of [s]: the group and
    what follows the match.  Every [closer] below starts with [stop], so
    the greedy run is the only candidate for the group: a shorter one is
    followed by a character other than [stop], and backtracking finds
    nothing. *)
Definition delimited (opener : string) (stop : ascii) (closer : string)
    (s : string) : option (string * string) :=
  match drop_prefix opener s with
  | None => None
  | Some r =>
      let '(group, r1) := span (other_than stop) r in
      if Py.truthy group
      then match drop_prefix closer r1 with
           | Some rest => Some (group, rest)
           | None => None
           end
      else None
  end.

(** [\[([^\]]+)\]\([^\)]+\)], replaced by its group. *)
Definition link (s : string) : option (string * string) :=
  match delimited "[" "]" "](" s with
  | Some (text, r) =>
      match delimited "" ")" ")" r with
      | Some (_, rest) => Some (text, rest)
      | None => None
      end
  | None => None
  end.

(** [\*\*([^\*]+)\*\*], [\*([^\*]+)\*] and [`([^`]+)`], replaced by their
    group. *)
Definition bold : string -> option (string * string) := delimited "**" "*" "**".
Definition italic : string -> option (string * string) := delimited "*" "*" "*".
Definition code : string -> option (string * string) := delimited "`" "`" "`".

(** The class [[#\*\-\+\=\>\<\|\[\]{}]]. *)
Definition unspoken (c : ascii) : bool :=
  existsb (Ascii.eqb c) (list_ascii_of_string "#*-+=><|[]{}").

(** One character of that class, replaced by a space. *)
Definition unspoken_char (s : string) : option (string * string) :=
  match s with
  | EmptyString => None
  | String c r => if unspoken c then Some (" ", r) else None
  end.

(** [\s+], replaced by a space. *)
Definition whitespace (s : string) : option (string * string) :=
  let '(run, rest) := span Py.is_space s in
  if Py.truthy run then Some (" ", rest) else None.

(** [re.sub] for a pattern that matches no empty string: scanning from
    the left, a match at the current position is replaced and the scan
    goes on behind it; otherwise the character is copied.  [pattern s]
    is the match at the head of [s], with its replacement.  The scan
    takes at most one step for each character (see [sub_from_enough]). *)
Fixpoint sub_from (steps : nat) (pattern : string -> option (string * string))
    (s : string) : string :=
  match steps with
  | O => s
  | S n =>
      match s with
      | EmptyString => EmptyString
      | String c r =>
          match pattern s with
          | Some (repl, rest) => String.append repl (sub_from n pattern rest)
          | None => String c (sub_from n pattern r)
          end
      end
  end.

Definition re_sub (pattern : string -> option (string * string)) (s : string)
  : string :=
  sub_from (String.length s) pattern s.

Definition _clean_text_for_speech (text : string) : string :=
  let text := re_sub link text in
  let text := re_sub bold text in
  let text := re_sub italic text in
  let text := re_sub code text in
  let text := re_sub unspoken_char text in
  Py.strip (re_sub whitespace text).

(** Every character of [s] is in the class [p]. *)
Fixpoint all_chars (p : ascii -> bool) (s : string) : bool :=
  match s with
  | EmptyString => true
  | String c r => p c && all_chars p r
  end.

(** White space only occurs as a single space: each white character is a
    space, and the character after it, if any, is not white. *)
Fixpoint squeezed (s : string) : bool :=
  match s with
  | EmptyString => true
  | String c r =>
      (if Py.is_space c
       then Ascii.eqb c " "
            && match r with
               | EmptyString => true
               | String c' _ => negb (Py.is_space c')
               end
       else true)
      && squeezed r
  end.

(** A character that none of the substitutions touches. *)
Definition plain_char (c : ascii) : bool :=
  negb (unspoken c) && negb (Ascii.eqb c "`").

(** Text without markup, with single spaces between its words and none
    around them. *)
Definition plain (s : string) : Prop :=
  all_chars plain_char s = true /\ squeezed s = true /\ Shape.trimmed s.

(** A pattern whose matches are never empty. *)
Definition consumes (pattern : string -> option (string * string)) : Prop :=
  forall s repl rest,
    pattern s = Some (repl, rest) -> (String.length rest < String.length s)%nat.

End Speech.

(** ** [VoiceService]: speaking *)

Module Speaking.

Inductive log_record : Type :=
| LogNoEngine                       (* warning: "TTS engine not available" *)
| LogEmptyText                      (* warning: "Empty text provided for TTS" *)
| LogSpeakStartError (e : exn)      (* error, in [speak_text] *)
| LogSpeakError (e : exn)           (* error, in [_speak_text_thread] *)
| LogSpeechStopped                  (* info *)
| LogStopError (e : exn).

(** The text-to-speech half of a [VoiceService].  The engine and the
    threading library are known by what their calls do. *)
Record state : Type := State {
  tts_engine : bool;                (* [false] stands for [None] *)
  is_speaking : bool;
  on_speaking_started : option (string -> outcome unit);
  on_speaking_finished : option (outcome unit);
  thread_start : outcome unit;      (* what [Thread.start()] does next *)
  engine_say : string -> outcome unit;
                                    (* [say(text)] and [runAndWait()] *)
  engine_stop : outcome unit;       (* [stop()] *)
  started : list string;            (* arguments of the speech threads started *)
  said : list string;               (* texts handed to [tts_engine.say] *)
  logged : list log_record;
}.

Definition with_is_speaking (b : bool) (s : state) : state :=
  State (tts_engine s) b (on_speaking_started s) (on_speaking_finished s)
        (thread_start s) (engine_say s) (engine_stop s) (started s) (said s)
        (logged s).

Definition with_started (l : list string) (s : state) : state :=
  State (tts_engine s) (is_speaking s) (on_speaking_started s)
        (on_speaking_finished s) (thread_start s) (engine_say s) (engine_stop s)
        l (said s) (logged s).

Definition with_said (l : list string) (s : state) : state :=
  State (tts_engine s) (is_speaking s) (on_speaking_started s)
        (on_speaking_finished s) (thread_start s) (engine_say s) (engine_stop s)
        (started s) l (logged s).

Definition with_logged (l : list log_record) (s : state) : state :=
  State (tts_engine s) (is_speaking s) (on_speaking_started s)
        (on_speaking_finished s) (thread_start s) (engine_say s) (engine_stop s)
        (started s) (said s) l.

Definition log (r : log_record) : M state unit :=
  modify (fun s => with_logged (logged s ++ [r]) s).

Definition stop_speaking : M state bool :=
  try_except
    (do s <- get;
     if tts_engine s && is_speaking s
     then
       do _ <- lift (engine_stop s);
       do _ <- modify (with_is_speaking false);
       do _ <- log LogSpeechStopped;
       ret true
     else ret false)
    (fun e => do _ <- log (LogStopError e); ret false).

(** [speak_text(text, interrupt_current=False)]: the speech thread is
    created with [text.strip()] as its argument and started. *)
Definition speak_text (text : string) (interrupt_current : bool) : M state bool :=
  do s <- get;
  if negb (tts_engine s)
  then do _ <- log LogNoEngine; ret false
  else if negb (Py.truthy text) || negb (Py.truthy (Py.strip text))
  then do _ <- log LogEmptyText; ret false
  else
    try_except
      (do _ <- (if interrupt_current && is_speaking s
                then do _ <- stop_speaking; ret tt
                else ret tt);
       do s1 <- get;
       do _ <- lift (thread_start s1);
       do _ <- modify (fun s => with_started (started s ++ [Py.strip text]) s);
       ret true)
      (fun e => do _ <- log (LogSpeakStartError e); ret false).

(** The body of the speech thread, run from its first line to its last:
    [try ... except Exception ... finally ...].  Without an engine the
    call of [say] is an [AttributeError] on [None]. *)
Definition _speak_text_thread (text : string) : M state unit :=
  do _ <- try_except
            (do _ <- modify (with_is_speaking true);
             do s <- get;
             do _ <- match on_speaking_started s with
                     | Some callback => lift (callback text)
                     | None => ret tt
                     end;
             let clean_text := Speech._clean_text_for_speech text in
             if tts_engine s
             then
               do _ <- modify (fun s => with_said (said s ++ [clean_text]) s);
               lift (engine_say s clean_text)
             else raise (AttributeError "'NoneType' object has no attribute 'say'"))
            (fun e => log (LogSpeakError e));
  do _ <- modify (with_is_speaking false);
  do s <- get;
  match on_speaking_finished s with
  | Some callback => lift callback
  | None => ret tt
  end.

(** Text fit for the engine: none of the characters the cleaning blanks,
    single spaces only, none at either end. *)
Definition speakable (text : string) : Prop :=
  Speech.all_chars (fun c => negb (Speech.unspoken c)) text = true
  /\ Speech.squeezed text = true
  /\ Shape.trimmed text.

(** A service whose engine works and whose [on_speaking_started]
    callback raises on every text. *)
Definition heckled_service : state :=
  State true false (Some (fun _ => Raise (RuntimeError "emit failed"))) None
        (Return tt) (fun _ => Return tt) (Return tt) [] [] [].

(** A service whose engine works, without callbacks. *)
Definition quiet_service : state :=
  State true false None None (Return tt) (fun _ => Return tt) (Return tt)
        [] [] [].

End Speaking.

(** ** The handlers of [main.py] *)

Module Handlers.

(** What a handler sends to its clients: [emit(name, payload)] answers
    the client of the request, [socketio.emit(name, payload)] goes to
    every client. *)
Inductive event : Type :=
| Connected (user_id session_id : string)
    (voice_available ai_available history_available : bool)
| Error (message : string)
| VoiceInputReceived (text : string)             (* to every client *)
| AiResponse (text : string) (timestamp : Q) (type : string)
    (metadata : dict).                           (* to every client *)

Inductive log_record : Type :=
| LogClientConnected (client_id user_id : string)     (* info *)
| LogClientDisconnected (client_id : string)          (* info *)
| LogConnectionError (e : exn)
| LogDisconnectionError (e : exn)
| LogVoiceInputError (e : exn).

(** An entry of [connected_clients]; the two instants are kept as ISO
    strings. *)
Record client_info : Type := ClientInfo {
  client_user_id : string;
  client_session_id : string;
  connected_at : Q;
  last_activity : Q;
}.

(** The globals of the module, the clock behind [datetime.now()], and
    what went out to the clients and to the log. *)
Record state : Type := State {
  conversation_model : option ConversationModel.state;
  ai_service : option ZyeonAIService.state;
  voice_service : option Speaking.state;
  connected_clients : gmap string client_info;
  wall : nat -> Q;
  wall_ticks : nat;
  emitted : list event;
  logged : list log_record;
}.

Definition with_conversation_model (m : option ConversationModel.state)
    (s : state) : state :=
  State m (ai_service s) (voice_service s) (connected_clients s) (wall s)
        (wall_ticks s) (emitted s) (logged s).

Definition with_ai_service (a : option ZyeonAIService.state) (s : state) : state :=
  State (conversation_model s) a (voice_service s) (connected_clients s) (wall s)
        (wall_ticks s) (emitted s) (logged s).

Definition with_voice_service (v : option Speaking.state) (s : state) : state :=
  State (conversation_model s) (ai_service s) v (connected_clients s) (wall s)
        (wall_ticks s) (emitted s) (logged s).

Definition with_connected_clients (c : gmap string client_info) (s : state)
  : state :=
  State (conversation_model s) (ai_service s) (voice_service s) c (wall s)
        (wall_ticks s) (emitted s) (logged s).

Definition with_wall_ticks (n : nat) (s : state) : state :=
  State (conversation_model s) (ai_service s) (voice_service s)
        (connected_clients s) (wall s) n (emitted s) (logged s).

Definition with_emitted (l : list event) (s : state) : state :=
  State (conversation_model s) (ai_service s) (voice_service s)
        (connected_clients s) (wall s) (wall_ticks s) l (logged s).

Definition with_logged (l : list log_record) (s : state) : state :=
  State (conversation_model s) (ai_service s) (voice_service s)
        (connected_clients s) (wall s) (wall_ticks s) (emitted s) l.

Definition datetime_now : M state Q :=
  fun s => (Return (wall s (wall_ticks s)), with_wall_ticks (S (wall_ticks s)) s).

Definition emit (e : event) : M state unit :=
  modify (fun s => with_emitted (emitted s ++ [e]) s).

Definition log (r : log_record) : M state unit :=
  modify (fun s => with_logged (logged s ++ [r]) s).

(** [if conversation_model: x = conversation_model.method(...)], with
    [absent] the value [x] has otherwise. *)
Definition if_conversation_model {A} (method : M ConversationModel.state A)
    (absent : A) : M state A :=
  fun s => match conversation_model s with
           | Some model =>
               let '(o, model') := method model in
               (o, with_conversation_model (Some model') s)
           | None => (Return absent, s)
           end.

Definition if_voice_service {A} (method : M Speaking.state A) (absent : A)
  : M state A :=
  fun s => match voice_service s with
           | Some voice =>
               let '(o, voice') := method voice in
               (o, with_voice_service (Some voice') s)
           | None => (Return absent, s)
           end.

(** A method of [ai_service], which is there. *)
Definition on_ai_service {A} (service : ZyeonAIService.state)
    (method : M ZyeonAIService.state A) : M state A :=
  fun s => let '(o, service') := method service in
           (o, with_ai_service (Some service') s).

(** [ai_response, metadata = ...]: unpacking [None] is a [TypeError],
    which the handlers catch like any other exception. *)
Definition unpack (reply : option (string * dict)) : M state (string * dict) :=
  match reply with
  | Some answer => ret answer
  | None => raise (Exception "cannot unpack non-iterable NoneType object")
  end.

(** [handle_voice_input(text)], the [on_speech_recognized] callback. *)
Definition handle_voice_input (text : string) : M state unit :=
  try_except
    (do _ <- emit (VoiceInputReceived text);
     do s <- get;
     match ai_service s with
     | None => ret tt
     | Some service =>
         let user_id := "voice_user" in
         do conversation_history <-
            if_conversation_model
              (ConversationModel.get_conversation_history
                 (Some user_id) None None 10 0)
              [];
         do reply <-
            on_ai_service service
              (ZyeonAIService.get_ai_response text (Some conversation_history)
                                              "voice" (7 # 10) None);
         do answer <- unpack reply;
         let '(ai_response, metadata) := answer in
         do _ <- if_conversation_model
                   (do _ <- ConversationModel.create_conversation
                              text ai_response user_id None None "voice"
                              (Some metadata);
                    ret tt)
                   tt;
         do now <- datetime_now;
         do _ <- emit (AiResponse ai_response now "voice" metadata);
         do _ <- if_voice_service (Speaking.speak_text ai_response false) false;
         ret tt
     end)
    (fun e => log (LogVoiceInputError e)).

(** [handle_connect()], for a request whose [request.sid] is
    [client_id] and for which [get_user_id()] and [get_session_id()]
    return [user_id] and [session_id]. *)
Definition handle_connect (client_id user_id session_id : string) : M state unit :=
  try_except
    (do connected_at <- datetime_now;
     do last_activity <- datetime_now;
     do _ <- modify (fun s =>
               with_connected_clients
                 (<[client_id := ClientInfo user_id session_id connected_at
                                            last_activity]>
                    (connected_clients s)) s);
     do _ <- if_conversation_model
               (do _ <- ConversationModel.create_session
                          user_id session_id
                          (Some {["client_id" := VStr client_id]});
                ret tt)
               tt;
     do _ <- log (LogClientConnected client_id user_id);
     do s <- get;
     emit (Connected user_id session_id
                     (bool_decide (is_Some (voice_service s)))
                     (bool_decide (is_Some (ai_service s)))
                     (bool_decide (is_Some (conversation_model s)))))
    (fun e =>
       do _ <- log (LogConnectionError e);
       emit (Error "Connection error")).

(** [handle_disconnect()], for a request whose [request.sid] is
    [client_id]. *)
Definition handle_disconnect (client_id : string) : M state unit :=
  try_except
    (do s <- get;
     match connected_clients s !! client_id with
     | Some client_info =>
         do _ <- if_conversation_model
                   (ConversationModel.end_session (client_session_id client_info))
                   tt;
         do _ <- modify (fun s =>
                   with_connected_clients (delete client_id (connected_clients s)) s);
         log (LogClientDisconnected client_id)
     | None => ret tt
     end)
    (fun e => log (LogDisconnectionError e)).

(** The texts the handlers sent as replies, in order. *)
Definition replies (s : state) : list string :=
  flat_map (fun e => match e with
                     | AiResponse text _ _ _ => [text]
                     | _ => []
                     end) (emitted s).

(** A process with a database, an assistant and no voice, before any
    client connects. *)
Definition fresh_process (model : ConversationModel.state)
    (service : ZyeonAIService.state) : state :=
  State (Some model) (Some service) None ∅ (fun n => inject_Z (Z.of_nat n)) 0
        [] [].

End Handlers.
(** * Properties *)
(** * Properties *)

Lemma Qltb_lt (x y : Q) : Qltb x y = true <-> (x < y)%Q.
Proof. unfold Qltb, Qlt. apply Z.ltb_lt. Qed.

Lemma Qltb_ge (x y : Q) : Qltb x y = false <-> (y <= x)%Q.
Proof. unfold Qltb, Qle. rewrite Z.ltb_ge. reflexivity. Qed.

(** ** The rate limiter *)

Module RateLimiterFacts.
Import RateLimiter Scenario.

Lemma fresh_spec w now c : fresh w now c = true <-> within_window w now c.
Proof. unfold fresh, within_window. apply Qltb_lt. Qed.

Lemma fresh_false w now c : fresh w now c = false <-> ~ within_window w now c.
Proof. rewrite <- fresh_spec. destruct (fresh w now c); split; congruence. Qed.

Lemma calls_recorded ts rl : calls (recorded ts rl) = calls rl ++ ts.
Proof.
  revert rl. induction ts as [|x ts IH]; intros rl; simpl.
  - now rewrite app_nil_r.
  - unfold recorded in IH. rewrite IH. simpl. now rewrite <- app_assoc.
Qed.

Lemma max_calls_recorded ts rl : max_calls (recorded ts rl) = max_calls rl.
Proof.
  revert rl. induction ts as [|x ts IH]; intros rl; simpl; [easy|].
  unfold recorded in IH. now rewrite IH.
Qed.

Lemma time_window_recorded ts rl : time_window (recorded ts rl) = time_window rl.
Proof.
  revert rl. induction ts as [|x ts IH]; intros rl; simpl; [easy|].
  unfold recorded in IH. now rewrite IH.
Qed.

(** The length the code compares is the number of calls in the window. *)
Lemma length_fresh w now ts :
  length (List.filter (fresh w now) ts) = calls_in_window w now ts.
Proof.
  induction ts as [|c ts IH]; simpl; [reflexivity|].
  destruct (Qlt_le_dec (now - c) (inject_Z w)) as [Hlt|Hge].
  - apply Qltb_lt in Hlt. unfold fresh at 1. rewrite Hlt. simpl. now rewrite IH.
  - apply Qltb_ge in Hge. unfold fresh at 1. rewrite Hge. simpl. now rewrite IH.
Qed.

Lemma filter_fresh_idem w now ts :
  List.filter (fresh w now) (List.filter (fresh w now) ts)
  = List.filter (fresh w now) ts.
Proof.
  induction ts as [|c ts IH]; simpl; [reflexivity|].
  destruct (fresh w now c) eqn:E; simpl; [rewrite E|]; now rewrite IH.
Qed.

(** A call that left the window at time [t] is still outside at any later
    time, so an earlier pruning never changes a later count. *)
Lemma filter_fresh_later w t now ts :
  (t <= now)%Q ->
  List.filter (fresh w now) (List.filter (fresh w t) ts)
  = List.filter (fresh w now) ts.
Proof.
  intros Hle. induction ts as [|c ts IH]; simpl; [reflexivity|].
  destruct (fresh w t c) eqn:Et; simpl.
  - now rewrite IH.
  - rewrite IH. destruct (fresh w now c) eqn:En; [|reflexivity].
    apply fresh_spec in En. apply fresh_false in Et.
    unfold within_window in *. exfalso. apply Et. lra.
Qed.

(** C4: after any sequence of [record_call] invocations, at stamps [ts],
    and at every check time [now], [can_make_call] answers false exactly
    when at least [max_calls] of the recorded calls fall strictly within
    the trailing [time_window] seconds; the answer is the one obtained
    from the calls inside the window alone, so older calls never count. *)
Theorem can_make_call_false_iff (max_calls time_window : Z) (ts : list Q) (now : Q) :
  let rl := recorded ts (init max_calls time_window) in
  (fst (can_make_call now rl) = false
   <-> (max_calls <= Z.of_nat (calls_in_window time_window now ts))%Z)
  /\ fst (can_make_call now rl)
     = fst (can_make_call now
              (recorded (List.filter (fresh time_window now) ts)
                        (init max_calls time_window)))
  /\ (forall c, In c (List.filter (fresh time_window now) ts)
                <-> In c ts /\ within_window time_window now c).
Proof.
  intros rl. subst rl. unfold can_make_call. simpl.
  rewrite !calls_recorded, !max_calls_recorded, !time_window_recorded. simpl.
  rewrite filter_fresh_idem, length_fresh. split; [|split].
  - apply Z.ltb_ge.
  - reflexivity.
  - intros c. rewrite filter_In, fresh_spec. reflexivity.
Qed.

(** Checks interleaved with the recordings prune the log, yet the answer
    at a later time is still the count over everything recorded. *)
Lemma run_ops_fresh now ops rl :
  Forall (checked_by now) ops ->
  let rl' := fold_left (fun r o => run_op o r) ops rl in
  max_calls rl' = max_calls rl /\ time_window rl' = time_window rl /\
  List.filter (fresh (time_window rl) now) (calls rl')
  = List.filter (fresh (time_window rl) now) (calls rl ++ recorded_stamps ops).
Proof.
  revert rl. induction ops as [|o ops IH]; intros rl Hall; simpl.
  - now rewrite app_nil_r.
  - inversion Hall as [|? ? Ho Hops]; subst.
    destruct (IH (run_op o rl) Hops) as (Hm & Hw & Hc). simpl in *.
    destruct o as [t|c]; simpl in *.
    + rewrite Hm, Hw, Hc. repeat split.
      rewrite !List.filter_app. f_equal. now apply filter_fresh_later.
    + rewrite Hm, Hw, Hc. repeat split. now rewrite <- app_assoc.
Qed.

Lemma can_make_call_after_checks (max_calls time_window : Z) (ops : list op) (now : Q) :
  Forall (checked_by now) ops ->
  fst (can_make_call now (fold_left (fun r o => run_op o r) ops
                                    (init max_calls time_window))) = false
  <-> (max_calls <= Z.of_nat (calls_in_window time_window now (recorded_stamps ops)))%Z.
Proof.
  intros Hall.
  destruct (run_ops_fresh now ops (init max_calls time_window) Hall) as (Hm & Hw & Hc).
  simpl in *. unfold can_make_call. simpl. rewrite Hm, Hw, Hc, length_fresh.
  apply Z.ltb_ge.
Qed.

(** C6, as the code has it: [can_make_call] rebinds [self.calls] to the
    entries still inside the window.  It leaves [max_calls] and
    [time_window] alone, keeps the calls inside the window in their order
    and drops the others; it changes nothing when no recorded call has
    left the window, and a second check at the same time changes nothing
    more. *)
Theorem can_make_call_prunes_only (now : Q) (rl : t) :
  let rl' := snd (can_make_call now rl) in
  max_calls rl' = max_calls rl
  /\ time_window rl' = time_window rl
  /\ calls rl' = List.filter (fresh (time_window rl) now) (calls rl)
  /\ (forall c, In c (calls rl') <-> In c (calls rl) /\ within_window (time_window rl) now c)
  /\ (Forall (within_window (time_window rl) now) (calls rl) -> rl' = rl)
  /\ snd (can_make_call now rl') = rl'.
Proof.
  simpl. split; [reflexivity|]. split; [reflexivity|]. split; [reflexivity|].
  split; [|split].
  - intros c. rewrite filter_In, fresh_spec. reflexivity.
  - intros Hall. destruct rl as [m w cs]. simpl in *. f_equal.
    induction Hall as [|c l Hc Hl IH]; simpl; [reflexivity|].
    apply fresh_spec in Hc. rewrite Hc. now rewrite IH.
  - unfold can_make_call. simpl. now rewrite filter_fresh_idem.
Qed.

Lemma can_make_call_prunes_only_witness :
  Forall (within_window 60 100) (calls busy_limiter)
  /\ snd (can_make_call 100 busy_limiter) = busy_limiter.
Proof.
  assert (H : Forall (within_window 60 100) (calls busy_limiter)).
  { repeat (constructor; [reflexivity|]). constructor. }
  split; [exact H|].
  exact (proj1 (proj2 (proj2 (proj2 (proj2
           (can_make_call_prunes_only 100 busy_limiter))))) H).
Defined.

(** C6, as stated, fails: a check a hundred seconds after the only
    recorded call empties the log. *)
Lemma can_make_call_not_pure :
  ~ (forall now rl, snd (can_make_call now rl) = rl).
Proof.
  intros H. specialize (H 100%Q stale_limiter). discriminate H.
Qed.

End RateLimiterFacts.

(** ** The response generator *)

Module ZyeonAIServiceFacts.
Import ZyeonAIService Trace.

Ltac unfold_monad :=
  unfold get_ai_response_try, can_make_call, record_call, time_time, time_sleep,
    log, chat_completions_create, bind, get, lift, raise, ret, modify;
  cbn [ticks with_ticks rate_limiter with_rate_limiter clock api_key model
       system_prompts max_context_messages max_tokens_per_request client sent
       with_sent slept with_slept logged with_logged fst snd].

Ltac enter_try H Hb :=
  unfold_monad;
  unfold after_upstream, after_record, after_check, request_of, passes,
    RateLimiter.can_make_call in *;
  unfold blank in Hb; cbn [fst snd] in *; rewrite H; cbn [negb]; rewrite Hb.

Lemma try_rejected ui h ct te mt s :
  passes s = false ->
  get_ai_response_try ui h ct te mt s = (Raise rate_limit_exceeded, after_check s).
Proof.
  unfold passes. intros H. unfold_monad. unfold after_check.
  destruct (RateLimiter.can_make_call (clock s (ticks s)) (rate_limiter s)) as [ok rl].
  simpl in H. subst ok. reflexivity.
Qed.

Lemma try_blank ui h ct te mt s :
  passes s = true -> blank ui = true ->
  get_ai_response_try ui h ct te mt s
  = (Raise (ValueError "User input cannot be empty"), after_check s).
Proof. intros H Hb. enter_try H Hb. reflexivity. Qed.

Lemma try_no_key ui h ct te mt s :
  passes s = true -> blank ui = false -> Py.truthy (api_key s) = false ->
  get_ai_response_try ui h ct te mt s
  = (Raise (ValueError "OpenAI API key not configured"), after_check s).
Proof.
  intros H Hb Hk. enter_try H Hb.
  cbn [api_key with_rate_limiter with_ticks]. rewrite Hk. reflexivity.
Qed.

Lemma prompt_for_after_check s ui h ct :
  prompt_for (after_check s) ui h ct = prompt_for s ui h ct.
Proof. reflexivity. Qed.

Lemma try_no_prompt ui h ct te mt s e :
  passes s = true -> blank ui = false -> Py.truthy (api_key s) = true ->
  prompt_for s ui h ct = Raise e ->
  get_ai_response_try ui h ct te mt s = (Raise e, after_check s).
Proof.
  intros H Hb Hk Hp. rewrite <- prompt_for_after_check in Hp.
  enter_try H Hb.
  cbn [api_key with_rate_limiter with_ticks]. rewrite Hk. cbn [negb snd] in *.
  rewrite Hp. reflexivity.
Qed.

Lemma try_upstream_fails ui h ct te mt s messages e :
  passes s = true -> blank ui = false -> Py.truthy (api_key s) = true ->
  prompt_for s ui h ct = Return messages ->
  client s (length (sent s)) (request_of s messages te mt) = Raise e ->
  get_ai_response_try ui h ct te mt s
  = (Raise e, after_upstream (request_of s messages te mt) s).
Proof.
  intros H Hb Hk Hp Hc. rewrite <- prompt_for_after_check in Hp.
  enter_try H Hb.
  cbn [api_key with_rate_limiter with_ticks]. rewrite Hk. cbn [negb snd] in *.
  rewrite Hp.
  cbn [ticks with_ticks rate_limiter with_rate_limiter clock api_key model
       system_prompts max_context_messages max_tokens_per_request client sent
       with_sent slept with_slept logged with_logged fst snd].
  rewrite Hc. reflexivity.
Qed.

(** When the upstream answers, the call returns the stripped text with a
    populated metadata dictionary; the service ends up as after the
    request, five clock readings and one log record later. *)
Lemma try_upstream_answers ui h ct te mt s messages resp :
  passes s = true -> blank ui = false -> Py.truthy (api_key s) = true ->
  prompt_for s ui h ct = Return messages ->
  client s (length (sent s)) (request_of s messages te mt) = Return resp ->
  exists metadata s',
    get_ai_response_try ui h ct te mt s
    = (Return (Py.strip (choice_content resp), metadata), s')
    /\ metadata !! "model" = Some (VStr (model s))
    /\ sent s' = sent s ++ [request_of s messages te mt]
    /\ rate_limiter s' = rate_limiter (after_record s)
    /\ slept s' = slept s
    /\ ticks s' = (ticks s + 5)%nat
    /\ same_service s s'.
Proof.
  intros H Hb Hk Hp Hc. rewrite <- prompt_for_after_check in Hp.
  enter_try H Hb.
  cbn [api_key with_rate_limiter with_ticks]. rewrite Hk. cbn [negb snd] in *.
  rewrite Hp.
  cbn [ticks with_ticks rate_limiter with_rate_limiter clock api_key model
       system_prompts max_context_messages max_tokens_per_request client sent
       with_sent slept with_slept logged with_logged fst snd].
  rewrite Hc.
  cbn [ticks with_ticks rate_limiter with_rate_limiter clock api_key model
       system_prompts max_context_messages max_tokens_per_request client sent
       with_sent slept with_slept logged with_logged fst snd].
  eexists _, _. split; [reflexivity|].
  cbn [ticks with_ticks rate_limiter with_rate_limiter clock api_key model
       system_prompts max_context_messages max_tokens_per_request client sent
       with_sent slept with_slept logged with_logged fst snd].
  split; [apply lookup_insert_eq|].
  repeat (split; [reflexivity|]). split; [lia|].
  unfold same_service, RateLimiter.can_make_call. cbn. tauto.
Qed.


Lemma same_service_refl s : same_service s s.
Proof. unfold same_service. tauto. Qed.

Lemma same_service_trans s1 s2 s3 :
  same_service s1 s2 -> same_service s2 s3 -> same_service s1 s3.
Proof. unfold same_service. intuition congruence. Qed.

Lemma same_service_after_check s : same_service s (after_check s).
Proof. unfold same_service, after_check, RateLimiter.can_make_call. cbn. tauto. Qed.

Lemma same_service_after_upstream r s : same_service s (after_upstream r s).
Proof.
  unfold same_service, after_upstream, after_record, after_check,
    RateLimiter.can_make_call, RateLimiter.record_call. cbn. tauto.
Qed.

Lemma same_service_with_logged l s : same_service s (with_logged l s).
Proof. unfold same_service. cbn. tauto. Qed.

(** The outcome of the undecorated method, branch by branch: it always
    returns, and a failure of the [try] block leaves the degraded reply
    for the exception raised, with one error record in the log. *)
Lemma undecorated_cases ui h ct te mt s :
  (exists e,
      get_ai_response_undecorated ui h ct te mt s
      = (Return (degraded_response e),
         with_logged (logged (after_check s) ++ [LogServiceError e]) (after_check s))
      /\ (passes s = false -> e = rate_limit_exceeded))
  \/ (exists e messages,
        passes s = true
        /\ prompt_for s ui h ct = Return messages
        /\ client s (length (sent s)) (request_of s messages te mt) = Raise e
        /\ get_ai_response_undecorated ui h ct te mt s
           = (Return (degraded_response e),
              with_logged (logged s ++ [LogServiceError e])
                          (after_upstream (request_of s messages te mt) s)))
  \/ (exists messages resp metadata s',
        passes s = true
        /\ prompt_for s ui h ct = Return messages
        /\ client s (length (sent s)) (request_of s messages te mt) = Return resp
        /\ get_ai_response_undecorated ui h ct te mt s
           = (Return (Py.strip (choice_content resp), metadata), s')
        /\ metadata !! "model" = Some (VStr (model s))
        /\ sent s' = sent s ++ [request_of s messages te mt]
        /\ rate_limiter s' = rate_limiter (after_record s)
        /\ slept s' = slept s
        /\ ticks s' = (ticks s + 5)%nat
        /\ same_service s s').
Proof.
  unfold get_ai_response_undecorated, try_except.
  destruct (passes s) eqn:Hp.
  2:{ left. exists rate_limit_exceeded. rewrite try_rejected by easy. split; reflexivity. }
  destruct (blank ui) eqn:Hb.
  { left. eexists. rewrite try_blank by easy. split; [reflexivity|discriminate]. }
  destruct (Py.truthy (api_key s)) eqn:Hk.
  2:{ left. eexists. rewrite try_no_key by easy. split; [reflexivity|discriminate]. }
  destruct (prompt_for s ui h ct) as [messages|e] eqn:Hm.
  2:{ left. exists e. erewrite try_no_prompt by eassumption.
      split; [reflexivity|discriminate]. }
  destruct (client s (length (sent s)) (request_of s messages te mt)) as [resp|e] eqn:Hc.
  - right. right.
    destruct (try_upstream_answers ui h ct te mt s messages resp Hp Hb Hk Hm Hc)
      as (metadata & s' & Heq & Hrest).
    exists messages, resp, metadata, s'. rewrite Heq. tauto.
  - right. left. exists e, messages.
    erewrite try_upstream_fails by eassumption. tauto.
Qed.

Lemma undecorated_returns ui h ct te mt s :
  exists r s', get_ai_response_undecorated ui h ct te mt s = (Return r, s').
Proof.
  destruct (undecorated_cases ui h ct te mt s)
    as [(e & H & _)|[(e & m & _ & _ & _ & H)|(m & r & md & s' & _ & _ & _ & H & _)]];
    rewrite H; eauto.
Qed.

(** The decorator never sees an exception: the wrapped method returns on
    its first attempt, whatever happened inside. *)
Lemma get_ai_response_first_attempt ui h ct te mt s r s' :
  get_ai_response_undecorated ui h ct te mt s = (Return r, s') ->
  get_ai_response ui h ct te mt s = (Return (Some r), s').
Proof.
  intros H. unfold get_ai_response, retry_on_failure.
  change (range 3) with [0; 1; 2]. cbn [retry_loop].
  unfold try_except at 1. unfold bind at 1. rewrite H. reflexivity.
Qed.



(** A call that passes every check before the upstream sends exactly one
    request and records exactly one call, whatever the upstream does. *)
Lemma undecorated_valid ui h ct te mt s messages :
  passes s = true -> blank ui = false -> Py.truthy (api_key s) = true ->
  prompt_for s ui h ct = Return messages ->
  exists r s',
    get_ai_response_undecorated ui h ct te mt s = (Return r, s')
    /\ sent s' = sent s ++ [request_of s messages te mt]
    /\ rate_limiter s' = rate_limiter (after_record s)
    /\ slept s' = slept s
    /\ (ticks s + 3 <= ticks s' <= ticks s + 5)%nat
    /\ same_service s s'.
Proof.
  intros Hp Hb Hk Hm. unfold get_ai_response_undecorated, try_except.
  destruct (client s (length (sent s)) (request_of s messages te mt)) as [resp|e] eqn:Hc.
  - destruct (try_upstream_answers ui h ct te mt s messages resp Hp Hb Hk Hm Hc)
      as (metadata & s' & Heq & _ & Hs & Hr & Hz & Ht & Hsame).
    rewrite Heq. eexists _, s'. split; [reflexivity|].
    repeat (split; [assumption|]). split; [lia|assumption].
  - erewrite try_upstream_fails by eassumption.
    unfold log, bind, modify, ret. cbn [fst snd].
    eexists _, _. split; [reflexivity|].
    cbn [sent slept rate_limiter ticks with_logged].
    unfold after_upstream.
    cbn [sent slept rate_limiter ticks with_sent with_ticks].
    repeat (split; [reflexivity|]). split; [lia|].
    eapply same_service_trans;
      [apply same_service_after_upstream|apply same_service_with_logged].
Qed.

(** *** C1: the retry decorator *)

(** The decorator itself backs off as announced when the function it
    wraps raises: here it wraps the bare upstream call. *)
Lemma retry_on_failure_backoff (r : request) (s : state) e1 e2 resp :
  client s (length (sent s)) r = Raise e1 ->
  client s (S (length (sent s))) r = Raise e2 ->
  client s (S (S (length (sent s)))) r = Return resp ->
  exists s',
    retry_on_failure 3 1 (chat_completions_create r) s = (Return (Some resp), s')
    /\ sent s' = sent s ++ [r; r; r]
    /\ slept s' = slept s ++ [1%Q; 2%Q].
Proof.
  intros H1 H2 H3. unfold retry_on_failure. change (range 3) with [0; 1; 2].
  destruct s as [k m rl sp mc mt clk tk cl snt slp lg]. cbn in H1, H2, H3.
  cbn [retry_loop]. change (3 - 1) with 2.
  unfold try_except, chat_completions_create, bind, ret, raise,
    log, time_sleep, modify. cbn. rewrite H1. cbn.
  rewrite length_app, Nat.add_1_r, H2. cbn.
  rewrite !length_app, !Nat.add_1_r. cbn. rewrite H3.
  eexists. split; [reflexivity|].
  cbn. rewrite <- !app_assoc. split; reflexivity.
Qed.

(** ... and lets the last exception through once the attempts are used up. *)
Lemma retry_on_failure_exhausted (r : request) (s : state) e1 e2 e3 :
  client s (length (sent s)) r = Raise e1 ->
  client s (S (length (sent s))) r = Raise e2 ->
  client s (S (S (length (sent s)))) r = Raise e3 ->
  exists s',
    retry_on_failure 3 1 (chat_completions_create r) s = (Raise e3, s')
    /\ sent s' = sent s ++ [r; r; r]
    /\ slept s' = slept s ++ [1%Q; 2%Q].
Proof.
  intros H1 H2 H3. unfold retry_on_failure. change (range 3) with [0; 1; 2].
  destruct s as [k m rl sp mc mt clk tk cl snt slp lg]. cbn in H1, H2, H3.
  cbn [retry_loop]. change (3 - 1) with 2.
  unfold try_except, chat_completions_create, bind, ret, raise,
    log, time_sleep, modify. cbn. rewrite H1. cbn.
  rewrite length_app, Nat.add_1_r, H2. cbn.
  rewrite !length_app, !Nat.add_1_r. cbn. rewrite H3.
  eexists. split; [reflexivity|].
  cbn. rewrite <- !app_assoc. split; reflexivity.
Qed.

(** Around [get_ai_response] the decorator is idle: whatever the inputs
    and the upstream, a call never sleeps and reaches the upstream at
    most once. *)
Lemma get_ai_response_single_attempt (c : call) (s : state) :
  let s' := snd (run_call c s) in
  slept s' = slept s
  /\ (sent s' = sent s \/ exists r, sent s' = sent s ++ [r]).
Proof.
  destruct c as [ui h ct te mt]. unfold run_call. cbn [user_input
    conversation_history context_type temperature max_tokens].
  destruct (undecorated_cases ui h ct te mt s)
    as [(e & H & _)|[(e & m & _ & _ & _ & H)|(m & r & md & s' & _ & _ & _ & H & _ & Hs & _ & Hz & _)]];
    rewrite (get_ai_response_first_attempt _ _ _ _ _ _ _ _ H); cbn.
  - auto.
  - eauto.
  - eauto.
Qed.

(** C1, on the code: with an upstream that fails twice and then answers,
    [get_ai_response] makes a single attempt, does not sleep, and returns
    the connectivity apology instead of the answer of the third attempt.
    The [except Exception] clause inside the method turns the first
    failure into a return value, so the decorator has nothing to retry. *)
Theorem upstream_failure_not_retried :
  fst (run_call hello flaky_service) = Return (Some (connection_apology, ∅))
  /\ length (sent (snd (run_call hello flaky_service))) = 1%nat
  /\ slept (snd (run_call hello flaky_service)) = [].
Proof. vm_compute. repeat split. Qed.

(** *** C2: the degraded responses *)

Lemma degraded_response_canned e :
  In (fst (degraded_response e)) apologies /\ snd (degraded_response e) = ∅.
Proof.
  unfold degraded_response, apologies.
  repeat match goal with |- context [if ?b then _ else _] => destruct b end;
    cbn [fst snd In]; tauto.
Qed.

(** [get_ai_response] never raises: it returns a text with metadata, and
    unless the upstream answered the text is one of the canned replies
    and the metadata is empty. *)
Lemma get_ai_response_never_raises (c : call) (s : state) :
  exists text metadata,
    fst (run_call c s) = Return (Some (text, metadata))
    /\ ((In text apologies /\ metadata = ∅)
        \/ (exists messages resp,
              prompt_for s (user_input c) (conversation_history c) (context_type c)
              = Return messages
              /\ client s (length (sent s))
                   (request_of s messages (temperature c) (max_tokens c))
                 = Return resp
              /\ text = Py.strip (choice_content resp)
              /\ metadata !! "model" = Some (VStr (model s)))).
Proof.
  destruct c as [ui h ct te mt]. unfold run_call. cbn [user_input
    conversation_history context_type temperature max_tokens].
  destruct (undecorated_cases ui h ct te mt s)
    as [(e & H & _)|[(e & m & _ & _ & _ & H)|(m & r & md & s' & _ & Hm & Hc & H & Hmd & _)]];
    rewrite (get_ai_response_first_attempt _ _ _ _ _ _ _ _ H); cbn [fst].
  - destruct (degraded_response e) as [t md] eqn:E.
    exists t, md. split; [reflexivity|]. left.
    pose proof (degraded_response_canned e) as Hd. now rewrite E in Hd.
  - destruct (degraded_response e) as [t md] eqn:E.
    exists t, md. split; [reflexivity|]. left.
    pose proof (degraded_response_canned e) as Hd. now rewrite E in Hd.
  - eexists _, _. split; [reflexivity|]. right. exists m, r. auto.
Qed.

(** A call stopped by the admission check gets the generic reply. *)
Lemma rejection_reply : degraded_response rate_limit_exceeded = (generic_apology, ∅).
Proof. reflexivity. Qed.

(** C2, on the code: the fifty-first call within a minute is stopped by
    the rate limiter, and the reply is the generic apology, not the one of
    the rate-limit category: the message the check raises, lower-cased,
    does not contain the key the handler looks for. *)
Theorem rate_limit_rejection_reply :
  passes saturated_service = false
  /\ fst (run_call hello saturated_service) = Return (Some (generic_apology, ∅))
  /\ generic_apology <> rate_limit_apology
  /\ Py.contains "rate_limit" (Py.lower (str_of_exn rate_limit_exceeded)) = false.
Proof. vm_compute. repeat split. discriminate. Qed.


(** *** C5: admission control *)

Lemma rejected_call (c : call) (s : state) :
  passes s = false ->
  run_call c s
  = (Return (Some (degraded_response rate_limit_exceeded)),
     with_logged (logged s ++ [LogServiceError rate_limit_exceeded]) (after_check s)).
Proof.
  intros Hp. destruct c as [ui h ct te mt]. unfold run_call. cbn [user_input
    conversation_history context_type temperature max_tokens].
  apply get_ai_response_first_attempt.
  unfold get_ai_response_undecorated, try_except. now rewrite try_rejected.
Qed.



Section Burst.

Variables (key model : string) (env : state).
Hypothesis key_set : Py.truthy key = true.

(** Every clock reading the first fifty-one calls can take lies less
    than sixty seconds after every earlier one. *)
Hypothesis within_a_minute :
  forall i j, (ticks env <= i <= j)%nat -> (j <= ticks env + 250)%nat ->
              (clock env j - clock env i < 60)%Q.







End Burst.




End ZyeonAIServiceFacts.

(** ** The context window *)

Module WindowFacts.
Import ZyeonAIService Trace Window.


(** With a cap of zero the slice is [history[-0:]], the whole history. *)
Lemma slice_last_zero {A} (l : list A) : Py.slice_last 0 l = l.
Proof. reflexivity. Qed.















End WindowFacts.

(** ** The conversation store *)

Module ConversationModelFacts.
Import ConversationModel Store.

(** *** The descending sort *)



Lemma Forall_insert_desc (P : dict -> Prop) d l :
  P d -> Forall P l -> Forall P (insert_desc d l).
Proof.
  intros Hd. induction 1 as [|x l Hx Hl IH]; simpl.
  - repeat constructor. exact Hd.
  - destruct (key_geb (sort_key d) (sort_key x)); repeat constructor; assumption.
Qed.






Lemma cursor_limit_positive n l : 0 < n -> cursor_limit n l = firstn (Z.to_nat n) l.
Proof.
  intros H. unfold cursor_limit. destruct (Z.eqb_spec n 0) as [->|_]; [lia|].
  now rewrite Z.abs_eq by lia.
Qed.

(** *** Serialising the dates *)



Lemma serialize_all_Forall2 l l' :
  serialize_all l = Return l' ->
  Forall2 (fun conv conv' => serialize conv = Return conv') l l'.
Proof.
  revert l'. induction l as [|conv l IH]; simpl; intros l'.
  - intros [= <-]. constructor.
  - destruct (serialize conv) as [c|] eqn:E; [|discriminate].
    destruct (serialize_all l) as [r|]; [|discriminate].
    intros [= <-]. constructor; [exact E|]. now apply IH.
Qed.


Lemma serialize_all_length l l' :
  serialize_all l = Return l' -> length l' = length l.
Proof. intros H%serialize_all_Forall2. symmetry. eapply Forall2_length, H. Qed.

(** *** [get_conversation_history] *)

(** What the method returns, branch by branch. *)
Lemma get_conversation_history_result u c sid limit offset s :
  fst (get_conversation_history u c sid limit offset s)
  = Return
      (if offset <? 0 then []
       else if online s then
         match serialize_all
                 (cursor_limit limit
                    (skipn (Z.to_nat offset)
                       (sort_desc (map (delete "_id") (matching u c sid s)))))
         with
         | Return l => l
         | Raise _ => []
         end
       else []).
Proof.
  unfold get_conversation_history, try_except, find_page, reach_server, matching,
    bind, get, lift, raise, ret, log, modify.
  destruct (offset <? 0); [reflexivity|].
  destruct (online s); [|reflexivity].
  destruct (serialize_all _); reflexivity.
Qed.

(** The read leaves the three collections as they are. *)
Lemma get_conversation_history_frame u c sid limit offset s :
  let s' := snd (get_conversation_history u c sid limit offset s) in
  conversations s' = conversations s /\ sessions s' = sessions s
  /\ users s' = users s /\ online s' = online s.
Proof.
  unfold get_conversation_history, try_except, find_page, reach_server,
    bind, get, lift, raise, ret, log, modify.
  destruct (offset <? 0); [cbn; tauto|].
  destruct (online s) eqn:E; [|cbn; rewrite ?E; tauto].
  destruct (serialize_all _); cbn; rewrite ?E; tauto.
Qed.




(** *** Sessions *)

Ltac unfold_store :=
  unfold end_session, create_session, create_conversation, update_one_session,
    insert_session, insert_conversation, reach_server, datetime_now, log,
    try_except, bind, get, lift, raise, ret, modify;
  cbn [conversations users sessions next_oid online clock ticks logged
       with_conversations with_sessions with_next_oid with_ticks with_logged
       fst snd].

Lemma matches_singleton k v d : matches {[k := v]} d = has_str k v d.
Proof.
  unfold matches. rewrite map_to_list_singleton. simpl. apply andb_true_r.
Qed.



























(** *** Generated conversation ids *)

(** [int(x)] of a non-negative instant is its whole number of seconds. *)
Lemma int_of_floor (x : Q) :
  (0 <= x)%Q -> (inject_Z (Py.int_of x) <= x < inject_Z (Py.int_of x) + 1)%Q.
Proof.
  destruct x as [n d]. unfold Py.int_of, Qle, Qlt, Qplus, inject_Z. cbn.
  intros Hn. rewrite Z.mul_1_r in Hn. rewrite Z.quot_div_nonneg by lia.
  pose proof (Z.mul_div_le n (Z.pos d) ltac:(lia)).
  pose proof (Z.mul_succ_div_gt n (Z.pos d) ltac:(lia)). nia.
Qed.

Lemma create_conversation_generated um ar u cid sid mt md s :
  truthy_str cid = None -> online s = true ->
  let s' := snd (create_conversation um ar u cid sid mt md s) in
  exists d,
    conversations s' = conversations s ++ [d]
    /\ d !! "conversation_id"
       = Some (VStr (generated_conversation_id (clock s (ticks s))))
    /\ d !! "user_id" = Some (VStr u)
    /\ online s' = true /\ clock s' = clock s /\ ticks s' = (ticks s + 4)%nat.
Proof.
  intros Hc Hon. unfold_store. rewrite Hc. cbn. rewrite Hon. cbn.
  eexists. split; [reflexivity|]. split; [|split].
  - rewrite lookup_insert_ne by discriminate. apply lookup_insert_eq.
  - rewrite !lookup_insert_ne by discriminate. apply lookup_insert_eq.
  - repeat split; [exact Hon|lia].
Qed.

(** C10: without a conversation id (none, or an empty one) the stored
    turn gets ["conv_"] followed by the decimal of the clock reading cut
    to whole seconds; the clock is read when the call starts.  Two turns
    created that way within the same second get the same id, so a query
    by that id selects both. *)
Theorem generated_id_per_second
    (um ar u : string) (cid sid : option string) (mt : string)
    (md : option dict) (s : state) :
  truthy_str cid = None -> online s = true ->
  let now := clock s (ticks s) in
  let s1 := snd (create_conversation um ar u cid sid mt md s) in
  exists d,
    conversations s1 = conversations s ++ [d]
    /\ d !! "conversation_id"
       = Some (VStr ("conv_" +:+ Py.str_of_int (Py.int_of now)))
    /\ ((0 <= now)%Q ->
        (inject_Z (Py.int_of now) <= now < inject_Z (Py.int_of now) + 1)%Q)
    /\ (forall um2 ar2 u2 cid2 sid2 mt2 md2,
          truthy_str cid2 = None ->
          Py.int_of (clock s1 (ticks s1)) = Py.int_of now ->
          let s2 := snd (create_conversation um2 ar2 u2 cid2 sid2 mt2 md2 s1) in
          exists d2,
            conversations s2 = conversations s ++ [d; d2]
            /\ d2 !! "conversation_id" = d !! "conversation_id"
            /\ List.filter
                 (matches (history_query None
                             (Some ("conv_" +:+ Py.str_of_int (Py.int_of now))) None))
                 [d; d2]
               = [d; d2]).
Proof.
  intros Hc Hon now s1.
  destruct (create_conversation_generated um ar u cid sid mt md s Hc Hon)
    as (d & Hd & Hid & _ & Hon1 & Hclk & Ht).
  fold s1 in Hd, Hon1, Hclk, Ht. exists d.
  split; [exact Hd|]. split; [exact Hid|]. split; [apply int_of_floor|].
  intros um2 ar2 u2 cid2 sid2 mt2 md2 Hc2 Hsame s2.
  destruct (create_conversation_generated um2 ar2 u2 cid2 sid2 mt2 md2 s1 Hc2 Hon1)
    as (d2 & Hd2 & Hid2 & _).
  fold s2 in Hd2. exists d2.
  unfold generated_conversation_id in Hid2. rewrite Hsame in Hid2.
  split; [rewrite Hd2, Hd, <- app_assoc; reflexivity|].
  split; [now rewrite Hid2, Hid|].
  assert (Hq : forall x, x !! "conversation_id"
                         = Some (VStr ("conv_" +:+ Py.str_of_int (Py.int_of now))) ->
                         matches (history_query None
                           (Some ("conv_" +:+ Py.str_of_int (Py.int_of now))) None) x
                         = true).
  { intros x Hx. unfold history_query, truthy_str.
    cbv beta iota delta [String.append Py.truthy].
    rewrite insert_empty, matches_singleton. unfold has_str. rewrite Hx.
    apply String.eqb_refl. }
  cbn [List.filter]. now rewrite (Hq d Hid), (Hq d2 Hid2).
Qed.

Lemma generated_id_per_second_witness :
  map (fun d : dict => d !! "conversation_id")
      (conversations
         (run_ops [OpCreateConversation "a" "b" "u" None None "text" None;
                   OpCreateConversation "c" "d" "u" (Some "") None "text" None]
                  busy_second))
  = [Some (VStr "conv_1700000000"); Some (VStr "conv_1700000000")].
Proof.
  destruct (generated_id_per_second "a" "b" "u" None None "text" None busy_second)
    as (d & Hd & Hid & _ & Hnext); [reflexivity|reflexivity|].
  destruct (Hnext "c" "d" "u" (Some "") None "text" None) as (d2 & Hd2 & Hid2 & _);
    [reflexivity|reflexivity|].
  cbn [run_ops fold_left run_op]. rewrite Hd2.
  change (conversations busy_second) with (@nil dict). cbn [app map].
  rewrite Hid2, Hid. reflexivity.
Defined.

End ConversationModelFacts.

(** ** The voice service *)

Module VoiceServiceFacts.
Import VoiceService Voice.

Ltac unfold_voice :=
  unfold start_listening, stop_listening, call_if_set, log, try_except, bind,
    get, lift, raise, ret, modify;
  cbn [is_listening is_speaking voice_thread recognizer microphone
       on_listening_started on_listening_stopped thread_start called logged
       with_is_listening with_voice_thread with_called with_logged fst snd].

Lemma start_listening_unavailable s :
  no_capture_device s ->
  start_listening s = (Return false, with_logged (logged s ++ [LogUnavailable]) s).
Proof.
  intros H. unfold_voice.
  destruct H as [-> | ->]; [reflexivity|]. now rewrite orb_true_r.
Qed.

(** [start_listening] never touches the devices, and it only switches
    listening on when both are there. *)
Lemma start_listening_devices s :
  let s' := snd (start_listening s) in
  recognizer s' = recognizer s /\ microphone s' = microphone s
  /\ (is_listening s' = true ->
      is_listening s = true \/ (recognizer s = true /\ microphone s = true)).
Proof.
  unfold_voice.
  destruct (recognizer s) eqn:Hr, (microphone s) eqn:Hm; cbn;
    try (rewrite ?Hr, ?Hm; tauto).
  destruct (is_listening s) eqn:Hl; cbn; [rewrite ?Hr, ?Hm; tauto|].
  destruct (thread_start s); cbn; [|rewrite ?Hr, ?Hm; tauto].
  destruct (on_listening_started s) as [[[]|e]|]; cbn; rewrite ?Hr, ?Hm; tauto.
Qed.

Lemma stop_listening_off s : is_listening (snd (stop_listening s)) = false.
Proof.
  unfold_voice.
  destruct (voice_thread s) as [[[] [[]|e]]|]; cbn;
    destruct (on_listening_stopped s) as [[[]|e']|]; reflexivity.
Qed.

Lemma stop_listening_devices s :
  recognizer (snd (stop_listening s)) = recognizer s
  /\ microphone (snd (stop_listening s)) = microphone s.
Proof.
  unfold_voice.
  destruct (voice_thread s) as [[[] [[]|e]]|]; cbn;
    destruct (on_listening_stopped s) as [[[]|e']|]; split; reflexivity.
Qed.

Lemma stop_listening_returns s :
  exists b, fst (stop_listening s) = Return b.
Proof.
  unfold_voice.
  destruct (voice_thread s) as [[[] [[]|e]]|]; cbn;
    destruct (on_listening_stopped s) as [[[]|e']|]; eauto.
Qed.

Lemma stop_listening_true_iff s :
  fst (stop_listening s) = Return true <-> stops_cleanly s.
Proof.
  unfold stops_cleanly. unfold_voice.
  destruct (voice_thread s) as [[[] [[]|e]]|]; cbn;
    destruct (on_listening_stopped s) as [[[]|e']|]; cbn;
    intuition (congruence || discriminate).
Qed.

(** Listening is only ever on in a service that has both devices. *)
Lemma reachable_devices s :
  reachable s ->
  is_listening s = true -> recognizer s = true /\ microphone s = true.
Proof.
  induction 1 as [avail o|s s' Hr IH Hstep].
  - cbn. discriminate.
  - destruct Hstep as [s|s|s a b|s|s t|s o]; cbn [is_listening recognizer
      microphone with_callbacks with_is_listening with_voice_thread
      with_thread_start] in *; try assumption; try discriminate.
    + destruct (start_listening_devices s) as (-> & -> & H). intros Hl.
      destruct (H Hl) as [Hon|Hdev]; [now apply IH|exact Hdev].
    + rewrite stop_listening_off. discriminate.
Qed.

(** C9, as the code has it: without a capture device [start_listening]
    returns false and changes nothing but the log, so the service stays
    idle; [stop_listening] never raises and always leaves [is_listening]
    false, whether or not listening was ever started, and it returns
    true exactly when neither the join of the listener thread nor the
    [on_listening_stopped] callback raises (false otherwise). *)
Theorem listening_switch :
  (forall s, no_capture_device s ->
     fst (start_listening s) = Return false
     /\ snd (start_listening s) = with_logged (logged s ++ [LogUnavailable]) s
     /\ (reachable s -> is_listening (snd (start_listening s)) = false))
  /\ (forall s,
        is_listening (snd (stop_listening s)) = false
        /\ (exists b, fst (stop_listening s) = Return b)
        /\ (fst (stop_listening s) = Return true <-> stops_cleanly s)).
Proof.
  split.
  - intros s H. rewrite (start_listening_unavailable s H). cbn [fst snd].
    split; [reflexivity|]. split; [reflexivity|].
    intros Hr. cbn [is_listening with_logged].
    destruct (is_listening s) eqn:Hl; [|reflexivity].
    destruct (reachable_devices s Hr Hl) as [H1 H2].
    destruct H as [H|H]; congruence.
  - intros s. split; [apply stop_listening_off|].
    split; [apply stop_listening_returns|apply stop_listening_true_iff].
Qed.

Lemma listening_switch_witness :
  fst (start_listening deaf_service) = Return false
  /\ is_listening (snd (start_listening deaf_service)) = false
  /\ fst (stop_listening idle_service) = Return true.
Proof.
  destruct listening_switch as [Hstart Hstop].
  destruct (Hstart deaf_service) as (H1 & _ & H3); [now left|].
  split; [exact H1|]. split; [apply H3; constructor|].
  apply (Hstop idle_service). split; exact I || reflexivity.
Defined.

(** C9, as stated, fails: in a service that never listened the
    [on_listening_stopped] callback raises, the handler of
    [stop_listening] catches it, and the method returns false. *)
Lemma stop_listening_not_always_true :
  reachable broken_callback_service
  /\ is_listening broken_callback_service = false
  /\ fst (stop_listening broken_callback_service) = Return false.
Proof.
  split; [|split; reflexivity].
  eapply reachable_step; [apply (reachable_init true (Return tt))|].
  apply step_set_callbacks.
Qed.

End VoiceServiceFacts.

(** ** From the store to the prompt *)

Module OrchestratorFacts.
Import Orchestrator.

(** The history a request handler fetches never exceeds ten turns, so
    the cap of twenty never cuts it. *)
Lemma fetch_history_short user_id conversation_id s :
  exists l, fst (fetch_history user_id conversation_id s) = Return l
            /\ (length l <= 10)%nat.
Proof.
  unfold fetch_history. eexists.
  split; [apply ConversationModelFacts.get_conversation_history_result|].
  cbn [Z.ltb Z.compare]. destruct (ConversationModel.online s); [|cbn; lia].
  destruct (ConversationModel.serialize_all _) as [l|e] eqn:E; [|cbn; lia].
  rewrite (ConversationModelFacts.serialize_all_length _ _ E).
  rewrite ConversationModelFacts.cursor_limit_positive by lia.
  rewrite length_firstn. lia.
Qed.

(** The handlers pass that history on as fetched: the prompt lists the
    newest stored turn first. *)
Lemma fetched_history_prompt :
  match fst (fetch_history "user_1" None Store.three_turns) with
  | Return history =>
      contents (ZyeonAIService.prompt_for Trace.steady_service "and then?"
                  (Some history) "default")
  | Raise _ => []
  end
  = [VStr ZyeonAIService.default_prompt;
     VStr "third"; VStr "three"; VStr "second"; VStr "two";
     VStr "first"; VStr "one"; VStr "and then?"].
Proof. vm_compute. reflexivity. Qed.

End OrchestratorFacts.

(** ** The pace of upstream calls *)

Module PaceFacts.
Import ZyeonAIService Trace Pace ZyeonAIServiceFacts.

(** One call, seen from outside: it prunes the log and sends nothing, or
    it passes the check, records one stamp and sends one request. *)
Lemma call_step (c : call) (s : state) :
  let s' := snd (run_call c s) in
  let kept := RateLimiter.calls (rate_limiter (after_check s)) in
  same_service s s'
  /\ ((sent s' = sent s /\ RateLimiter.calls (rate_limiter s') = kept
       /\ ticks s' = S (ticks s))
      \/ (passes s = true
          /\ (exists r, sent s' = sent s ++ [r])
          /\ RateLimiter.calls (rate_limiter s') = kept ++ [clock s (S (ticks s))]
          /\ (ticks s + 3 <= ticks s')%nat)).
Proof.
  destruct c as [ui h ct te mt]. unfold run_call. cbn [user_input
    conversation_history context_type temperature max_tokens].
  destruct (undecorated_cases ui h ct te mt s)
    as [(e & H & _)|[(e & m & Hp & _ & _ & H)
                    |(m & r & md & s' & Hp & _ & _ & H & _ & Hs & Hr & _ & Ht & Hsame)]];
    rewrite (get_ai_response_first_attempt _ _ _ _ _ _ _ _ H); cbn [snd].
  - split.
    + eapply same_service_trans;
        [apply same_service_after_check|apply same_service_with_logged].
    + left. repeat split.
  - split.
    + eapply same_service_trans;
        [apply same_service_after_upstream|apply same_service_with_logged].
    + right. split; [assumption|]. split; [eexists; reflexivity|].
      split; [reflexivity|]. cbn. lia.
  - split; [assumption|]. right. split; [assumption|]. split; [eauto|].
    rewrite Hr. split; [reflexivity|lia].
Qed.

Lemma kept_calls s :
  RateLimiter.calls (rate_limiter (after_check s))
  = List.filter (RateLimiter.fresh (RateLimiter.time_window (rate_limiter s))
                                   (clock s (ticks s)))
                (RateLimiter.calls (rate_limiter s)).
Proof. reflexivity. Qed.

Lemma passes_length s :
  passes s = true ->
  Z.of_nat (length (RateLimiter.calls (rate_limiter (after_check s))))
  < RateLimiter.max_calls (rate_limiter s).
Proof. unfold passes, RateLimiter.can_make_call. cbn. apply Z.ltb_lt. Qed.

Lemma reaches_upstream_cases c s :
  let s' := snd (run_call c s) in
  (reaches_upstream c s = false /\ sent s' = sent s)
  \/ (reaches_upstream c s = true /\ exists r, sent s' = sent s ++ [r]).
Proof.
  cbn zeta. unfold reaches_upstream.
  destruct (call_step c s) as [_ [(Hs & _)|(_ & (r & Hs) & _)]]; rewrite Hs.
  - left. split; [apply Nat.ltb_irrefl|reflexivity].
  - right. split; [|eauto]. rewrite length_app. apply Nat.ltb_lt. cbn. lia.
Qed.

(** The log never holds more stamps than the ceiling allows. *)
Lemma log_bound_step c s :
  Z.of_nat (length (RateLimiter.calls (rate_limiter s)))
  <= RateLimiter.max_calls (rate_limiter s) ->
  Z.of_nat (length (RateLimiter.calls (rate_limiter (snd (run_call c s)))))
  <= RateLimiter.max_calls (rate_limiter (snd (run_call c s))).
Proof.
  intros H. destruct (call_step c s) as [Hsame Hcases].
  destruct Hsame as (_ & _ & _ & _ & _ & _ & _ & -> & _).
  destruct Hcases as [(_ & -> & _)|(Hp & _ & -> & _)].
  - rewrite kept_calls. pose proof (List.filter_length_le
      (RateLimiter.fresh (RateLimiter.time_window (rate_limiter s)) (clock s (ticks s)))
      (RateLimiter.calls (rate_limiter s))). lia.
  - apply passes_length in Hp. rewrite length_app. cbn [length]. lia.
Qed.

Lemma log_bound_run cs : forall s,
  Z.of_nat (length (RateLimiter.calls (rate_limiter s)))
  <= RateLimiter.max_calls (rate_limiter s) ->
  Z.of_nat (length (RateLimiter.calls (rate_limiter (run_calls cs s))))
  <= RateLimiter.max_calls (rate_limiter (run_calls cs s)).
Proof.
  induction cs as [|c cs IH]; intros s H; [exact H|].
  cbn [run_calls fold_left]. apply IH, log_bound_step, H.
Qed.

Lemma same_service_run cs : forall s, same_service s (run_calls cs s).
Proof.
  induction cs as [|c cs IH]; intros s; [apply same_service_refl|].
  cbn [run_calls fold_left]. eapply same_service_trans; [|apply IH].
  apply call_step.
Qed.

(** X1: whatever calls a service built by [__init__] has served, and
    whatever the clock and the upstream did, its limiter holds at most
    fifty stamps and its ceiling is still fifty. *)
Theorem limiter_log_bounded (key model : string) (env : state) (cs : list call) :
  let s := run_calls cs (init key model env) in
  RateLimiter.max_calls (rate_limiter s) = 50
  /\ RateLimiter.time_window (rate_limiter s) = 60
  /\ (length (RateLimiter.calls (rate_limiter s)) <= 50)%nat.
Proof.
  intros s.
  pose proof (same_service_run cs (init key model env))
    as (_ & _ & _ & _ & _ & _ & _ & Hm & Hw).
  fold s in Hm, Hw. cbn in Hm, Hw. split; [exact Hm|]. split; [exact Hw|].
  pose proof (log_bound_run cs (init key model env)) as H. fold s in H.
  rewrite Hm in H. cbn in H. lia.
Qed.

(** *** Spacing *)

Lemma sorted_snoc (l : list Q) (r : Q) :
  StronglySorted Qle l -> Forall (fun g => (g <= r)%Q) l ->
  StronglySorted Qle (l ++ [r]).
Proof.
  induction 1 as [|x l Hs IH Hx]; intros Hall; cbn.
  - repeat constructor.
  - apply Forall_cons in Hall as [Hxr Hall]. constructor; [now apply IH|].
    apply Forall_app. split; [exact Hx|]. repeat constructor. exact Hxr.
Qed.

(** In a sorted list everything from position [i] on is at least the
    element at [i]. *)
Lemma sorted_tail (l : list Q) i x :
  StronglySorted Qle l -> l !! i = Some x ->
  Forall (fun g => (x <= g)%Q) (drop i l).
Proof.
  intros Hs. revert i. induction Hs as [|y l Hs IH Hy]; intros i Hi.
  - rewrite lookup_nil in Hi. discriminate.
  - destruct i as [|i]; cbn in *.
    + injection Hi as ->. constructor; [apply Qle_refl|exact Hy].
    + now apply IH.
Qed.

Lemma filter_fresh_all w now (l : list Q) :
  Forall (fun g => RateLimiter.fresh w now g = true) l ->
  List.filter (RateLimiter.fresh w now) l = l.
Proof.
  induction 1 as [|g l Hg Hl IH]; cbn; [reflexivity|]. now rewrite Hg, IH.
Qed.

(** If the stamp at position [i] is inside the window, so are all the
    later ones: the window holds at least [length l - i] stamps. *)
Lemma fresh_count_from w now (l : list Q) i x :
  StronglySorted Qle l -> l !! i = Some x ->
  RateLimiter.fresh w now x = true ->
  (length l - i <= length (List.filter (RateLimiter.fresh w now) l))%nat.
Proof.
  intros Hs Hi Hx.
  rewrite <- (take_drop i l) at 2. rewrite List.filter_app, length_app.
  rewrite (filter_fresh_all w now (drop i l)).
  - rewrite length_drop. lia.
  - eapply Forall_impl; [apply (sorted_tail l i x Hs Hi)|].
    cbn. intros g Hg. apply RateLimiterFacts.fresh_spec.
    apply RateLimiterFacts.fresh_spec in Hx.
    unfold RateLimiter.within_window in *. lra.
Qed.

Section Spacing.

Variable s0 : state.
Hypothesis clock_monotone : monotone (clock s0).

Lemma paced_step (c : call) (s : state) (stamps : list Q) :
  paced s0 stamps s ->
  paced s0 (stamps ++ recorded_during [c] s) (snd (run_call c s)).
Proof.
  intros (Hsame & Hsorted & Hread & Hlog & Hspaced).
  assert (Hclk : clock s = clock s0) by apply Hsame.
  assert (Hw : RateLimiter.time_window (rate_limiter s)
               = RateLimiter.time_window (rate_limiter s0)) by apply Hsame.
  assert (Hm : RateLimiter.max_calls (rate_limiter s)
               = RateLimiter.max_calls (rate_limiter s0)) by apply Hsame.
  cbn [recorded_during]. rewrite app_nil_r.
  destruct (call_step c s) as [Hsame' Hcases].
  destruct (reaches_upstream_cases c s) as [[Hr Hsent]|[Hr (r & Hsent)]]; rewrite Hr.
  - (* nothing sent: the log is pruned, the stamps stay *)
    destruct Hcases as [(_ & Hcalls & Ht)|(_ & (r & Hsent') & _)].
    2:{ rewrite Hsent in Hsent'. apply (f_equal (@length _)) in Hsent'.
        rewrite length_app in Hsent'. cbn in Hsent'. lia. }
    rewrite app_nil_r. unfold paced.
    split; [eapply same_service_trans; eassumption|].
    split; [exact Hsorted|]. split; [|split; [|exact Hspaced]].
    + eapply Forall_impl; [exact Hread|]. cbn. intros g (k & Hk & ->).
      exists k. split; [lia|reflexivity].
    + intros now Hnow. rewrite Hcalls, kept_calls, Hw, Hclk.
      rewrite RateLimiterFacts.filter_fresh_later.
      * apply Hlog. rewrite Ht in Hnow.
        pose proof (clock_monotone (ticks s) (S (ticks s)) ltac:(lia)). lra.
      * rewrite Ht in Hnow.
        pose proof (clock_monotone (ticks s) (S (ticks s)) ltac:(lia)). lra.
  - (* one request sent: one stamp more *)
    destruct Hcases as [(Hsent' & _)|(Hp & _ & Hcalls & Ht)].
    { rewrite Hsent' in Hsent. apply (f_equal (@length _)) in Hsent.
      rewrite length_app in Hsent. cbn in Hsent. lia. }
    rewrite Hclk. set (t := clock s0 (ticks s)). set (r' := clock s0 (S (ticks s))).
    assert (Htr : (t <= r')%Q) by (apply clock_monotone; lia).
    assert (Hkept : RateLimiter.calls (rate_limiter (after_check s))
                    = List.filter (RateLimiter.fresh
                                     (RateLimiter.time_window (rate_limiter s0)) t)
                                  stamps).
    { rewrite kept_calls, Hw, Hclk. apply Hlog. apply Qle_refl. }
    apply passes_length in Hp. rewrite Hkept, Hm in Hp.
    unfold paced. split; [eapply same_service_trans; eassumption|].
    split; [|split; [|split]].
    + apply sorted_snoc; [exact Hsorted|].
      eapply Forall_impl; [exact Hread|]. cbn. intros g (k & Hk & ->).
      apply clock_monotone. lia.
    + apply Forall_app. split.
      * eapply Forall_impl; [exact Hread|]. cbn. intros g (k & Hk & ->).
        exists k. split; [lia|reflexivity].
      * repeat constructor. exists (S (ticks s)). split; [lia|reflexivity].
    + intros now Hnow. rewrite Hcalls, Hkept, Hclk, !List.filter_app. f_equal.
      apply RateLimiterFacts.filter_fresh_later.
      pose proof (clock_monotone (ticks s) (ticks (snd (run_call c s))) ltac:(lia)).
      fold t in H. lra.
    + intros i x y Hx Hy.
      destruct (Nat.lt_ge_cases (i + Z.to_nat (RateLimiter.max_calls (rate_limiter s0)))
                                (length stamps)) as [Hin|Hout].
      * rewrite lookup_app_l in Hy by exact Hin.
        rewrite lookup_app_l in Hx by lia. eapply Hspaced; eassumption.
      * assert (Hlen : (i + Z.to_nat (RateLimiter.max_calls (rate_limiter s0))
                        = length stamps)%nat).
        { apply lookup_lt_Some in Hy. rewrite length_app in Hy. cbn in Hy. lia. }
        rewrite lookup_app_r in Hy by lia. rewrite Hlen, Nat.sub_diag in Hy.
        injection Hy as <-.
        assert (Hi : (i < length stamps)%nat) by lia.
        rewrite lookup_app_l in Hx by exact Hi.
        destruct (RateLimiter.fresh (RateLimiter.time_window (rate_limiter s0)) t x)
          eqn:Hfresh.
        -- pose proof (fresh_count_from _ t stamps i x Hsorted Hx Hfresh). lia.
        -- apply RateLimiterFacts.fresh_false in Hfresh.
           unfold RateLimiter.within_window in Hfresh.
           apply Qnot_lt_le in Hfresh. lra.
Qed.

Lemma recorded_during_app cs1 cs2 s :
  recorded_during (cs1 ++ cs2) s
  = recorded_during cs1 s ++ recorded_during cs2 (run_calls cs1 s).
Proof.
  revert s. induction cs1 as [|c cs1 IH]; intros s; cbn [recorded_during app];
    [reflexivity|].
  rewrite IH, <- app_assoc. reflexivity.
Qed.

Lemma paced_run cs : forall s stamps,
  paced s0 stamps s ->
  paced s0 (stamps ++ recorded_during cs s) (run_calls cs s).
Proof.
  induction cs as [|c cs IH]; intros s stamps H.
  - cbn. now rewrite app_nil_r.
  - change (c :: cs) with ([c] ++ cs). rewrite recorded_during_app, app_assoc.
    change (run_calls ([c] ++ cs) s) with (run_calls cs (snd (run_call c s))).
    apply IH. change (run_calls [c] s) with (snd (run_call c s)).
    now apply paced_step.
Qed.

Lemma paced_start :
  RateLimiter.calls (rate_limiter s0) = [] -> paced s0 [] s0.
Proof.
  intros H. unfold paced, spaced. split; [apply same_service_refl|].
  split; [constructor|]. split; [constructor|]. split.
  - intros now _. now rewrite H.
  - intros i x y Hx. rewrite lookup_nil in Hx. discriminate.
Qed.

End Spacing.

Lemma sent_recorded cs : forall s,
  length (sent (run_calls cs s))
  = (length (sent s) + length (recorded_during cs s))%nat.
Proof.
  induction cs as [|c cs IH]; intros s; cbn [run_calls fold_left recorded_during];
    [cbn [length]; lia|].
  fold (run_calls cs (snd (run_call c s))). rewrite IH, length_app.
  destruct (reaches_upstream_cases c s) as [[-> ->]|[-> (r & ->)]];
    rewrite ?length_app; cbn; lia.
Qed.

(** X2: under a clock that never runs backwards, a service built by
    [__init__] sends one request per stamp it records, and any fifty-one
    consecutive stamps span at least sixty seconds: through
    [get_ai_response] the upstream is never invoked more than fifty times
    within a minute. *)
Theorem upstream_pace (key model : string) (env : state) (cs : list call) :
  monotone (clock env) ->
  let stamps := recorded_during cs (init key model env) in
  length (sent (run_calls cs (init key model env)))
  = (length (sent env) + length stamps)%nat
  /\ StronglySorted Qle stamps
  /\ spaced 50 60 stamps.
Proof.
  intros Hmono stamps. split; [apply sent_recorded|].
  pose proof (paced_run (init key model env) Hmono cs (init key model env) []
                (paced_start (init key model env) eq_refl))
    as (_ & Hs & _ & _ & Hsp).
  cbn [app] in Hs, Hsp. split; [exact Hs|exact Hsp].
Qed.

Lemma second_clock_monotone : monotone second_clock.
Proof.
  intros i j H. unfold second_clock. rewrite <- Zle_Qle. lia.
Qed.

Lemma upstream_pace_witness :
  recorded_during (repeat hello 51) slow_service !! 0%nat = Some 1%Q
  /\ recorded_during (repeat hello 51) slow_service !! 50%nat = Some 251%Q
  /\ (1 + inject_Z 60 <= 251)%Q.
Proof.
  assert (H0 : recorded_during (repeat hello 51) slow_service !! 0%nat = Some 1%Q)
    by (vm_compute; reflexivity).
  assert (H50 : recorded_during (repeat hello 51) slow_service !! 50%nat = Some 251%Q)
    by (vm_compute; reflexivity).
  split; [exact H0|]. split; [exact H50|].
  destruct (upstream_pace "sk-test" "gpt-3.5-turbo"
              (fresh_process second_clock steady_client) (repeat hello 51)
              second_clock_monotone) as (_ & _ & Hsp).
  exact (Hsp 0%nat 1%Q 251%Q H0 H50).
Defined.

End PaceFacts.

(** ** Validation and the shape of a request *)

Module RequestFacts.
Import ZyeonAIService Trace Shape ZyeonAIServiceFacts.

Lemma undecorated_stopped ui h ct te mt s e :
  get_ai_response_try ui h ct te mt s = (Raise e, after_check s) ->
  run_call (Call ui h ct te mt) s
  = (Return (Some (degraded_response e)),
     with_logged (logged s ++ [LogServiceError e]) (after_check s)).
Proof.
  intros H. unfold run_call. cbn [user_input conversation_history context_type
    temperature max_tokens].
  apply get_ai_response_first_attempt.
  unfold get_ai_response_undecorated, try_except. now rewrite H.
Qed.

(** X3: a call whose input is empty or all white space, or made on a
    service without API key, never reaches the upstream and records no
    call: once past the admission check it is answered with the generic
    apology and empty metadata (the "invalid" category is not the one a
    blank input falls in), having only pruned the limiter log. *)
Theorem invalid_call_stops_early (c : call) (s : state) :
  passes s = true ->
  blank (user_input c) = true \/ api_key s = "" ->
  let s' := snd (run_call c s) in
  fst (run_call c s) = Return (Some (generic_apology, ∅))
  /\ sent s' = sent s
  /\ slept s' = slept s
  /\ RateLimiter.calls (rate_limiter s')
     = List.filter (RateLimiter.fresh (RateLimiter.time_window (rate_limiter s))
                                      (clock s (ticks s)))
                   (RateLimiter.calls (rate_limiter s))
  /\ exists e, logged s' = logged s ++ [LogServiceError (ValueError e)].
Proof.
  intros Hp Hbad. destruct c as [ui h ct te mt]. cbn [user_input] in Hbad. cbn zeta.
  destruct (blank ui) eqn:Hb.
  - rewrite (undecorated_stopped ui h ct te mt s _ (try_blank ui h ct te mt s Hp Hb)).
    cbn [fst snd]. repeat split. eexists. reflexivity.
  - destruct Hbad as [Hbad|Hkey]; [discriminate|].
    assert (Hk : Py.truthy (api_key s) = false) by now rewrite Hkey.
    rewrite (undecorated_stopped ui h ct te mt s _
               (try_no_key ui h ct te mt s Hp Hb Hk)).
    cbn [fst snd]. repeat split. eexists. reflexivity.
Qed.

Lemma invalid_call_stops_early_witness :
  fst (run_call (Call "  " None "default" (7 # 10) None) steady_service)
  = Return (Some (generic_apology, ∅))
  /\ sent (snd (run_call (Call "  " None "default" (7 # 10) None) steady_service)) = [].
Proof.
  destruct (invalid_call_stops_early (Call "  " None "default" (7 # 10) None)
              steady_service) as (H1 & H2 & _).
  - reflexivity.
  - left. reflexivity.
  - split; [exact H1|exact H2].
Defined.

(** *** [strip] *)

Lemma lstrip_first s c :
  first_char (Py.lstrip s) = Some c -> Py.is_space c = false.
Proof.
  induction s as [|a s IH]; cbn; [discriminate|].
  destruct (Py.is_space a) eqn:E; [exact IH|].
  cbn. intros [= <-]. exact E.
Qed.

Lemma rstrip_last s c :
  last_char (Py.rstrip s) = Some c -> Py.is_space c = false.
Proof.
  revert c. induction s as [|a s IH]; intros c; cbn; [discriminate|].
  destruct (Py.rstrip s) as [|b r] eqn:E.
  - destruct (Py.is_space a) eqn:Ea; cbn; [discriminate|].
    intros [= <-]. exact Ea.
  - cbn. intros H. apply IH. exact H.
Qed.

Lemma rstrip_first s c :
  first_char (Py.rstrip s) = Some c -> first_char s = Some c.
Proof.
  destruct s as [|a s]; cbn; [discriminate|].
  destruct (Py.rstrip s); [destruct (Py.is_space a)|]; cbn; congruence.
Qed.

Lemma strip_trimmed s : trimmed (Py.strip s).
Proof.
  unfold trimmed, Py.strip. split; intros c H.
  - apply rstrip_first in H. eapply lstrip_first, H.
  - eapply rstrip_last, H.
Qed.

Lemma lstrip_clean s :
  (forall c, first_char s = Some c -> Py.is_space c = false) -> Py.lstrip s = s.
Proof.
  destruct s as [|a s]; cbn; [reflexivity|]. intros H. now rewrite (H a eq_refl).
Qed.

Lemma rstrip_clean s :
  (forall c, last_char s = Some c -> Py.is_space c = false) -> Py.rstrip s = s.
Proof.
  induction s as [|a s IH]; cbn; [reflexivity|]. intros H.
  destruct s as [|b s].
  - cbn. now rewrite (H a eq_refl).
  - rewrite IH by exact H. reflexivity.
Qed.

(** Stripping twice is stripping once. *)
Lemma strip_idempotent s : Py.strip (Py.strip s) = Py.strip s.
Proof.
  destruct (strip_trimmed s) as [H1 H2]. unfold Py.strip at 1.
  rewrite (lstrip_clean _ H1). now apply rstrip_clean.
Qed.

(** *** Requests *)

Lemma initial_prompt_lookup ct :
  default default_prompt (initial_system_prompts !! ct)
  = if String.eqb ct "voice" then voice_prompt
    else if String.eqb ct "technical" then technical_prompt
    else default_prompt.
Proof.
  unfold initial_system_prompts.
  destruct (String.eqb_spec ct "voice") as [->|Hv]; [reflexivity|].
  destruct (String.eqb_spec ct "technical") as [->|Ht]; [reflexivity|].
  destruct (String.eqb_spec ct "default") as [->|Hd]; [reflexivity|].
  now rewrite !lookup_insert_ne, lookup_empty by congruence.
Qed.

Lemma length_turn_messages l :
  (length (flat_map turn_messages l) <= 2 * length l)%nat.
Proof.
  induction l as [|m l IH]; cbn; [lia|]. rewrite length_app.
  unfold turn_messages at 1.
  destruct (m !! "user_message"), (m !! "ai_response"); cbn; lia.
Qed.

Lemma length_slice_last {A} n (l : list A) :
  0 < n -> (length (Py.slice_last n l) <= Nat.min (Z.to_nat n) (length l))%nat.
Proof.
  intros H. unfold Py.slice_last. apply Z.ltb_lt in H. rewrite H.
  rewrite length_skipn. lia.
Qed.

(** X4: every request [get_ai_response] sends, from a service built by
    [__init__] that has served any calls before, has this shape: the
    model of the service, the penalties at 0.1, the caller's temperature,
    [max_tokens] or else 1000; first the system prompt, which is the
    voice or technical template for those context types and the default
    template for every other one (such as "realtime"); then at most
    twenty turns of history, two entries each; last the user input,
    stripped, not empty, with no white space left at either end. *)
Theorem request_shape (key model : string) (env : state)
    (before : list call) (c : call) (r : request) :
  let s := run_calls before (init key model env) in
  sent (snd (run_call c s)) = sent s ++ [r] ->
  req_model r = model
  /\ req_temperature r = temperature c
  /\ req_max_tokens r = default 1000 (max_tokens c)
  /\ req_presence_penalty r = (1 # 10)%Q /\ req_frequency_penalty r = (1 # 10)%Q
  /\ exists body,
       req_messages r
       = Message "system"
           (VStr (if String.eqb (context_type c) "voice" then voice_prompt
                  else if String.eqb (context_type c) "technical"
                       then technical_prompt
                       else default_prompt))
         :: body ++ [Message "user" (VStr (Py.strip (user_input c)))]
       /\ body = flat_map turn_messages
                   (Py.slice_last 20 (default [] (conversation_history c)))
       /\ (length body
           <= 2 * Nat.min 20 (length (default [] (conversation_history c))))%nat
       /\ Py.strip (user_input c) <> ""
       /\ trimmed (Py.strip (user_input c)).
Proof.
  intros s Hsent.
  pose proof (PaceFacts.same_service_run before (init key model env))
    as (Hkey & Hmodel & Hsp & Hcap & Hmt & _). fold s in Hkey, Hmodel, Hsp, Hcap, Hmt.
  cbn in Hkey, Hmodel, Hsp, Hcap, Hmt.
  destruct c as [ui h ct te mt]. cbn [user_input conversation_history context_type
    temperature max_tokens] in *.
  assert (Hgrow : sent (snd (run_call (Call ui h ct te mt) s)) <> sent s).
  { rewrite Hsent. intros E. apply (f_equal (@length _)) in E.
    rewrite length_app in E. cbn in E. lia. }
  destruct (passes s) eqn:Hp.
  2:{ exfalso. apply Hgrow. now rewrite (rejected_call _ s Hp). }
  destruct (blank ui) eqn:Hb.
  { exfalso. apply Hgrow.
    now rewrite (undecorated_stopped ui h ct te mt s _ (try_blank ui h ct te mt s Hp Hb)). }
  destruct (Py.truthy (api_key s)) eqn:Hk.
  2:{ exfalso. apply Hgrow.
      now rewrite (undecorated_stopped ui h ct te mt s _
                     (try_no_key ui h ct te mt s Hp Hb Hk)). }
  assert (Hprompt : prompt_for s ui h ct
            = Return (Message "system"
                        (VStr (default default_prompt (initial_system_prompts !! ct)))
                      :: flat_map turn_messages (Py.slice_last 20 (default [] h))
                      ++ [Message "user" (VStr (Py.strip ui))])).
  { unfold prompt_for, _prepare_conversation_context, _get_system_prompt.
    rewrite Hsp, Hcap. reflexivity. }
  destruct (undecorated_valid ui h ct te mt s _ Hp Hb Hk Hprompt)
    as (res & s' & Heq & Hs' & _).
  unfold run_call in Hsent. cbn [user_input conversation_history context_type
    temperature max_tokens] in Hsent.
  rewrite (get_ai_response_first_attempt _ _ _ _ _ _ _ _ Heq) in Hsent.
  cbn [snd] in Hsent. rewrite Hs' in Hsent. apply app_inv_head in Hsent.
  injection Hsent as <-. unfold request_of.
  cbn [req_model req_temperature req_max_tokens req_presence_penalty
       req_frequency_penalty req_messages]. rewrite Hmodel, Hmt.
  repeat (split; [reflexivity|]).
  eexists. split; [rewrite <- initial_prompt_lookup; reflexivity|].
  split; [reflexivity|]. split; [|split].
  - etransitivity; [apply length_turn_messages|].
    pose proof (length_slice_last 20 (default [] h) ltac:(lia)). lia.
  - unfold blank in Hb. apply orb_false_iff in Hb as [_ Hb].
    intros E. rewrite E in Hb. discriminate.
  - apply strip_trimmed.
Qed.

Lemma request_shape_witness :
  exists r,
    sent (snd (run_call (Call "  hi " None "realtime" (7 # 10) None) steady_service)) = [r]
    /\ req_messages r
       = [Message "system" (VStr default_prompt); Message "user" (VStr "hi")]
    /\ req_max_tokens r = 1000.
Proof.
  assert (H : exists r,
    sent (snd (run_call (Call "  hi " None "realtime" (7 # 10) None) steady_service))
    = [r]) by (eexists; vm_compute; reflexivity).
  destruct H as [r Hr]. exists r. split; [exact Hr|].
  destruct (request_shape "sk-test" "gpt-3.5-turbo"
              (fresh_process tenth_clock steady_client) []
              (Call "  hi " None "realtime" (7 # 10) None) r Hr)
    as (_ & _ & Hmt & _ & _ & body & Hm & -> & _).
  split; [exact Hm|exact Hmt].
Defined.

End RequestFacts.

(** ** The retry decorator in general, and the health probe *)

Module RetryFacts.
Import ZyeonAIService Trace.





End RetryFacts.

Module HealthCheckFacts.
Import ZyeonAIService HealthCheck.

Lemma health_check_cases (s : state) :
  let svc := service s in
  let svc' := with_ticks (S (ticks svc)) (with_sent (sent svc ++ [probe svc]) svc) in
  match client svc (length (sent svc)) (probe svc) with
  | Return _ =>
      exists report,
        health_check s = (Return report, State svc' (logged s))
        /\ report !! "status" = Some (VStr "healthy")
        /\ report !! "api_accessible" = Some (VBool true)
        /\ report !! "rate_limit_remaining" = Some (VInt (rate_limit_remaining svc))
        /\ report !! "error" = None
  | Raise e =>
      exists report,
        health_check s
        = (Return report, State svc' (logged s ++ [LogHealthCheckFailed e]))
        /\ report !! "status" = Some (VStr "unhealthy")
        /\ report !! "api_accessible" = Some (VBool false)
        /\ report !! "rate_limit_remaining" = None
        /\ report !! "error" = Some (VStr (str_of_exn e))
  end.
Proof.
  cbn zeta. unfold health_check, try_except, on_service, log, bind, get, ret, modify,
    chat_completions_create, time_time.
  cbn [service logged fst snd].
  destruct (client (service s) (length (sent (service s))) (probe (service s)))
    as [resp|e]; cbn [service logged fst snd sent ticks clock with_sent with_ticks
                      rate_limiter model].
  - eexists. split; [reflexivity|]. repeat split.
  - eexists. split; [reflexivity|]. repeat split.
Qed.

Lemma calls_in_window_le w now l :
  (Scenario.calls_in_window w now l <= length l)%nat.
Proof.
  induction l as [|c l IH]; cbn; [lia|].
  destruct (Qlt_le_dec (now - c) (inject_Z w)); lia.
Qed.

(** X6: [health_check] never raises and goes round the rate limiter: it
    sends exactly one probe, neither checks nor records, and does not
    sleep.  It reports healthy exactly when the probe was answered, and
    then the budget it reports is the ceiling minus the length of the
    log as it stands, expired stamps included: never more than the
    budget the next admission check will find.  For a service built by
    [__init__] that served any calls, the reported budget lies between
    0 and 50. *)
Theorem health_check_report (s : state) :
  exists report s',
    health_check s = (Return report, s')
    /\ rate_limiter (service s') = rate_limiter (service s)
    /\ sent (service s') = sent (service s) ++ [probe (service s)]
    /\ slept (service s') = slept (service s)
    /\ (report !! "status" = Some (VStr "healthy")
        <-> exists resp, client (service s) (length (sent (service s)))
                                (probe (service s)) = Return resp)
    /\ (report !! "status" = Some (VStr "healthy") ->
        report !! "rate_limit_remaining"
        = Some (VInt (rate_limit_remaining (service s)))
        /\ forall now,
             rate_limit_remaining (service s)
             <= RateLimiter.max_calls (rate_limiter (service s))
                - Z.of_nat (Scenario.calls_in_window
                              (RateLimiter.time_window (rate_limiter (service s)))
                              now
                              (RateLimiter.calls (rate_limiter (service s)))))
    /\ (forall key model env cs,
          service s = Trace.run_calls cs (init key model env) ->
          0 <= rate_limit_remaining (service s) <= 50).
Proof.
  pose proof (health_check_cases s) as H. cbn zeta in H.
  destruct (client (service s) (length (sent (service s))) (probe (service s)))
    as [resp|e] eqn:Hc; destruct H as (report & Hrun & Hst & Hapi & Hrem & Herr);
    exists report; eexists; (split; [exact Hrun|]); cbn [service];
    (split; [reflexivity|]); (split; [reflexivity|]); (split; [reflexivity|]).
  - split; [split; eauto|]. split.
    + intros _. split; [exact Hrem|]. intros now. unfold rate_limit_remaining.
      pose proof (calls_in_window_le
                    (RateLimiter.time_window (rate_limiter (service s))) now
                    (RateLimiter.calls (rate_limiter (service s)))). lia.
    + intros key model env cs Hsvc. unfold rate_limit_remaining. rewrite Hsvc.
      destruct (PaceFacts.limiter_log_bounded key model env cs) as (-> & _ & Hlen).
      lia.
  - split; [split; [congruence|intros [resp Hr]; congruence]|]. split.
    + intros Hh. congruence.
    + intros key model env cs Hsvc. unfold rate_limit_remaining. rewrite Hsvc.
      destruct (PaceFacts.limiter_log_bounded key model env cs) as (-> & _ & Hlen).
      lia.
Qed.

(** After fifty calls and a minute without any, the next call would be
    let through, yet the probe still reports no budget left. *)
Lemma health_check_report_witness :
  Trace.passes (idle_after (repeat Trace.hello 50) Trace.steady_service) = true
  /\ exists report s',
       health_check
         (State (idle_after (repeat Trace.hello 50) Trace.steady_service) [])
       = (Return report, s')
       /\ report !! "rate_limit_remaining" = Some (VInt 0).
Proof.
  split; [vm_compute; reflexivity|].
  destruct (health_check_report
              (State (idle_after (repeat Trace.hello 50) Trace.steady_service) []))
    as (report & s' & Hrun & _ & _ & _ & Hiff & Hrem & _).
  exists report, s'. split; [exact Hrun|].
  destruct Hrem as [-> _]; [apply Hiff; eexists; vm_compute; reflexivity|].
  vm_compute. reflexivity.
Defined.

End HealthCheckFacts.

(** ** Retention and pages *)

Module HousekeepingFacts.
Import ConversationModel Store Housekeeping ConversationModelFacts.

Lemma cutoff_date_inr now days cutoff :
  cutoff_date now days = inr cutoff
  <-> Z.abs days <= 999999999
      /\ cutoff = (now - inject_Z (days * 86400))%Q
      /\ (datetime_min <= cutoff < datetime_end)%Q.
Proof.
  unfold cutoff_date. destruct (Z.ltb_spec 999999999 (Z.abs days)) as [Hb|Hb].
  - split; [discriminate|]. intros (H & _). lia.
  - set (c := (now - inject_Z (days * 86400))%Q).
    destruct (Qltb c datetime_min) eqn:E1; cbn.
    + split; [discriminate|]. intros (_ & -> & H & _).
      apply Qltb_lt in E1. lra.
    + destruct (Qltb c datetime_end) eqn:E2; cbn.
      * apply Qltb_ge in E1. apply Qltb_lt in E2. split.
        -- intros [= <-]. auto.
        -- intros (_ & -> & _). reflexivity.
      * split; [discriminate|]. intros (_ & -> & _ & H).
        apply Qltb_ge in E2. lra.
Qed.

Lemma older_than_spec cutoff d :
  older_than cutoff d = true
  <-> exists t, d !! "timestamp" = Some (VDate t) /\ (t < cutoff)%Q.
Proof.
  unfold older_than. destruct (d !! "timestamp") as [[| | | | |t| | |]|];
    try (split; [discriminate|intros (t' & [=] & _)]).
  rewrite Qltb_lt. split; [eauto|]. now intros (t' & [= <-] & H).
Qed.

Lemma bson_date_bounds t :
  (bson_date t <= t)%Q /\ (t < bson_date t + (1 # 1000))%Q.
Proof.
  unfold bson_date. set (x := (t * 1000)%Q). set (f := Qnum x / QDen x).
  assert (E : (Qmake f 1000 == inject_Z f * (1 # 1000))%Q).
  { unfold Qeq, inject_Z, Qmult. cbn. lia. }
  assert (H1 : (inject_Z f <= x)%Q).
  { unfold Qle, inject_Z. cbn [Qnum Qden].
    pose proof (Z.mul_div_le (Qnum x) (QDen x) eq_refl). fold f in H. lia. }
  assert (H2 : (x < inject_Z f + 1)%Q).
  { change 1%Q with (inject_Z 1). rewrite <- inject_Z_plus.
    unfold Qlt, inject_Z. cbn [Qnum Qden].
    pose proof (Z.mul_succ_div_gt (Qnum x) (QDen x) eq_refl). fold f in H. lia. }
  rewrite E. unfold x in H1, H2. split; lra.
Qed.

(** X7: [cleanup_old_conversations(days)] never raises and touches only
    the conversations.  When [now - days] is a valid date and the server
    answers, it removes exactly the turns whose timestamp is a date
    strictly before the cutoff, taken to the millisecond below; it keeps
    all the others in their order and returns the number removed.  When
    the date arithmetic overflows or the server is away it returns 0 and
    removes nothing. *)
Theorem cleanup_removes_older (days : Z) (s : state) :
  let now := clock (store s) (ticks (store s)) in
  let n := fst (cleanup_old_conversations days s) in
  let s' := store (snd (cleanup_old_conversations days s)) in
  sessions s' = sessions (store s) /\ users s' = users (store s)
  /\ (forall cutoff,
        cutoff_date now days = inr cutoff -> online (store s) = true ->
        (cutoff == now - inject_Z (days * 86400))%Q
        /\ (bson_date cutoff <= cutoff < bson_date cutoff + (1 # 1000))%Q
        /\ conversations s'
           = List.filter (fun d => negb (older_than (bson_date cutoff) d))
                         (conversations (store s))
        /\ (forall d, In d (conversations s')
                      <-> In d (conversations (store s))
                          /\ ~ exists t, d !! "timestamp" = Some (VDate t)
                                         /\ (t < bson_date cutoff)%Q)
        /\ (n + length (conversations s') = length (conversations (store s)))%nat)
  /\ ((forall cutoff, cutoff_date now days <> inr cutoff) \/ online (store s) = false ->
      n = 0%nat /\ conversations s' = conversations (store s)).
Proof.
  cbn zeta. unfold cleanup_old_conversations.
  destruct (cutoff_date (clock (store s) (ticks (store s))) days) as [f|cutoff] eqn:Hc;
    cbn [online with_ticks].
  - cbn. split; [reflexivity|]. split; [reflexivity|]. split; [discriminate|].
    intros _. split; reflexivity.
  - destruct (online (store s)) eqn:Hon; cbn.
    + split; [reflexivity|]. split; [reflexivity|]. split.
      * intros c [= <-] _.
        split; [apply cutoff_date_inr in Hc as (_ & -> & _); reflexivity|].
        split; [apply bson_date_bounds|].
        split; [reflexivity|]. split.
        -- intros d. rewrite filter_In, negb_true_iff, <- older_than_spec.
           destruct (older_than (bson_date cutoff) d); intuition congruence.
        -- pose proof (List.filter_length_le
                         (fun d => negb (older_than (bson_date cutoff) d))
                         (conversations (store s))). lia.
      * intros [H|H]; [exfalso; eapply H; reflexivity|discriminate].
    + split; [reflexivity|]. split; [reflexivity|]. split; [discriminate|].
      intros _. split; reflexivity.
Qed.

Lemma cleanup_removes_older_witness :
  fst (cleanup_old_conversations 30 (State aged_store [])) = 1%nat
  /\ length (conversations
               (store (snd (cleanup_old_conversations 30 (State aged_store [])))))
     = 1%nat.
Proof.
  destruct (cleanup_removes_older 30 (State aged_store [])) as (_ & _ & H & _).
  destruct (H (inject_Z 3000000 - inject_Z (30 * 86400))%Q) as (_ & _ & _ & _ & Hn).
  - reflexivity.
  - reflexivity.
  - assert (Hlen : length (conversations
               (store (snd (cleanup_old_conversations 30 (State aged_store [])))))
            = 1%nat) by (vm_compute; reflexivity).
    split; [|exact Hlen]. rewrite Hlen in Hn.
    change (length (conversations (store (State aged_store [])))) with 2%nat in Hn.
    lia.
Defined.

(** *** Stores written through the model *)

Lemma dated_with_id oid d : dated d -> dated (<["_id" := VOid oid]> d).
Proof.
  intros (t & c & u & H1 & H2 & H3). exists t, c, u.
  now rewrite !lookup_insert_ne by discriminate.
Qed.

Lemma dated_without_id d : dated d -> dated (delete "_id" d).
Proof.
  intros (t & c & u & H1 & H2 & H3). exists t, c, u.
  now rewrite !lookup_delete_ne by discriminate.
Qed.

Lemma create_conversation_conversations um ar u cid sid mt md s :
  exists d,
    dated d
    /\ d !! "user_message" = Some (VStr um)
    /\ d !! "ai_response" = Some (VStr ar)
    /\ d !! "user_id" = Some (VStr u)
    /\ d !! "message_type" = Some (VStr mt)
    /\ d !! "conversation_id"
       = Some (VStr (default (generated_conversation_id (clock s (ticks s)))
                             (truthy_str cid)))
    /\ d !! "_id" = Some (VOid (next_oid s))
    /\ conversations (snd (create_conversation um ar u cid sid mt md s))
       = if online s then conversations s ++ [d] else conversations s.
Proof.
  unfold_store. destruct (truthy_str cid) as [c|]; cbn;
    (eexists; split; [|split; [|split; [|split; [|split; [|split; [|split]]]]]];
     cycle 7;
     [destruct (online s); reflexivity|..]);
    try (rewrite ?lookup_insert_eq; rewrite ?lookup_insert_ne by discriminate;
         rewrite ?lookup_insert_eq; rewrite ?lookup_insert_ne by discriminate;
         rewrite ?lookup_insert_eq; rewrite ?lookup_insert_ne by discriminate;
         rewrite ?lookup_insert_eq; rewrite ?lookup_insert_ne by discriminate;
         rewrite ?lookup_insert_eq; rewrite ?lookup_insert_ne by discriminate;
         rewrite ?lookup_insert_eq; reflexivity).
  all: apply dated_with_id; eexists _, _, _;
    rewrite !lookup_insert_ne by discriminate; rewrite lookup_insert_eq;
    split; [reflexivity|];
    rewrite !lookup_insert_ne by discriminate; rewrite lookup_insert_eq;
    split; [reflexivity|];
    rewrite !lookup_insert_ne by discriminate; rewrite lookup_insert_eq; reflexivity.
Qed.

Lemma end_session_conversations sid s :
  conversations (snd (end_session sid s)) = conversations s.
Proof. unfold_store. destruct (online s); reflexivity. Qed.

Lemma create_session_conversations u sid md s :
  conversations (snd (create_session u sid md s)) = conversations s.
Proof.
  unfold_store. destruct (online s); [|reflexivity]. cbn.
  destruct (existsb _ (sessions s)); reflexivity.
Qed.

Lemma dated_run_op o s :
  Forall dated (conversations s) -> Forall dated (conversations (run_op o s)).
Proof.
  intros H. destruct o as [u sid' md|sid'|um ar u cid sd mt md|u cid sd li off|b];
    cbn [run_op].
  - now rewrite create_session_conversations.
  - now rewrite end_session_conversations.
  - destruct (create_conversation_conversations um ar u cid sd mt md s)
      as (d & Hd & _ & _ & _ & _ & _ & _ & ->).
    destruct (online s); [|exact H]. apply Forall_app. split; [exact H|].
    repeat constructor. exact Hd.
  - destruct (get_conversation_history_frame u cid sd li off s) as (-> & _). exact H.
  - exact H.
Qed.

Lemma dated_run_ops ops : forall s,
  Forall dated (conversations s) -> Forall dated (conversations (run_ops ops s)).
Proof.
  induction ops as [|o ops IH]; intros s H; [exact H|].
  cbn [run_ops fold_left]. apply IH, dated_run_op, H.
Qed.

Lemma serialize_dated d : dated d -> serialize d = Return (serialized d).
Proof.
  intros (t & c & u & H1 & H2 & H3). unfold serialized.
  assert (exists d', serialize d = Return d') as [d' ->]; [|reflexivity].
  unfold serialize, isoformat_field. rewrite H1. cbn.
  rewrite lookup_insert_ne by discriminate. rewrite H2. cbn.
  rewrite !lookup_insert_ne by discriminate. rewrite H3. cbn. eauto.
Qed.

Lemma serialize_all_dated l :
  Forall dated l -> serialize_all l = Return (map serialized l).
Proof.
  induction 1 as [|d l Hd Hl IH]; cbn; [reflexivity|].
  now rewrite (serialize_dated d Hd), IH.
Qed.

Lemma length_insert_desc d l : length (insert_desc d l) = S (length l).
Proof.
  induction l as [|x l IH]; cbn; [reflexivity|].
  destruct (key_geb _ _); cbn; [reflexivity|]. now rewrite IH.
Qed.

Lemma length_sort_desc l : length (sort_desc l) = length l.
Proof.
  unfold sort_desc. induction l as [|d l IH]; cbn [fold_right length]; [reflexivity|].
  now rewrite length_insert_desc, IH.
Qed.

Lemma Forall_sort_desc (P : dict -> Prop) l : Forall P l -> Forall P (sort_desc l).
Proof.
  unfold sort_desc. induction 1 as [|d l Hd Hl IH]; cbn [fold_right]; [constructor|].
  now apply Forall_insert_desc.
Qed.

(** The turns the read selects, in the order it returns them. *)
Lemma found_dated u c sid s :
  Forall dated (conversations s) ->
  Forall dated (sort_desc (map (delete "_id") (matching u c sid s))).
Proof.
  intros H. apply Forall_sort_desc. apply Forall_map. unfold matching.
  eapply Forall_impl.
  - apply List.Forall_forall. intros d Hd. apply filter_In in Hd as [Hd _].
    rewrite List.Forall_forall in H. exact (H d Hd).
  - cbn. intros d Hd. now apply dated_without_id.
Qed.

Lemma history_dated u c sid limit offset s :
  Forall dated (conversations s) -> online s = true -> 0 <= offset ->
  history u c sid limit offset s
  = map serialized
        (cursor_limit limit
           (skipn (Z.to_nat offset)
              (sort_desc (map (delete "_id") (matching u c sid s))))).
Proof.
  intros Hd Hon Hoff. unfold history.
  rewrite get_conversation_history_result.
  destruct (Z.ltb_spec offset 0); [lia|]. rewrite Hon.
  rewrite serialize_all_dated; [reflexivity|].
  unfold cursor_limit. destruct (limit =? 0).
  - apply Forall_drop. now apply found_dated.
  - apply Forall_take, Forall_drop. now apply found_dated.
Qed.

(** X8: in a store written through the model (sessions, turns, reads, a
    server that comes and goes), every stored turn carries its three
    dates, so the read never falls back to the empty list on a turn it
    cannot serialise: with the server up and a valid offset, a positive
    limit returns exactly [min(limit, matches - offset)] turns. *)
Theorem history_of_written_store (ops : list op) (b : bool)
    (u c sid : option string) (limit offset : Z) :
  let s := run_ops ops (empty_store b) in
  online s = true -> 0 <= offset -> 0 < limit ->
  fst (get_conversation_history u c sid limit offset s)
  = Return (map serialized (page u c sid limit offset s))
  /\ length (history u c sid limit offset s)
     = Nat.min (Z.to_nat limit)
               (length (matching u c sid s) - Z.to_nat offset).
Proof.
  intros s Hon Hoff Hlim.
  assert (Hd : Forall dated (conversations s)).
  { apply dated_run_ops. constructor. }
  pose proof (history_dated u c sid limit offset s Hd Hon Hoff) as Hh.
  rewrite cursor_limit_positive in Hh by assumption. split.
  - rewrite get_conversation_history_result.
    destruct (Z.ltb_spec offset 0); [lia|]. rewrite Hon.
    rewrite cursor_limit_positive by assumption.
    rewrite serialize_all_dated; [reflexivity|].
    apply Forall_take, Forall_drop. now apply found_dated.
  - rewrite Hh, length_map, length_firstn, length_skipn, length_sort_desc, length_map.
    reflexivity.
Qed.

Lemma history_of_written_store_witness :
  length (history (Some "user_1") None None 2 2 three_turns) = 1%nat.
Proof.
  destruct (history_of_written_store
              [OpCreateConversation "first" "one" "user_1" (Some "thread") None "text" None;
               OpCreateConversation "second" "two" "user_1" (Some "thread") None "text" None;
               OpCreateConversation "third" "three" "user_1" (Some "thread") None "text" None]
              true (Some "user_1") None None 2 2) as (_ & H);
    [reflexivity|lia|lia|].
  etransitivity; [exact H|]. vm_compute. reflexivity.
Defined.



End HousekeepingFacts.

(** ** Users, sessions and the way back from the store *)

Module UserFacts.
Import ConversationModel Store Housekeeping ConversationModelFacts.















(** *** The life of a session *)




End UserFacts.

(** ** Writing a turn and reading it back *)

Module RoundTripFacts.
Import ConversationModel Store Housekeeping.
Import ConversationModelFacts HousekeepingFacts.

(** What [create_conversation] does on a store that answers. *)
Lemma create_conversation_written um ar u cid sid mt md s :
  online s = true ->
  exists d,
    dated d
    /\ d !! "timestamp" = Some (VDate (written_at cid s))
    /\ d !! "user_message" = Some (VStr um)
    /\ d !! "ai_response" = Some (VStr ar)
    /\ d !! "user_id" = Some (VStr u)
    /\ d !! "message_type" = Some (VStr mt)
    /\ conversations (snd (create_conversation um ar u cid sid mt md s))
       = conversations s ++ [d]
    /\ online (snd (create_conversation um ar u cid sid mt md s)) = true.
Proof.
  intros Hon. unfold written_at. unfold_store.
  destruct (truthy_str cid) as [c|]; cbn; rewrite ?Hon; cbn; rewrite ?Hon;
    (eexists; split; [|split; [|split; [|split; [|split; [|split; [|split]]]]]];
     cycle 6; [reflexivity|reflexivity|..]);
    try (rewrite ?lookup_insert_eq; rewrite ?lookup_insert_ne by discriminate;
         rewrite ?lookup_insert_eq; rewrite ?lookup_insert_ne by discriminate;
         rewrite ?lookup_insert_eq; rewrite ?lookup_insert_ne by discriminate;
         rewrite ?lookup_insert_eq; rewrite ?lookup_insert_ne by discriminate;
         rewrite ?lookup_insert_eq; rewrite ?lookup_insert_ne by discriminate;
         rewrite ?lookup_insert_eq; reflexivity).
  all: apply dated_with_id; eexists _, _, _;
    rewrite !lookup_insert_ne by discriminate; rewrite lookup_insert_eq;
    split; [reflexivity|];
    rewrite !lookup_insert_ne by discriminate; rewrite lookup_insert_eq;
    split; [reflexivity|];
    rewrite !lookup_insert_ne by discriminate; rewrite lookup_insert_eq; reflexivity.
Qed.








End RoundTripFacts.

(** ** Starting to listen *)

Module ListeningFacts.
Import VoiceService Voice Listening.
Import VoiceServiceFacts.

(** X14: with both capture devices, [start_listening] never raises and
    its result is the listening flag it leaves behind.  It answers true
    when the service was listening already, and then starts no second
    thread and calls nothing; otherwise it answers true exactly when
    neither [Thread.start] nor the [on_listening_started] callback
    raises.  When only the callback raises, the method answers false with
    the flag down, but the listener thread it started stays registered. *)
Theorem start_listening_with_device (s : state) :
  capture_device s ->
  let s' := snd (start_listening s) in
  exists b,
    fst (start_listening s) = Return b
    /\ is_listening s' = b
    /\ (b = true <-> is_listening s = true \/ starts_cleanly s)
    /\ (is_listening s = true ->
        voice_thread s' = voice_thread s /\ called s' = called s)
    /\ (is_listening s = false -> thread_start s = Return tt ->
        voice_thread s' = Some (Thread true (Return tt))).
Proof.
  intros [Hr Hm]. cbn zeta. unfold starts_cleanly. unfold_voice.
  rewrite Hr, Hm. cbn [negb orb].
  destruct (is_listening s) eqn:Hl; cbn.
  - exists true. rewrite Hl. intuition congruence.
  - destruct (thread_start s) as [[]|e]; cbn.
    + destruct (on_listening_started s) as [[[]|e]|]; cbn;
        eexists; (split; [reflexivity|]); intuition congruence.
    + exists false. intuition congruence.
Qed.

Lemma start_listening_with_device_witness :
  fst (start_listening unannounced_service) = Return false
  /\ voice_thread (snd (start_listening unannounced_service))
     = Some (Thread true (Return tt)).
Proof.
  destruct (start_listening_with_device unannounced_service)
    as (b & Hb & _ & Hiff & _ & Hthread); [split; reflexivity|].
  split; [|apply Hthread; reflexivity].
  rewrite Hb. destruct b; [|reflexivity].
  destruct Hiff as [Hiff _]. destruct (Hiff eq_refl) as [H|[_ H]]; discriminate H.
Defined.

End ListeningFacts.

(** ** Text handed to the speech engine *)

Module SpeechFacts.
Import Speech Shape.
Import RequestFacts.

Local Abbreviation slen := String.length.
Local Arguments String.append !_ _ : simpl nomatch.

Lemma append_empty s : String.append s EmptyString = s.
Proof.
  induction s as [|c s IH]; [reflexivity|].
  change (String c (String.append s EmptyString) = String c s). now f_equal.
Qed.

Lemma sub_from_empty n pattern : sub_from n pattern EmptyString = EmptyString.
Proof. destruct n; reflexivity. Qed.

(** *** The scan takes enough steps *)

Lemma drop_prefix_length p : forall s r,
  drop_prefix p s = Some r -> slen s = (slen p + slen r)%nat.
Proof.
  induction p as [|a p IH]; intros s r; cbn.
  - now intros [= ->].
  - destruct s as [|b s]; [discriminate|].
    destruct (Ascii.eqb a b); [|discriminate].
    intros H. cbn. now rewrite (IH _ _ H).
Qed.

Lemma span_length keep s :
  (slen (fst (span keep s)) + slen (snd (span keep s)))%nat = slen s.
Proof.
  induction s as [|c s IH]; cbn; [reflexivity|].
  destruct (keep c); [|reflexivity].
  destruct (span keep s) as [run rest]. cbn in *. lia.
Qed.

Lemma truthy_length s : Py.truthy s = true -> (0 < slen s)%nat.
Proof. destruct s; cbn; [discriminate|lia]. Qed.

Lemma delimited_consumes opener stop closer : consumes (delimited opener stop closer).
Proof.
  intros s repl rest. unfold delimited.
  destruct (drop_prefix opener s) as [r|] eqn:E1; [|discriminate].
  pose proof (span_length (other_than stop) r) as Hs.
  destruct (span (other_than stop) r) as [group r1]. cbn [fst snd] in Hs.
  destruct (Py.truthy group) eqn:Eg; [|discriminate].
  destruct (drop_prefix closer r1) as [rest'|] eqn:E2; [|discriminate].
  intros [= <- <-].
  apply drop_prefix_length in E1, E2. apply truthy_length in Eg. lia.
Qed.

Lemma link_consumes : consumes link.
Proof.
  intros s repl rest. unfold link.
  destruct (delimited "[" "]" "](" s) as [[text r]|] eqn:E1; [|discriminate].
  destruct (delimited "" ")" ")" r) as [[g rest']|] eqn:E2; [|discriminate].
  intros [= <- <-].
  apply delimited_consumes in E1, E2. lia.
Qed.

Lemma unspoken_char_consumes : consumes unspoken_char.
Proof.
  intros [|c r] repl rest; unfold unspoken_char; [discriminate|].
  destruct (unspoken c); [|discriminate]. intros [= <- <-]. cbn. lia.
Qed.

Lemma whitespace_consumes : consumes whitespace.
Proof.
  intros s repl rest. unfold whitespace.
  pose proof (span_length Py.is_space s) as Hs.
  destruct (span Py.is_space s) as [run r]. cbn [fst snd] in Hs.
  destruct (Py.truthy run) eqn:E; [|discriminate].
  intros [= <- <-]. apply truthy_length in E. lia.
Qed.

(** A scan over a pattern that matches no empty string is through after
    as many steps as the text has characters: more steps change nothing. *)
Lemma sub_from_enough pattern :
  consumes pattern ->
  forall n k s, (slen s <= n)%nat -> (slen s <= k)%nat ->
    sub_from n pattern s = sub_from k pattern s.
Proof.
  intros Hc. induction n as [|n IH]; intros k s Hn Hk.
  - destruct s; cbn in Hn; [|lia]. now rewrite !sub_from_empty.
  - destruct k as [|k].
    + destruct s; cbn in Hk; [|lia]. now rewrite !sub_from_empty.
    + destruct s as [|c r]; [reflexivity|]. cbn [sub_from]. cbn in Hn, Hk.
      destruct (pattern (String c r)) as [[repl rest]|] eqn:E.
      * apply Hc in E. cbn in E. f_equal. apply IH; lia.
      * f_equal. apply IH; lia.
Qed.

(** *** What the last two substitutions and the strip leave *)

Lemma all_chars_append p a b :
  all_chars p (String.append a b) = all_chars p a && all_chars p b.
Proof.
  induction a as [|c a IH]; cbn; [reflexivity|]. now rewrite IH, andb_assoc.
Qed.

Lemma all_chars_impl (p q : ascii -> bool) s :
  (forall c, p c = true -> q c = true) ->
  all_chars p s = true -> all_chars q s = true.
Proof.
  intros H. induction s as [|c s IH]; cbn; [reflexivity|].
  intros [Hc Hs]%andb_true_iff. now rewrite (H c Hc), IH.
Qed.

Lemma sub_unspoken_char n : forall s,
  (slen s <= n)%nat ->
  all_chars (fun c => negb (unspoken c)) (sub_from n unspoken_char s) = true.
Proof.
  induction n as [|n IH]; intros s Hn.
  - destruct s; cbn in Hn; [reflexivity|lia].
  - destruct s as [|c r]; [reflexivity|]. cbn in Hn. cbn [sub_from unspoken_char].
    destruct (unspoken c) eqn:E; cbn [String.append all_chars].
    + rewrite IH by lia. reflexivity.
    + rewrite E, IH by lia. reflexivity.
Qed.

Lemma span_rest_all keep p s :
  all_chars p s = true -> all_chars p (snd (span keep s)) = true.
Proof.
  induction s as [|c s IH]; cbn; [reflexivity|].
  intros H. destruct (keep c); [|exact H].
  apply andb_true_iff in H as [_ H].
  destruct (span keep s) as [run rest]. cbn in *. now apply IH.
Qed.

Lemma span_rest_first keep s c :
  first_char (snd (span keep s)) = Some c -> keep c = false.
Proof.
  induction s as [|a s IH]; cbn; [discriminate|].
  destruct (keep a) eqn:E.
  - destruct (span keep s) as [run rest]. cbn in *. exact IH.
  - cbn. now intros [= <-].
Qed.

Lemma whitespace_white c r :
  Py.is_space c = true ->
  whitespace (String c r) = Some (" ", snd (span Py.is_space r)).
Proof.
  intros E. unfold whitespace. cbn [span]. rewrite E.
  destruct (span Py.is_space r) as [run rest]. reflexivity.
Qed.

Lemma whitespace_other c r :
  Py.is_space c = false -> whitespace (String c r) = None.
Proof. intros E. unfold whitespace. cbn [span]. now rewrite E. Qed.

Lemma sub_whitespace_chars p n : forall s,
  p " "%char = true -> all_chars p s = true -> (slen s <= n)%nat ->
  all_chars p (sub_from n whitespace s) = true.
Proof.
  intros s Hp. revert s. induction n as [|n IH]; intros s Hs Hn.
  - exact Hs.
  - destruct s as [|c r]; [reflexivity|]. cbn in Hn. cbn [sub_from].
    cbn in Hs. apply andb_true_iff in Hs as [Hc Hr].
    destruct (Py.is_space c) eqn:E.
    + rewrite (whitespace_white c r E). cbn [String.append all_chars].
      rewrite Hp. apply IH.
      * now apply span_rest_all.
      * pose proof (span_length Py.is_space r). lia.
    + rewrite (whitespace_other c r E). cbn. rewrite Hc. apply IH; [exact Hr|lia].
Qed.

Lemma squeezed_after_space c x :
  Py.is_space c = false -> squeezed (String c x) = true ->
  squeezed (String " " (String c x)) = true.
Proof.
  intros E H. cbn [squeezed] in H |- *. rewrite E in *.
  change (Py.is_space " ") with true. cbn [negb]. rewrite H. reflexivity.
Qed.

Lemma sub_whitespace_squeezed n : forall s,
  (slen s <= n)%nat -> squeezed (sub_from n whitespace s) = true.
Proof.
  induction n as [|n IH]; intros s Hn.
  - destruct s; cbn in Hn; [reflexivity|lia].
  - destruct s as [|c r]; [reflexivity|]. cbn in Hn. cbn [sub_from].
    destruct (Py.is_space c) eqn:E.
    + rewrite (whitespace_white c r E).
      pose proof (span_length Py.is_space r) as Hl.
      pose proof (span_rest_first Py.is_space r) as Hf.
      destruct (snd (span Py.is_space r)) as [|c' r'] eqn:Er.
      * rewrite sub_from_empty. reflexivity.
      * pose proof (Hf c' eq_refl) as Ec'.
        pose proof (IH (String c' r')) as IH'. cbn in Hl.
        destruct n as [|n]; [lia|].
        cbn [sub_from] in *. rewrite (whitespace_other c' r' Ec') in *.
        cbn [String.append]. apply squeezed_after_space; [exact Ec'|].
        apply IH'. cbn. lia.
    + rewrite (whitespace_other c r E). cbn [squeezed]. rewrite E.
      rewrite IH by lia. reflexivity.
Qed.

Lemma lstrip_all p s : all_chars p s = true -> all_chars p (Py.lstrip s) = true.
Proof.
  induction s as [|c s IH]; cbn; [reflexivity|].
  intros H. destruct (Py.is_space c); [|exact H].
  apply andb_true_iff in H as [_ H]. now apply IH.
Qed.

Lemma rstrip_all p s : all_chars p s = true -> all_chars p (Py.rstrip s) = true.
Proof.
  induction s as [|c s IH]; cbn; [reflexivity|].
  intros [Hc Hs]%andb_true_iff. specialize (IH Hs).
  destruct (Py.rstrip s) as [|b r].
  - destruct (Py.is_space c); cbn; [reflexivity|]. now rewrite Hc.
  - cbn in *. now rewrite Hc, IH.
Qed.

Lemma squeezed_tail c r : squeezed (String c r) = true -> squeezed r = true.
Proof. cbn. now intros [_ H]%andb_true_iff. Qed.

Lemma lstrip_squeezed s : squeezed s = true -> squeezed (Py.lstrip s) = true.
Proof.
  induction s as [|c s IH]; [reflexivity|]. intros H. cbn [Py.lstrip].
  destruct (Py.is_space c); [|exact H]. apply IH. eapply squeezed_tail, H.
Qed.

Lemma rstrip_squeezed s : squeezed s = true -> squeezed (Py.rstrip s) = true.
Proof.
  induction s as [|c s IH]; [reflexivity|]. intros H.
  pose proof (IH (squeezed_tail _ _ H)) as IH'. cbn [Py.rstrip].
  pose proof (rstrip_first s) as Hf.
  destruct (Py.rstrip s) as [|b r].
  - destruct (Py.is_space c) eqn:E; [reflexivity|]. cbn. now rewrite E.
  - specialize (Hf b eq_refl). destruct s as [|b' s']; [discriminate|].
    cbn in Hf. injection Hf as ->.
    cbn [squeezed] in H |- *. apply andb_true_iff in H as [H _].
    rewrite H. exact IH'.
Qed.

Lemma cleaned_speakable text : Speaking.speakable (_clean_text_for_speech text).
Proof.
  unfold Speaking.speakable, _clean_text_for_speech, re_sub.
  set (t := sub_from _ unspoken_char _).
  split; [|split].
  - unfold Py.strip. apply rstrip_all, lstrip_all.
    apply sub_whitespace_chars; [reflexivity| |lia].
    apply sub_unspoken_char. lia.
  - unfold Py.strip. apply rstrip_squeezed, lstrip_squeezed.
    apply sub_whitespace_squeezed. lia.
  - apply strip_trimmed.
Qed.

(** X15: whatever the text, what [_clean_text_for_speech] hands to the
    engine holds none of the characters [# * - + = > < | [ ] { }], its
    white space is single spaces only (no tab, no line break, no run of
    spaces), and it neither starts nor ends with one. *)
Theorem clean_text_speakable (text : string) :
  let spoken := _clean_text_for_speech text in
  all_chars (fun c => negb (unspoken c)) spoken = true
  /\ squeezed spoken = true
  /\ trimmed spoken.
Proof. exact (cleaned_speakable text). Qed.

(** *** Plain text *)

Lemma sub_from_never (p : ascii -> bool) pattern :
  (forall c r, p c = true -> pattern (String c r) = None) ->
  forall n s, all_chars p s = true -> sub_from n pattern s = s.
Proof.
  intros Hp. induction n as [|n IH]; intros s Hs; [reflexivity|].
  destruct s as [|c r]; [reflexivity|]. cbn in Hs.
  apply andb_true_iff in Hs as [Hc Hr]. cbn [sub_from].
  now rewrite (Hp c r Hc), IH.
Qed.

Lemma delimited_other a opener stop closer c r :
  Ascii.eqb a c = false ->
  delimited (String a opener) stop closer (String c r) = None.
Proof. intros H. unfold delimited. cbn. now rewrite H. Qed.

Lemma link_other c r : Ascii.eqb "[" c = false -> link (String c r) = None.
Proof. intros H. unfold link. now rewrite delimited_other. Qed.

Lemma plain_char_spec c :
  plain_char c = true ->
  unspoken c = false /\ Ascii.eqb "[" c = false /\ Ascii.eqb "*" c = false
  /\ Ascii.eqb "`" c = false /\ Ascii.eqb c "]" = false.
Proof.
  unfold plain_char. intros [Hu Hc]%andb_true_iff.
  apply negb_true_iff in Hu, Hc. split; [exact Hu|].
  repeat split.
  - destruct (Ascii.eqb_spec "[" c) as [<-|]; [discriminate Hu|reflexivity].
  - destruct (Ascii.eqb_spec "*" c) as [<-|]; [discriminate Hu|reflexivity].
  - destruct (Ascii.eqb_spec "`" c) as [<-|]; [discriminate Hc|reflexivity].
  - destruct (Ascii.eqb_spec c "]") as [->|]; [discriminate Hu|reflexivity].
Qed.

Lemma sub_whitespace_id n : forall s,
  squeezed s = true -> sub_from n whitespace s = s.
Proof.
  induction n as [|n IH]; intros s Hs; [reflexivity|].
  destruct s as [|c r]; [reflexivity|]. cbn [sub_from].
  pose proof (squeezed_tail _ _ Hs) as Hr.
  cbn [squeezed] in Hs. apply andb_true_iff in Hs as [Hc _].
  destruct (Py.is_space c) eqn:E.
  - rewrite (whitespace_white c r E).
    apply andb_true_iff in Hc as [Hc Hnext].
    apply Ascii.eqb_eq in Hc. subst c.
    destruct r as [|c' r'].
    + cbn. now rewrite sub_from_empty.
    + apply negb_true_iff in Hnext. cbn [span]. rewrite Hnext. cbn [snd].
      cbn [String.append]. now rewrite IH.
  - rewrite (whitespace_other c r E). now rewrite IH.
Qed.

(** The four substitutions of markup and the one of the unspoken
    characters leave text of plain characters alone. *)
Lemma markup_plain n pattern s :
  all_chars plain_char s = true ->
  pattern = link \/ pattern = bold \/ pattern = italic \/ pattern = code
  \/ pattern = unspoken_char ->
  sub_from n pattern s = s.
Proof.
  intros Hs Hp. apply (sub_from_never plain_char); [|exact Hs].
  intros c r Hc. destruct (plain_char_spec c Hc) as (Hu & H1 & H2 & H3 & _).
  destruct Hp as [->|[->|[->|[->| ->]]]].
  - now apply link_other.
  - now apply delimited_other.
  - now apply delimited_other.
  - now apply delimited_other.
  - unfold unspoken_char. now rewrite Hu.
Qed.

Lemma clean_plain_unspoken s :
  plain s -> Py.strip (re_sub whitespace (re_sub unspoken_char s)) = s.
Proof.
  intros (Hc & Hs & Ht1 & Ht2). unfold re_sub.
  rewrite (markup_plain _ unspoken_char s Hc) by tauto.
  rewrite (sub_whitespace_id _ s Hs).
  unfold Py.strip. rewrite (lstrip_clean _ Ht1). now apply rstrip_clean.
Qed.

Lemma clean_plain_code s :
  plain s ->
  Py.strip (re_sub whitespace (re_sub unspoken_char (re_sub code s))) = s.
Proof.
  intros H. pose proof H as (Hc & _). unfold re_sub at 3.
  rewrite (markup_plain _ code s Hc) by tauto. now apply clean_plain_unspoken.
Qed.

Lemma clean_plain_from s :
  plain s ->
  Py.strip (re_sub whitespace (re_sub unspoken_char (re_sub code (re_sub italic s))))
  = s.
Proof.
  intros H. pose proof H as (Hc & _). unfold re_sub at 4.
  rewrite (markup_plain _ italic s Hc) by tauto. now apply clean_plain_code.
Qed.

(** X16: text without markup passes unchanged.  If no character of the
    text is a backquote or one of [# * - + = > < | [ ] { }], and its
    white space is single spaces between the words only, then
    [_clean_text_for_speech] returns the text as it is. *)
Theorem clean_text_plain (text : string) :
  plain text -> _clean_text_for_speech text = text.
Proof.
  intros H. pose proof H as (Hc & _). unfold _clean_text_for_speech.
  unfold re_sub at 6. rewrite (markup_plain _ link text Hc) by tauto.
  unfold re_sub at 5. rewrite (markup_plain _ bold text Hc) by tauto.
  now apply clean_plain_from.
Qed.

Lemma clean_text_plain_witness :
  _clean_text_for_speech "hello world" = "hello world".
Proof.
  apply (clean_text_plain "hello world").
  split; [reflexivity|]. split; [reflexivity|].
  split; intros c [= <-]; reflexivity.
Defined.

(** *** Markup *)

Lemma drop_prefix_append p s : drop_prefix p (String.append p s) = Some s.
Proof.
  induction p as [|a p IH]; cbn; [reflexivity|]. now rewrite Ascii.eqb_refl.
Qed.

Lemma span_append keep w c t :
  all_chars keep w = true -> keep c = false ->
  span keep (String.append w (String c t)) = (w, String c t).
Proof.
  intros Hw Hc. induction w as [|a w IH]; cbn.
  - now rewrite Hc.
  - cbn in Hw. apply andb_true_iff in Hw as [Ha Hw]. now rewrite Ha, IH.
Qed.

Lemma other_than_stop stop : other_than stop stop = false.
Proof. unfold other_than. now rewrite Ascii.eqb_refl. Qed.

(** The pattern matches its own markup around a group without [stop]. *)
Lemma delimited_match opener stop closer w t :
  all_chars (other_than stop) w = true -> Py.truthy w = true ->
  delimited opener stop (String stop closer)
    (String.append opener (String.append w (String stop (String.append closer t))))
  = Some (w, t).
Proof.
  intros Hw Hne. unfold delimited. rewrite drop_prefix_append.
  rewrite (span_append _ w stop _ Hw (other_than_stop stop)). rewrite Hne.
  change (String stop (String.append closer t))
    with (String.append (String stop closer) t).
  now rewrite drop_prefix_append.
Qed.

Lemma plain_other_than stop w :
  unspoken stop = true \/ stop = "`"%char ->
  all_chars plain_char w = true -> all_chars (other_than stop) w = true.
Proof.
  intros Hstop. apply all_chars_impl. intros c Hc.
  unfold plain_char in Hc. apply andb_true_iff in Hc as [Hu Hq].
  apply negb_true_iff in Hu, Hq. unfold other_than. apply negb_true_iff.
  destruct (Ascii.eqb_spec c stop) as [->|]; [|reflexivity].
  destruct Hstop as [H| ->]; [congruence|discriminate Hq].
Qed.

(** A lone star in front of a word and one behind it are no bold. *)
Lemma bold_single_star n : forall w,
  all_chars (other_than "*") w = true ->
  sub_from n bold (String.append w "*") = String.append w "*".
Proof.
  induction n as [|n IH]; intros w Hw; [reflexivity|].
  destruct w as [|a w]; cbn [String.append sub_from].
  - cbn. now rewrite sub_from_empty.
  - cbn in Hw. apply andb_true_iff in Hw as [Ha Hw].
    unfold bold at 1. rewrite delimited_other.
    + now rewrite IH.
    + unfold other_than in Ha. apply negb_true_iff in Ha.
      now rewrite Ascii.eqb_sym.
Qed.

Lemma sub_from_step_none n pattern c r :
  pattern (String c r) = None ->
  sub_from (S n) pattern (String c r) = String c (sub_from n pattern r).
Proof. intros H. cbn [sub_from]. now rewrite H. Qed.

Lemma sub_from_whole n pattern c r w :
  pattern (String c r) = Some (w, EmptyString) ->
  sub_from (S n) pattern (String c r) = w.
Proof.
  intros H. cbn [sub_from]. rewrite H, sub_from_empty. apply append_empty.
Qed.

Lemma re_sub_whole pattern s w :
  Py.truthy s = true -> pattern s = Some (w, EmptyString) -> re_sub pattern s = w.
Proof.
  intros Hs H. unfold re_sub. destruct s as [|c r]; [discriminate|].
  cbn [String.length]. now apply sub_from_whole.
Qed.

Lemma re_sub_never (p : ascii -> bool) pattern s :
  (forall c r, p c = true -> pattern (String c r) = None) ->
  all_chars p s = true -> re_sub pattern s = s.
Proof. intros Hp Hs. unfold re_sub. now apply (sub_from_never p). Qed.

Lemma no_bracket c : other_than "[" c = true -> Ascii.eqb "[" c = false.
Proof.
  unfold other_than. intros H%negb_true_iff. now rewrite Ascii.eqb_sym.
Qed.

Lemma no_star c : other_than "*" c = true -> Ascii.eqb "*" c = false.
Proof.
  unfold other_than. intros H%negb_true_iff. now rewrite Ascii.eqb_sym.
Qed.

Lemma re_sub_link_without s :
  all_chars (other_than "[") s = true -> re_sub link s = s.
Proof.
  apply re_sub_never. intros c r Hc. apply link_other. now apply no_bracket.
Qed.

Lemma re_sub_star_without pattern s :
  pattern = bold \/ pattern = italic ->
  all_chars (other_than "*") s = true -> re_sub pattern s = s.
Proof.
  intros Hp. apply re_sub_never. intros c r Hc. apply no_star in Hc.
  destruct Hp as [-> | ->]; now apply delimited_other.
Qed.

(** X17: markup around plain text is taken away and the text is kept.
    For a plain, non-empty [w], [_clean_text_for_speech] turns each of
    [**w**], [*w*], [`w`] and [[w](url)] into [w]; of a link only the
    label is spoken, never the address. *)
Theorem clean_text_markup (w url : string) :
  plain w -> Py.truthy w = true ->
  Py.truthy url = true -> all_chars (other_than ")") url = true ->
  _clean_text_for_speech (String.append "**" (String.append w "**")) = w
  /\ _clean_text_for_speech (String.append "*" (String.append w "*")) = w
  /\ _clean_text_for_speech (String.append "`" (String.append w "`")) = w
  /\ _clean_text_for_speech
       (String.append "[" (String.append w
          (String.append "](" (String.append url ")")))) = w.
Proof.
  intros Hplain Hw Hurl Hu. pose proof Hplain as (Hc & _).
  pose proof (plain_other_than "*" w (or_introl eq_refl) Hc) as Hstar.
  pose proof (plain_other_than "[" w (or_introl eq_refl) Hc) as Hopen.
  pose proof (plain_other_than "]" w (or_introl eq_refl) Hc) as Hclose.
  pose proof (plain_other_than "`" w (or_intror eq_refl) Hc) as Hquote.
  unfold _clean_text_for_speech. split; [|split; [|split]].
  - rewrite re_sub_link_without
      by (rewrite !all_chars_append, Hopen; reflexivity).
    rewrite (re_sub_whole bold _ w); [|reflexivity|].
    + now apply clean_plain_from.
    + exact (delimited_match "**" "*" "*" w "" Hstar Hw).
  - rewrite re_sub_link_without
      by (rewrite !all_chars_append, Hopen; reflexivity).
    assert (Hb : re_sub bold (String.append "*" (String.append w "*"))
                 = String.append "*" (String.append w "*")).
    { unfold re_sub. destruct w as [|a w']; [discriminate|].
      change (String.append "*" (String.append (String a w') "*"))
        with (String "*" (String.append (String a w') "*")).
      cbn [String.length]. rewrite sub_from_step_none.
      - f_equal. now apply bold_single_star.
      - cbn in Hstar. apply andb_true_iff in Hstar as [Ha _].
        unfold bold, delimited. cbn [drop_prefix String.append].
        now rewrite Ascii.eqb_refl, (no_star a Ha). }
    rewrite Hb. rewrite (re_sub_whole italic _ w); [|reflexivity|].
    + now apply clean_plain_code.
    + exact (delimited_match "*" "*" "" w "" Hstar Hw).
  - rewrite re_sub_link_without
      by (rewrite !all_chars_append, Hopen; reflexivity).
    rewrite (re_sub_star_without bold)
      by (tauto || (rewrite !all_chars_append, Hstar; reflexivity)).
    rewrite (re_sub_star_without italic)
      by (tauto || (rewrite !all_chars_append, Hstar; reflexivity)).
    rewrite (re_sub_whole code _ w); [|reflexivity|].
    + now apply clean_plain_unspoken.
    + exact (delimited_match "`" "`" "" w "" Hquote Hw).
  - rewrite (re_sub_whole link _ w); [|reflexivity|].
    + rewrite (re_sub_star_without bold w) by tauto.
      now apply clean_plain_from.
    + pose proof (delimited_match "[" "]" "(" w (String.append url ")") Hclose Hw)
        as H1.
      pose proof (delimited_match "" ")" "" url "" Hu Hurl) as H2.
      unfold link.
      change (String.append "[" (String.append w
                (String.append "](" (String.append url ")"))))
        with (String.append "[" (String.append w
                (String "]" (String.append "(" (String.append url ")"))))).
      rewrite H1.
      change (String.append url ")")
        with (String.append "" (String.append url
                (String ")" (String.append "" "")))).
      now rewrite H2.
Qed.

Lemma clean_text_markup_witness :
  _clean_text_for_speech "**the docs**" = "the docs"
  /\ _clean_text_for_speech "[the docs](http://x.y/z)" = "the docs".
Proof.
  destruct (clean_text_markup "the docs" "http://x.y/z") as (H1 & _ & _ & H4).
  - split; [reflexivity|]. split; [reflexivity|].
    split; intros c [= <-]; reflexivity.
  - reflexivity.
  - reflexivity.
  - reflexivity.
  - split; [exact H1|exact H4].
Defined.

End SpeechFacts.

(** ** Speaking *)

Module SpeakingFacts.
Import Speaking.

Ltac unfold_speaking :=
  unfold speak_text, stop_speaking, _speak_text_thread, log, try_except, bind,
    get, lift, raise, ret, modify;
  cbn [tts_engine is_speaking on_speaking_started on_speaking_finished
       thread_start engine_say engine_stop started said logged
       with_is_speaking with_started with_said with_logged fst snd].

Ltac simpl_speaking :=
  cbn [tts_engine is_speaking on_speaking_started on_speaking_finished
       thread_start engine_say engine_stop started said logged
       with_is_speaking with_started with_said with_logged fst snd].

Ltac thread_cases s text :=
  unfold_speaking;
  destruct (on_speaking_started s) as [cb|]; [destruct (cb text) as [[]|e]|];
  destruct (tts_engine s); simpl_speaking;
  try (destruct (engine_say s _) as [[]|e']; simpl_speaking);
  destruct (on_speaking_finished s) as [[[]|e'']|]; reflexivity.

(** X18: the speech thread always ends with [is_speaking] down, and the
    only exception that can leave it is one of the
    [on_speaking_finished] callback.  The engine is handed the cleaned
    text, once, exactly when there is an engine and the
    [on_speaking_started] callback did not raise, and nothing else: if
    all it was asked to say so far was fit for speech, it still is. *)
Theorem speech_thread_finishes (text : string) (s : state) :
  let s' := snd (_speak_text_thread text s) in
  is_speaking s' = false
  /\ fst (_speak_text_thread text s)
     = match on_speaking_finished s with
       | Some callback => callback
       | None => Return tt
       end
  /\ said s'
     = (if tts_engine s
           && match on_speaking_started s with
              | Some callback =>
                  match callback text with Return _ => true | Raise _ => false end
              | None => true
              end
        then said s ++ [Speech._clean_text_for_speech text]
        else said s)
  /\ (Forall speakable (said s) -> Forall speakable (said s'))
  /\ started s' = started s.
Proof.
  cbn zeta.
  assert (Hsaid : said (snd (_speak_text_thread text s))
     = (if tts_engine s
           && match on_speaking_started s with
              | Some callback =>
                  match callback text with Return _ => true | Raise _ => false end
              | None => true
              end
        then said s ++ [Speech._clean_text_for_speech text]
        else said s)).
  { thread_cases s text. }
  split; [|split; [|split; [exact Hsaid|split]]].
  - thread_cases s text.
  - thread_cases s text.
  - intros H. rewrite Hsaid. destruct (_ && _); [|exact H].
    apply Forall_app. split; [exact H|].
    constructor; [apply SpeechFacts.cleaned_speakable|constructor].
  - thread_cases s text.
Qed.

Lemma strip_truthy text :
  negb (Py.truthy text) || negb (Py.truthy (Py.strip text)) = false
  <-> Py.strip text <> "".
Proof.
  destruct text as [|c r]; [cbn; split; [discriminate|congruence]|].
  cbn [Py.truthy negb orb].
  destruct (Py.strip (String c r)); cbn; split; congruence.
Qed.

Lemma speak_text_returns text interrupt_current s :
  exists b, fst (speak_text text interrupt_current s) = Return b.
Proof.
  unfold_speaking.
  destruct (tts_engine s) eqn:He; cbn [negb]; [|eauto].
  destruct (negb (Py.truthy text) || negb (Py.truthy (Py.strip text))); [eauto|].
  destruct interrupt_current; cbn [andb].
  - destruct (is_speaking s) eqn:Hs; cbn.
    + rewrite He, Hs. cbn.
      destruct (engine_stop s) as [[]|e]; cbn;
        destruct (thread_start s) as [[]|e']; cbn; eauto.
    + destruct (thread_start s) as [[]|e']; cbn; eauto.
  - destruct (thread_start s) as [[]|e']; cbn; eauto.
Qed.

(** X19: [speak_text] never raises.  It answers true exactly when there
    is an engine, the text is not blank and the speech thread starts;
    the thread then gets the stripped text.  In every other case no
    thread is started.  The call itself hands nothing to the engine. *)
Theorem speak_text_guarded (text : string) (interrupt_current : bool) (s : state) :
  let s' := snd (speak_text text interrupt_current s) in
  exists b,
    fst (speak_text text interrupt_current s) = Return b
    /\ (b = true <-> tts_engine s = true /\ Py.strip text <> ""
                     /\ thread_start s = Return tt)
    /\ started s' = (if b then started s ++ [Py.strip text] else started s)
    /\ said s' = said s
    /\ (interrupt_current = false -> is_speaking s' = is_speaking s).
Proof.
  cbn zeta. pose proof (strip_truthy text) as Hblank. unfold_speaking.
  destruct (tts_engine s) eqn:He; cbn [negb].
  2:{ exists false. cbn. intuition congruence. }
  destruct (negb (Py.truthy text) || negb (Py.truthy (Py.strip text))) eqn:Hb.
  { exists false. cbn. split; [reflexivity|]. split; [|tauto].
    split; [discriminate|]. intros (_ & H & _). apply Hblank in H. congruence. }
  assert (Hne : Py.strip text <> "") by now apply Hblank.
  destruct interrupt_current; cbn [andb].
  - destruct (is_speaking s) eqn:Hs; cbn.
    + rewrite He, Hs. cbn.
      destruct (engine_stop s) as [[]|e]; cbn;
        destruct (thread_start s) as [[]|e']; cbn;
        eexists; (split; [reflexivity|]); intuition congruence.
    + destruct (thread_start s) as [[]|e']; cbn;
        eexists; (split; [reflexivity|]); intuition congruence.
  - destruct (thread_start s) as [[]|e']; cbn;
      eexists; (split; [reflexivity|]); intuition congruence.
Qed.

Lemma speech_thread_finishes_witness :
  is_speaking (snd (_speak_text_thread "**hi**" heckled_service)) = false
  /\ said (snd (_speak_text_thread "**hi**" heckled_service)) = [].
Proof.
  destruct (speech_thread_finishes "**hi**" heckled_service) as (H1 & _ & H2 & _).
  split; [exact H1|exact H2].
Defined.

Lemma speak_text_guarded_witness :
  fst (speak_text "  hi  " false quiet_service) = Return true
  /\ started (snd (speak_text "  hi  " false quiet_service)) = ["hi"].
Proof.
  destruct (speak_text_guarded "  hi  " false quiet_service)
    as (b & Hb & Hiff & Hstarted & _).
  assert (b = true) as ->.
  { apply Hiff. split; [reflexivity|]. split; [discriminate|reflexivity]. }
  split; [exact Hb|exact Hstarted].
Defined.

End SpeakingFacts.

(** ** The handlers *)

Module HandlersFacts.
Import ConversationModel Store Housekeeping Handlers.
Import ConversationModelFacts.

Ltac simpl_handlers :=
  cbn [conversation_model ai_service voice_service connected_clients wall
       wall_ticks emitted Handlers.logged with_conversation_model
       with_ai_service with_voice_service with_connected_clients
       with_wall_ticks with_emitted Handlers.with_logged fst snd].

Ltac unfold_handlers :=
  unfold handle_voice_input, handle_connect, handle_disconnect,
    if_conversation_model, if_voice_service, on_ai_service, unpack,
    Handlers.datetime_now, emit, Handlers.log, try_except, bind, get, lift,
    raise, ret, modify;
  simpl_handlers.

Lemma history_returns u c sid limit offset s :
  fst (get_conversation_history u c sid limit offset s)
  = Return (history u c sid limit offset s).
Proof.
  unfold history. now rewrite get_conversation_history_result.
Qed.

Lemma create_conversation_offline um ar u cid sid mt md s :
  online s = false ->
  fst (create_conversation um ar u cid sid mt md s)
  = Raise (PyMongoError "ServerSelectionTimeoutError")
  /\ conversations (snd (create_conversation um ar u cid sid mt md s))
     = conversations s.
Proof.
  intros Hon. unfold_store.
  destruct (truthy_str cid); cbn; rewrite ?Hon; cbn; rewrite ?Hon; split; reflexivity.
Qed.

Lemma create_conversation_online um ar u cid sid mt md s :
  online s = true ->
  exists oid, fst (create_conversation um ar u cid sid mt md s) = Return oid.
Proof.
  intros Hon. unfold_store.
  destruct (truthy_str cid); cbn; rewrite ?Hon; cbn; rewrite ?Hon; eauto.
Qed.

Lemma get_ai_response_returns ui h ct te mt s :
  exists reply metadata,
    fst (ZyeonAIService.get_ai_response ui h ct te mt s)
    = Return (Some (reply, metadata)).
Proof.
  destruct (ZyeonAIServiceFacts.get_ai_response_never_raises
              (Trace.Call ui h ct te mt) s) as (t & md & H & _).
  exists t, md. exact H.
Qed.

(** X20: a reply recognised speech gets is stored before it is sent, and
    lost when it cannot be stored.  With an assistant and a database
    configured, [handle_voice_input] never raises and asks the assistant
    once, with the history it could read.  If the database answers, the
    reply is stored as a turn of the user ["voice_user"] and then sent to
    the clients, whether it is an answer or an apology.  If the database
    is away, the assistant is asked all the same, but its reply is
    neither sent nor spoken: the failed write ends the handler with a
    log entry only. *)
Theorem voice_reply_stored_or_lost (text : string) (s : Handlers.state)
    (model : ConversationModel.state) (service : ZyeonAIService.state) :
  conversation_model s = Some model -> ai_service s = Some service ->
  let s' := snd (handle_voice_input text s) in
  let asked := history (Some "voice_user") None None 10 0 model in
  let answer :=
    ZyeonAIService.get_ai_response text (Some asked) "voice" (7 # 10) None service in
  fst (handle_voice_input text s) = Return tt
  /\ ai_service s' = Some (snd answer)
  /\ exists reply metadata,
       fst answer = Return (Some (reply, metadata))
       /\ if online model
          then
            emitted s'
            = emitted s ++ [VoiceInputReceived text;
                            AiResponse reply (wall s (wall_ticks s)) "voice" metadata]
            /\ exists model' d,
                 conversation_model s' = Some model'
                 /\ conversations model' = conversations model ++ [d]
                 /\ d !! "user_message" = Some (VStr text)
                 /\ d !! "ai_response" = Some (VStr reply)
                 /\ d !! "user_id" = Some (VStr "voice_user")
                 /\ d !! "message_type" = Some (VStr "voice")
          else
            emitted s' = emitted s ++ [VoiceInputReceived text]
            /\ voice_service s' = voice_service s
            /\ Handlers.logged s'
               = Handlers.logged s
                 ++ [LogVoiceInputError (PyMongoError "ServerSelectionTimeoutError")]
            /\ exists model',
                 conversation_model s' = Some model'
                 /\ conversations model' = conversations model.
Proof.
  intros Hmodel Hservice. cbn zeta.
  pose proof (history_returns (Some "voice_user") None None 10 0 model) as Hh.
  destruct (get_conversation_history_frame (Some "voice_user") None None 10 0 model)
    as (Hc1 & _ & _ & Hon1).
  destruct (get_ai_response_returns text
              (Some (history (Some "voice_user") None None 10 0 model))
              "voice" (7 # 10) None service) as (reply & metadata & Ha).
  unfold_handlers. rewrite Hservice. simpl_handlers.
  rewrite Hmodel. simpl_handlers.
  destruct (get_conversation_history (Some "voice_user") None None 10 0 model)
    as [o1 model1]. cbn [fst snd] in Hh, Hc1, Hon1. subst o1. simpl_handlers.
  destruct (ZyeonAIService.get_ai_response text _ "voice" (7 # 10) None service)
    as [o2 service2]. cbn [fst snd] in Ha |- *. subst o2. simpl_handlers.
  destruct (online model) eqn:Hon.
  - destruct (RoundTripFacts.create_conversation_written
                text reply "voice_user" None None "voice" (Some metadata) model1 Hon1)
      as (d & _ & _ & Hum & Har & Hu & Hmt & Hconv & _).
    destruct (create_conversation_online
                text reply "voice_user" None None "voice" (Some metadata) model1 Hon1)
      as (oid & Hoid).
    destruct (create_conversation text reply "voice_user" None None "voice"
                                  (Some metadata) model1) as [o3 model2].
    cbn [fst snd] in Hconv, Hoid. subst o3. simpl_handlers.
    destruct (voice_service s) as [voice|] eqn:Hv; simpl_handlers.
    + destruct (SpeakingFacts.speak_text_returns reply false voice) as (b & Hb).
      destruct (Speaking.speak_text reply false voice) as [o4 voice'].
      cbn [fst] in Hb. subst o4. simpl_handlers.
      split; [reflexivity|]. split; [reflexivity|].
      exists reply, metadata. split; [reflexivity|].
      split; [now rewrite <- app_assoc|].
      exists model2, d. rewrite Hconv, Hc1. auto 10.
    + split; [reflexivity|]. split; [reflexivity|].
      exists reply, metadata. split; [reflexivity|].
      split; [now rewrite <- app_assoc|].
      exists model2, d. rewrite Hconv, Hc1. auto 10.
  - assert (Hoff : online model1 = false) by congruence.
    destruct (create_conversation_offline
                text reply "voice_user" None None "voice" (Some metadata) model1 Hoff)
      as (Hraise & Hconv).
    destruct (create_conversation text reply "voice_user" None None "voice"
                                  (Some metadata) model1) as [o3 model2].
    cbn [fst snd] in Hconv, Hraise. subst o3. simpl_handlers.
    split; [reflexivity|]. split; [reflexivity|].
    exists reply, metadata. split; [reflexivity|].
    split; [reflexivity|]. split; [reflexivity|]. split; [reflexivity|].
    exists model2. rewrite Hconv, Hc1. auto.
Qed.

Lemma voice_reply_stored_or_lost_witness :
  replies (snd (handle_voice_input "hello"
                  (fresh_process (empty_store true) Trace.flaky_service)))
  = [ZyeonAIService.connection_apology]
  /\ replies (snd (handle_voice_input "hello"
                     (fresh_process (empty_store false) Trace.flaky_service)))
     = [].
Proof.
  split.
  - destruct (voice_reply_stored_or_lost "hello"
                (fresh_process (empty_store true) Trace.flaky_service)
                (empty_store true) Trace.flaky_service eq_refl eq_refl)
      as (_ & _ & reply & metadata & Ha & Hemitted & _).
    unfold replies. rewrite Hemitted. cbn [emitted fresh_process app flat_map].
    f_equal.
    assert (Hreply : Return (Some (reply, metadata))
                     = Return (Some (ZyeonAIService.connection_apology,
                                     (∅ : dict)))).
    { rewrite <- Ha. vm_compute. reflexivity. }
    congruence.
  - destruct (voice_reply_stored_or_lost "hello"
                (fresh_process (empty_store false) Trace.flaky_service)
                (empty_store false) Trace.flaky_service eq_refl eq_refl)
      as (_ & _ & reply & metadata & _ & Hemitted & _).
    unfold replies. rewrite Hemitted. reflexivity.
Defined.

(** *** Connecting and disconnecting *)







End HandlersFacts.
